(** * ELM327 OBD-II monitor: a shallow embedding of the two GUI programs

    The repository holds two PyQt front ends over the python-OBD library:
    - [src/main.py], class [OBDMonitor]: polls eight metrics on a timer,
      reads and clears trouble codes, saves the stored metrics to a CSV file;
    - [src/src/main.py], class [MainWindow]: connects to a Wi-Fi adapter and
      watches one selected metric through [obd.Async].

    Each method is translated to a function in a small state-and-exception
    monad.  Widgets are fields of the window's state.  Everything the
    programs do to the outside (library calls, clock reads, dialogs, file
    operations) is recorded in a trace, and everything the outside answers is
    read from an environment that sees the trace so far, so that a theorem
    quantified over environments covers every behaviour of the adapter. *)

From Stdlib Require Import String Ascii List ZArith Bool Arith Lia DecimalString.
Import ListNotations.
Open Scope string_scope.

(** ** Python values as the programs observe them *)

(** [f"{m}"] and [f"{m:.1f}"] of a quantity's magnitude.  The magnitude is a
    float; the programs only ever print it, so it is kept as its two
    renderings. *)
Record Magnitude := { shown : string; fixed1 : string }.

(** A Pint quantity: the values that have both [magnitude] and [units]. *)
Record Quantity := { magnitude : Magnitude; units : string }.

(** A decoded value: [str(value)], and the quantity when [hasattr(value,
    'magnitude')] (python-OBD quantities have [units] whenever they have
    [magnitude]). *)
Record Value := { str : string; quantity : option Quantity }.

(** An [OBDResponse]: [is_null()] or a value. *)
Inductive Response (A : Type) :=
| Null
| Decoded (value : A).
Arguments Null {A}.
Arguments Decoded {A} value.

Definition is_null {A} (r : Response A) : bool :=
  match r with Null => true | Decoded _ => false end.

(** An [OBDCommand], by its name. *)
Inductive Command := Cmd (name : string).

Definition cmd_name (c : Command) : string := let 'Cmd n := c in n.

Module commands.
Definition RPM := Cmd "RPM".
Definition SPEED := Cmd "SPEED".
Definition COOLANT_TEMP := Cmd "COOLANT_TEMP".
Definition INTAKE_TEMP := Cmd "INTAKE_TEMP".
Definition ENGINE_LOAD := Cmd "ENGINE_LOAD".
Definition FUEL_LEVEL := Cmd "FUEL_LEVEL".
Definition THROTTLE_POS := Cmd "THROTTLE_POS".
Definition TIMING_ADVANCE := Cmd "TIMING_ADVANCE".
Definition GET_DTC := Cmd "GET_DTC".
Definition CLEAR_DTC := Cmd "CLEAR_DTC".
Definition VIN := Cmd "VIN".
End commands.

(** [obd.OBDStatus]: four string constants. *)
Inductive OBDStatus := NOT_CONNECTED | ELM_CONNECTED | OBD_CONNECTED | CAR_CONNECTED.

Definition OBDStatus_str (s : OBDStatus) : string :=
  match s with
  | NOT_CONNECTED => "Not Connected"
  | ELM_CONNECTED => "ELM Connected"
  | OBD_CONNECTED => "OBD Connected"
  | CAR_CONNECTED => "Car Connected"
  end.

Definition OBDStatus_eqb (a b : OBDStatus) : bool :=
  OBDStatus_str a =? OBDStatus_str b.

(** Truth value of a reference that is [None] or an object. *)
Definition truthy {A} (o : option A) : bool :=
  match o with Some _ => true | None => false end.

(** The newline of the Python literals. *)
Definition nl : string := String (ascii_of_nat 10) EmptyString.

(** [str(n)] of a length. *)
Definition str_nat (n : nat) : string := NilEmpty.string_of_uint (Nat.to_uint n).

(** ** The outside world *)

Inductive DialogKind := Warning | Critical | Information | Question.

(** One interaction with the outside, in program order. *)
Inductive Event :=
| OBD_new (portstr : option string)      (* obd.OBD() or obd.OBD(portstr) *)
| OBD_query (c : Command)                (* connection.query(c) *)
| OBD_close                              (* connection.close() *)
| Async_new                              (* obd.Async(port=connection.port) *)
| Async_watch (h : nat) (c : Command)    (* async.watch(c, callback=...) *)
| Async_start (h : nat)                  (* async.start() *)
| Async_stop (h : nat)                   (* async.stop() *)
| Clock                                  (* time.strftime / time.time *)
| Dialog (kind : DialogKind) (title text : string)
| File_open (filename : string)          (* open(filename, 'w') *)
| File_write (filename text : string)    (* f.write(text) *)
| ProcessEvents.                         (* QApplication.processEvents() *)

(** What the outside answers, given the events so far (most recent first).
    [raises] says whether a call raises, and with which [str(e)]; the
    accessors of the library ([status], [is_connected], [supports],
    [supported_commands]) only read and do not raise. *)
Record Env := {
  raises : list Event -> Event -> option string;
  status : list Event -> OBDStatus;
  is_connected : list Event -> bool;
  supports : list Event -> Command -> bool;
  supported_commands : list Event -> list Command;
  reply : list Event -> Command -> Response Value;
  dtc_reply : list Event -> Response (list (string * string));
  strftime : list Event -> string -> string;
  time_time : list Event -> Z;
  answers_yes : list Event -> bool;
  known_command : string -> bool
}.

Definition is_query (ev : Event) : bool :=
  match ev with OBD_query _ => true | _ => false end.

Definition is_dialog (ev : Event) : bool :=
  match ev with Dialog _ _ _ => true | _ => false end.


(** The calls that reach the adapter. *)
Definition is_library_call (ev : Event) : bool :=
  match ev with
  | OBD_new _ | OBD_query _ | OBD_close
  | Async_new | Async_watch _ _ | Async_start _ | Async_stop _ => true
  | _ => false
  end.

(** The connection strings given to [obd.OBD] in a trace, oldest first. *)
Definition opened (tr : list Event) : list (option string) :=
  flat_map (fun ev => match ev with OBD_new p => [p] | _ => [] end) (rev tr).

(** The queries of a trace, oldest first. *)
Definition queries (tr : list Event) : list Command :=
  flat_map (fun ev => match ev with OBD_query c => [c] | _ => [] end) (rev tr).

(** ** Statements that change a state and may raise *)

Inductive result (A : Type) :=
| Ok (a : A)
| Raise (e : string).
Arguments Ok {A} a.
Arguments Raise {A} e.

Definition raised {A} (r : result A) : bool :=
  match r with Ok _ => false | Raise _ => true end.

(** A statement: from a state to its outcome and the state it leaves.  What
    was assigned before an exception stays assigned. *)
Definition M (S A : Type) : Type := S -> result A * S.

Definition ret {S A} (a : A) : M S A := fun s => (Ok a, s).

Definition bind {S A B} (m : M S A) (k : A -> M S B) : M S B :=
  fun s => match m s with
           | (Ok a, s') => k a s'
           | (Raise e, s') => (Raise e, s')
           end.

Definition gets {S A} (f : S -> A) : M S A := fun s => (Ok (f s), s).

Definition modify {S} (f : S -> S) : M S unit := fun s => (Ok tt, f s).

(** [try: body except Exception as e: handler(str(e))]. *)
Definition try_except {S A} (body : M S A) (handler : string -> M S A) : M S A :=
  fun s => match body s with
           | (Ok a, s') => (Ok a, s')
           | (Raise e, s') => handler e s'
           end.

(** [for x in xs: body(x)]. *)
Fixpoint for_each {S A} (xs : list A) (body : A -> M S unit) : M S unit :=
  match xs with
  | [] => ret tt
  | x :: rest => bind (body x) (fun _ => for_each rest body)
  end.

Declare Scope py_scope.
Delimit Scope py_scope with py.
Notation "x <- m ;; k" := (bind m (fun x => k))
  (at level 61, m at next level, right associativity) : py_scope.
Notation "m ;; k" := (bind m (fun _ => k))
  (at level 61, right associativity) : py_scope.
Open Scope py_scope.

(** ** What a statement does to the state *)

(** [m] leaves the observation [f] of the state as it was, whether it
    returns or raises. *)
Definition preserves {S A X} (f : S -> X) (m : M S A) : Prop :=
  forall s, f (snd (m s)) = f s.

(** [m] returns: no exception leaves it. *)
Definition returns {S A} (m : M S A) : Prop :=
  forall s, raised (fst (m s)) = false.

(** [m] keeps the property [P] of the state. *)
Definition keeps {S A} (P : S -> Prop) (m : M S A) : Prop :=
  forall s, P s -> P (snd (m s)).

(** [m] appends [xs] to the list [f] reads off the state, whether it returns
    or raises. *)
Definition adds {S A X} (f : S -> list X) (m : M S A) (xs : list X) : Prop :=
  forall s, f (snd (m s)) = (f s ++ xs)%list.

(** ** Dictionaries in insertion order *)

(** [d[k] = v]: an existing key keeps its place, a new key goes last. *)
Fixpoint dict_set {V} (k : string) (v : V) (d : list (string * V)) : list (string * V) :=
  match d with
  | [] => [(k, v)]
  | (k', v') :: rest =>
      if k' =? k then (k, v) :: rest else (k', v') :: dict_set k v rest
  end.

Fixpoint dict_get {V} (k : string) (d : list (string * V)) : option V :=
  match d with
  | [] => None
  | (k', v') :: rest => if k' =? k then Some v' else dict_get k rest
  end.

(** * The query engine behind [connection.query] *)

(** Both programs call [connection.query] of the [obd] library, whose code is
    not among the repository's files. *)

Module QueryEngine.

(** Modelled from the spec: the Command descriptor of the data model
    ({name, request_bytes, decode, expected_response_bytes}), which the
    library's catalog holds and the repository does not define.  [decode]
    gives no value when decoding fails (malformed frame, unexpected
    length). *)
Record Descriptor := {
  name : string;
  request_bytes : list Byte.byte;
  decode : list Byte.byte -> option Value;
  expected_response_bytes : option nat
}.

(** Modelled from the spec: what the transport's [read_frame(timeout)] gives
    for one request (section 4.3, not in the repository): exactly one logical
    reply, no reply within the deadline, or a byte stream that is closed or
    errors. *)
Inductive Frame :=
| Reply (raw : list Byte.byte)
| NoReply
| StreamError.

(** Modelled from the spec: [query(connection, command)] of the Query Engine
    (section 4.1, the library's [Connection.query], not in the repository).
    It fails with [TimeoutError] if no framed reply arrives within the
    deadline and with [TransportError] if the byte stream is closed or
    errors; on success it parses the raw reply using [command.decode], and if
    decoding fails it returns a Response with [is_null = true] rather than
    raising.  The Response is given as the programs read it: null, or its
    value. *)
Definition query (frame : Frame) (c : Descriptor) : result (Response Value) :=
  match frame with
  | NoReply => Raise "TimeoutError"
  | StreamError => Raise "TransportError"
  | Reply raw =>
      match decode c raw with
      | Some value => Ok (Decoded value)
      | None => Ok Null
      end
  end.

(** The outside world in which [connection.query] is [query] over the frames
    [read_frame] gives and the descriptors of [catalog]; every other call is
    answered as [base] answers it. *)
Definition library (read_frame : list Event -> Command -> Frame)
    (catalog : Command -> Descriptor) (base : Env) : Env :=
  {| raises := fun tr ev =>
       match ev with
       | OBD_query c =>
           match query (read_frame tr c) (catalog c) with
           | Raise e => Some e
           | Ok _ => None
           end
       | _ => raises base tr ev
       end;
     status := status base;
     is_connected := is_connected base;
     supports := supports base;
     supported_commands := supported_commands base;
     reply := fun tr c =>
       match query (read_frame tr c) (catalog c) with
       | Ok response => response
       | Raise _ => Null
       end;
     dtc_reply := dtc_reply base;
     strftime := strftime base;
     time_time := time_time base;
     answers_yes := answers_yes base;
     known_command := known_command base |}.

End QueryEngine.

(** * [src/main.py]: class [OBDMonitor] *)

Module OBDMonitor.

(** An entry of [self.metric_widgets]: the text of the value label and the
    command it shows. *)
Record MetricWidget := { label : string; command : Command }.

Record State := {
  connection : option nat;                         (* self.connection: None or an obd.OBD object *)
  connected : bool;                                (* self.connected *)
  metrics : list (string * Value);                 (* self.metrics *)
  metric_widgets : list (string * MetricWidget);   (* self.metric_widgets *)
  port_input : string;                             (* self.port_input.text() *)
  connect_button : string;                         (* text of self.connect_button *)
  status_label : string;                           (* text of self.status_label *)
  status_style : string;                           (* its style sheet *)
  console : list string;                           (* paragraphs of self.console *)
  timer : option nat;                              (* self.timer: its interval while active *)
  files : list (string * list string);             (* files written: name, chunks in order *)
  trace : list Event                               (* interactions so far, most recent first *)
}.

Definition set_connection v (s : State) : State :=
  {| connection := v; connected := connected s; metrics := metrics s;
     metric_widgets := metric_widgets s; port_input := port_input s;
     connect_button := connect_button s; status_label := status_label s;
     status_style := status_style s; console := console s; timer := timer s;
     files := files s; trace := trace s |}.

Definition set_connected v (s : State) : State :=
  {| connection := connection s; connected := v; metrics := metrics s;
     metric_widgets := metric_widgets s; port_input := port_input s;
     connect_button := connect_button s; status_label := status_label s;
     status_style := status_style s; console := console s; timer := timer s;
     files := files s; trace := trace s |}.

Definition set_metrics v (s : State) : State :=
  {| connection := connection s; connected := connected s; metrics := v;
     metric_widgets := metric_widgets s; port_input := port_input s;
     connect_button := connect_button s; status_label := status_label s;
     status_style := status_style s; console := console s; timer := timer s;
     files := files s; trace := trace s |}.

Definition set_metric_widgets v (s : State) : State :=
  {| connection := connection s; connected := connected s; metrics := metrics s;
     metric_widgets := v; port_input := port_input s;
     connect_button := connect_button s; status_label := status_label s;
     status_style := status_style s; console := console s; timer := timer s;
     files := files s; trace := trace s |}.

Definition set_port_input v (s : State) : State :=
  {| connection := connection s; connected := connected s; metrics := metrics s;
     metric_widgets := metric_widgets s; port_input := v;
     connect_button := connect_button s; status_label := status_label s;
     status_style := status_style s; console := console s; timer := timer s;
     files := files s; trace := trace s |}.

Definition set_connect_button v (s : State) : State :=
  {| connection := connection s; connected := connected s; metrics := metrics s;
     metric_widgets := metric_widgets s; port_input := port_input s;
     connect_button := v; status_label := status_label s;
     status_style := status_style s; console := console s; timer := timer s;
     files := files s; trace := trace s |}.

Definition set_status_label v (s : State) : State :=
  {| connection := connection s; connected := connected s; metrics := metrics s;
     metric_widgets := metric_widgets s; port_input := port_input s;
     connect_button := connect_button s; status_label := v;
     status_style := status_style s; console := console s; timer := timer s;
     files := files s; trace := trace s |}.

Definition set_status_style v (s : State) : State :=
  {| connection := connection s; connected := connected s; metrics := metrics s;
     metric_widgets := metric_widgets s; port_input := port_input s;
     connect_button := connect_button s; status_label := status_label s;
     status_style := v; console := console s; timer := timer s;
     files := files s; trace := trace s |}.

Definition set_console v (s : State) : State :=
  {| connection := connection s; connected := connected s; metrics := metrics s;
     metric_widgets := metric_widgets s; port_input := port_input s;
     connect_button := connect_button s; status_label := status_label s;
     status_style := status_style s; console := v; timer := timer s;
     files := files s; trace := trace s |}.

Definition set_timer v (s : State) : State :=
  {| connection := connection s; connected := connected s; metrics := metrics s;
     metric_widgets := metric_widgets s; port_input := port_input s;
     connect_button := connect_button s; status_label := status_label s;
     status_style := status_style s; console := console s; timer := v;
     files := files s; trace := trace s |}.

Definition set_files v (s : State) : State :=
  {| connection := connection s; connected := connected s; metrics := metrics s;
     metric_widgets := metric_widgets s; port_input := port_input s;
     connect_button := connect_button s; status_label := status_label s;
     status_style := status_style s; console := console s; timer := timer s;
     files := v; trace := trace s |}.

Definition set_trace v (s : State) : State :=
  {| connection := connection s; connected := connected s; metrics := metrics s;
     metric_widgets := metric_widgets s; port_input := port_input s;
     connect_button := connect_button s; status_label := status_label s;
     status_style := status_style s; console := console s; timer := timer s;
     files := files s; trace := v |}.

(** The command catalog held by the widgets: names and their commands. *)
Definition catalog (s : State) : list (string * Command) :=
  map (fun nw => (fst nw, command (snd nw))) (metric_widgets s).

(** The value labels, by name. *)
Definition labels (s : State) : list (string * string) :=
  map (fun nw => (fst nw, label (snd nw))) (metric_widgets s).

(** The static table of [init_ui]. *)
Definition metrics_table : list (string * Command) :=
  [ ("RPM", commands.RPM);
    ("Speed", commands.SPEED);
    ("Coolant Temp", commands.COOLANT_TEMP);
    ("Intake Temp", commands.INTAKE_TEMP);
    ("Load", commands.ENGINE_LOAD);
    ("Fuel Level", commands.FUEL_LEVEL);
    ("Throttle Pos", commands.THROTTLE_POS);
    ("Timing Advance", commands.TIMING_ADVANCE) ].

(** A statement of a method of the window. *)
Definition Stmt : Type -> Type := M State.

Section Methods.

Variable E : Env.

(** *** Interactions *)

Definition record (ev : Event) (s : State) : State := set_trace (ev :: trace s) s.

(** A call that may raise: the event is recorded either way. *)
Definition call {A} (ev : Event) (answer : list Event -> A) : Stmt A :=
  fun s => match raises E (trace s) ev with
           | Some e => (Raise e, record ev s)
           | None => (Ok (answer (trace s)), record ev s)
           end.

(** An interaction that does not raise. *)
Definition observe {A} (ev : Event) (answer : list Event -> A) : Stmt A :=
  fun s => (Ok (answer (trace s)), record ev s).

Definition time_strftime (format : string) : Stmt string :=
  observe Clock (fun tr => strftime E tr format).

Definition QMessageBox_warning (title text : string) : Stmt unit :=
  observe (Dialog Warning title text) (fun _ => tt).

Definition QMessageBox_critical (title text : string) : Stmt unit :=
  observe (Dialog Critical title text) (fun _ => tt).

Definition QMessageBox_information (title text : string) : Stmt unit :=
  observe (Dialog Information title text) (fun _ => tt).

(** [QMessageBox.question(...) == QMessageBox.Yes]. *)
Definition QMessageBox_question (title text : string) : Stmt bool :=
  observe (Dialog Question title text) (answers_yes E).

(** [obd.OBD()] / [obd.OBD(port)]: the new object, named by the number of
    events before it. *)
Definition obd_OBD (portstr : option string) : Stmt nat :=
  call (OBD_new portstr) (fun tr => List.length tr).

(** [self.connection.status()]. *)
Definition connection_status : Stmt OBDStatus :=
  gets (fun s => status E (trace s)).

Definition connection_query (c : Command) : Stmt (Response Value) :=
  call (OBD_query c) (fun tr => reply E tr c).

Definition connection_query_dtc : Stmt (Response (list (string * string))) :=
  call (OBD_query commands.GET_DTC) (dtc_reply E).

Definition connection_close : Stmt unit :=
  call OBD_close (fun _ => tt).

(** [open(filename, 'w')]: the file exists and is empty afterwards. *)
Definition open_w (filename : string) : Stmt unit :=
  call (File_open filename) (fun _ => tt) ;;
  modify (fun s => set_files (dict_set filename [] (files s)) s).

(** [f.write(text)]. *)
Definition f_write (filename text : string) : Stmt unit :=
  call (File_write filename text) (fun _ => tt) ;;
  modify (fun s =>
    let chunks := match dict_get filename (files s) with Some c => c | None => [] end in
    set_files (dict_set filename (chunks ++ [text])%list (files s)) s).

(** *** Widgets *)

(** [self.metric_widgets[name]['label'].setText(text)]. *)
Fixpoint setText (name text : string) (ws : list (string * MetricWidget))
  : list (string * MetricWidget) :=
  match ws with
  | [] => []
  | (n, w) :: rest =>
      if n =? name then (n, {| label := text; command := command w |}) :: rest
      else (n, w) :: setText name text rest
  end.

Definition label_setText (name text : string) : Stmt unit :=
  modify (fun s => set_metric_widgets (setText name text (metric_widgets s)) s).

(** *** Methods *)

Definition log (message : string) : Stmt unit :=
  timestamp <- time_strftime "%Y-%m-%d %H:%M:%S" ;;
  let line := "[" ++ timestamp ++ "] " ++ message in
  modify (fun s => set_console (console s ++ [line])%list s).

(** [__init__], with [init_ui]: the widgets are built from [metrics_table],
    every value label showing "--". *)
Definition init_fields : State :=
  {| connection := None; connected := false; metrics := [];
     metric_widgets :=
       map (fun nc => (fst nc, {| label := "--"; command := snd nc |})) metrics_table;
     port_input := ""; connect_button := "Connect";
     status_label := "Disconnected"; status_style := "color: red;";
     console := []; timer := None; files := []; trace := [] |}.

Definition init : State := snd (log "Application started" init_fields).

Definition connect_obd : Stmt unit :=
  try_except
    (port <- gets port_input ;;
     (if port =? "" then
        log "No port specified, attempting auto-connect..." ;;
        c <- obd_OBD None ;;
        modify (set_connection (Some c))
      else
        log ("Connecting to " ++ port ++ "...") ;;
        c <- obd_OBD (Some port) ;;
        modify (set_connection (Some c))) ;;
     st <- connection_status ;;
     if OBDStatus_eqb st CAR_CONNECTED then
       modify (set_connected true) ;;
       modify (set_connect_button "Disconnect") ;;
       modify (set_status_label "Connected") ;;
       modify (set_status_style "color: green;") ;;
       log "Successfully connected to vehicle" ;;
       modify (set_timer (Some 1000))
     else
       st1 <- connection_status ;;
       log ("Failed to connect: " ++ OBDStatus_str st1) ;;
       st2 <- connection_status ;;
       QMessageBox_warning "Connection Error"
         ("Failed to connect to OBD: " ++ OBDStatus_str st2))
    (fun e =>
       log ("Error connecting: " ++ e) ;;
       QMessageBox_critical "Connection Error" ("Error connecting to OBD: " ++ e)).

Definition disconnect_obd : Stmt unit :=
  c <- gets connection ;;
  (if truthy c then
     modify (set_timer None) ;;
     connection_close ;;
     modify (set_connection None)
   else ret tt) ;;
  modify (set_connected false) ;;
  modify (set_connect_button "Connect") ;;
  modify (set_status_label "Disconnected") ;;
  modify (set_status_style "color: red;") ;;
  ws <- gets metric_widgets ;;
  for_each ws (fun nw => label_setText (fst nw) "--") ;;
  log "Disconnected from vehicle".

Definition toggle_connection : Stmt unit :=
  c <- gets connected ;;
  if c then disconnect_obd else connect_obd.

(** The body of the loop of [update_metrics], for one entry of
    [self.metric_widgets]. *)
Definition update_metric (nw : string * MetricWidget) : Stmt unit :=
  let name := fst nw in
  try_except
    (response <- connection_query (command (snd nw)) ;;
     match response with
     | Null => label_setText name "N/A"
     | Decoded value =>
         modify (fun s => set_metrics (dict_set name value (metrics s)) s) ;;
         match quantity value with
         | Some q => label_setText name (fixed1 (magnitude q) ++ " " ++ units q)
         | None => label_setText name (str value)
         end
     end)
    (fun e =>
       log ("Error querying " ++ name ++ ": " ++ e) ;;
       label_setText name "ERR").

Definition update_metrics : Stmt unit :=
  c <- gets connected ;;
  h <- gets connection ;;
  if negb c || negb (truthy h) then ret tt
  else
    ws <- gets metric_widgets ;;
    for_each ws update_metric.

Definition read_dtc : Stmt unit :=
  c <- gets connected ;;
  h <- gets connection ;;
  if negb c || negb (truthy h) then
    QMessageBox_warning "Not Connected" "Please connect to vehicle first"
  else
    try_except
      (log "Reading Diagnostic Trouble Codes..." ;;
       response <- connection_query_dtc ;;
       match response with
       | Null => log "No DTCs returned"
       | Decoded [] => log "No DTCs found"
       | Decoded codes =>
           log ("Found " ++ str_nat (List.length codes) ++ " DTCs:") ;;
           for_each codes (fun cd => log ("  " ++ fst cd ++ ": " ++ snd cd))
       end)
      (fun e =>
         log ("Error reading DTCs: " ++ e) ;;
         QMessageBox_critical "DTC Error" ("Error reading DTCs: " ++ e)).

Definition clear_dtc : Stmt unit :=
  c <- gets connected ;;
  h <- gets connection ;;
  if negb c || negb (truthy h) then
    QMessageBox_warning "Not Connected" "Please connect to vehicle first"
  else
    yes <- QMessageBox_question "Clear DTCs" "Are you sure you want to clear all DTCs?" ;;
    if yes then
      try_except
        (log "Clearing DTCs..." ;;
         call (OBD_query commands.CLEAR_DTC) (fun _ => tt) ;;
         log "DTCs cleared successfully")
        (fun e =>
           log ("Error clearing DTCs: " ++ e) ;;
           QMessageBox_critical "DTC Error" ("Error clearing DTCs: " ++ e))
    else ret tt.

(** The row [save_metrics] writes for one stored metric. *)
Definition csv_row (nv : string * Value) : string :=
  match quantity (snd nv) with
  | Some q => fst nv ++ "," ++ shown (magnitude q) ++ "," ++ units q ++ nl
  | None => fst nv ++ "," ++ str (snd nv) ++ "," ++ nl
  end.

Definition csv_header : string := "Metric,Value,Unit" ++ nl.

Definition save_metrics : Stmt unit :=
  try_except
    (stamp <- time_strftime "%Y%m%d_%H%M%S" ;;
     let filename := "obd_metrics_" ++ stamp ++ ".csv" in
     open_w filename ;;
     f_write filename csv_header ;;
     ms <- gets metrics ;;
     for_each ms (fun nv => f_write filename (csv_row nv)) ;;
     log ("Metrics saved to " ++ filename) ;;
     QMessageBox_information "Metrics Saved" ("Metrics saved to " ++ filename))
    (fun e =>
       log ("Error saving metrics: " ++ e) ;;
       QMessageBox_critical "Save Error" ("Error saving metrics: " ++ e)).

(** *** Vocabulary of the properties *)

(** The dialog [read_dtc] and [clear_dtc] show when not connected. *)
Definition not_connected_warning : Event :=
  Dialog Warning "Not Connected" "Please connect to vehicle first".

(** The file system accepts every [open] and [write]. *)
Definition files_writable : Prop :=
  forall tr filename,
    raises E tr (File_open filename) = None /\
    forall text, raises E tr (File_write filename text) = None.

(** The label shown for [name]. *)
Definition label_of (name : string) (s : State) : option string :=
  dict_get name (labels s).

(** Every value label back to the placeholder. *)
Definition blank (ws : list (string * MetricWidget)) : list (string * MetricWidget) :=
  map (fun nw => (fst nw, {| label := "--"; command := command (snd nw) |})) ws.

(** What [disconnect_obd] assigns after the connection is dealt with. *)
Definition reset_fields (s : State) : State :=
  set_metric_widgets (blank (metric_widgets s))
    (set_status_style "color: red;"
       (set_status_label "Disconnected"
          (set_connect_button "Connect" (set_connected false s)))).

(** The state after [log message]. *)
Definition logged (message : string) (s : State) : State :=
  let line := "[" ++ strftime E (trace s) "%Y-%m-%d %H:%M:%S" ++ "] " ++ message in
  set_console (console s ++ [line])%list (record Clock s).


(** The timer runs only while [connected] is set, and [connected] is set
    only while there is a connection object. *)
Definition session_inv (s : State) : Prop :=
  (timer s <> None -> connected s = true) /\
  (connected s = true -> connection s <> None).

(** The stored metrics form a dictionary over names of the catalog. *)
Definition metrics_inv (s : State) : Prop :=
  NoDup (map fst (metrics s)) /\
  incl (map fst (metrics s)) (map fst (metric_widgets s)).

(** What can happen to the window: a method is invoked (by a click, by the
    timer, or directly), or the user edits the port field. *)
Inductive Action :=
| ConnectOBD
| DisconnectOBD
| ToggleConnection
| UpdateMetrics
| ReadDTC
| ClearDTC
| SaveMetrics
| EditPort (text : string).

Definition run (a : Action) : Stmt unit :=
  match a with
  | ConnectOBD => connect_obd
  | DisconnectOBD => disconnect_obd
  | ToggleConnection => toggle_connection
  | UpdateMetrics => update_metrics
  | ReadDTC => read_dtc
  | ClearDTC => clear_dtc
  | SaveMetrics => save_metrics
  | EditPort text => modify (set_port_input text)
  end.

(** The window after a sequence of actions; an exception that leaves a
    method leaves the state as the method had it. *)
Definition exec (acts : list Action) (s : State) : State :=
  fold_left (fun st a => snd (run a st)) acts s.

End Methods.

End OBDMonitor.

(** * [src/src/main.py]: class [MainWindow] *)

Module MainWindow.

Definition DEFAULT_HOST : string := "192.168.0.10".
Definition DEFAULT_PORT : string := "35000".
Definition DEFAULT_CONNECTION_STRING : string := DEFAULT_HOST ++ ":" ++ DEFAULT_PORT.

(** The class attribute as the file sets it; [main] may clear it. *)
Definition AUTO_CONNECT : bool := true.

(** [a or b] on strings: [b] when [a] is empty. *)
Definition str_or (a b : string) : string := if a =? "" then b else a.

(** [a or b] where [a] is [None] or a string. *)
Definition opt_or (a : option string) (b : string) : string :=
  match a with Some x => str_or x b | None => b end.

(** A [QComboBox]: its items and the current index ([None] for -1).  The
    first item added to an empty box becomes current; an index out of range
    selects nothing. *)
Record ComboBox := { items : list string; currentIndex : option nat }.

Definition addItem (text : string) (cb : ComboBox) : ComboBox :=
  {| items := (items cb ++ [text])%list;
     currentIndex := match currentIndex cb with None => Some 0 | Some i => Some i end |}.

Definition clear (cb : ComboBox) : ComboBox := {| items := []; currentIndex := None |}.

Definition setCurrentIndex (i : nat) (cb : ComboBox) : ComboBox :=
  {| items := items cb;
     currentIndex := if Nat.ltb i (List.length (items cb)) then Some i else None |}.

Definition currentText (cb : ComboBox) : string :=
  match currentIndex cb with
  | Some i => nth i (items cb) ""
  | None => ""
  end.

(** An [obd.Async] object, as far as the window drives it: the commands it
    watches, and whether it is between a [start()] and the next [stop()],
    the only time the library invokes the watch callbacks. *)
Record AsyncObject := { watched : list Command; running : bool }.

Record State := {
  host : string;   (* self.host *)
  port : string;   (* self.port *)
  connection : option nat;   (* self.connection: None or an obd.OBD object *)
  async_connection : option nat;   (* self.async_connection: None or an obd.Async object *)
  data_log : list (Z * string);   (* self.data_log *)
  host_input : string;   (* self.host_input.text() *)
  port_input : string;   (* self.port_input.text() *)
  connect_button : bool;   (* buttons: enabled or not *)
  disconnect_button : bool;
  start_button : bool;
  stop_button : bool;
  status_label : string;   (* labels: their text *)
  vin_label : string;
  data_label : string;
  metrics_combo : ComboBox;   (* self.metrics_combo *)
  asyncs : list AsyncObject;   (* the obd.Async objects created so far, by handle *)
  signals : list string;   (* data_updated emissions queued for the GUI thread *)
  single_shot : list nat;   (* pending QTimer.singleShot(ms, self.connect_to_adapter) *)
  trace : list Event   (* interactions so far, most recent first *)
}.

Definition set_host v (s : State) : State :=
  {| host := v; port := port s; connection := connection s;
     async_connection := async_connection s; data_log := data_log s;
     host_input := host_input s; port_input := port_input s;
     connect_button := connect_button s; disconnect_button := disconnect_button s;
     start_button := start_button s; stop_button := stop_button s;
     status_label := status_label s; vin_label := vin_label s;
     data_label := data_label s; metrics_combo := metrics_combo s; asyncs := asyncs s;
     signals := signals s; single_shot := single_shot s; trace := trace s |}.

Definition set_port v (s : State) : State :=
  {| host := host s; port := v; connection := connection s;
     async_connection := async_connection s; data_log := data_log s;
     host_input := host_input s; port_input := port_input s;
     connect_button := connect_button s; disconnect_button := disconnect_button s;
     start_button := start_button s; stop_button := stop_button s;
     status_label := status_label s; vin_label := vin_label s;
     data_label := data_label s; metrics_combo := metrics_combo s; asyncs := asyncs s;
     signals := signals s; single_shot := single_shot s; trace := trace s |}.

Definition set_connection v (s : State) : State :=
  {| host := host s; port := port s; connection := v;
     async_connection := async_connection s; data_log := data_log s;
     host_input := host_input s; port_input := port_input s;
     connect_button := connect_button s; disconnect_button := disconnect_button s;
     start_button := start_button s; stop_button := stop_button s;
     status_label := status_label s; vin_label := vin_label s;
     data_label := data_label s; metrics_combo := metrics_combo s; asyncs := asyncs s;
     signals := signals s; single_shot := single_shot s; trace := trace s |}.

Definition set_async_connection v (s : State) : State :=
  {| host := host s; port := port s; connection := connection s; async_connection := v;
     data_log := data_log s; host_input := host_input s; port_input := port_input s;
     connect_button := connect_button s; disconnect_button := disconnect_button s;
     start_button := start_button s; stop_button := stop_button s;
     status_label := status_label s; vin_label := vin_label s;
     data_label := data_label s; metrics_combo := metrics_combo s; asyncs := asyncs s;
     signals := signals s; single_shot := single_shot s; trace := trace s |}.

Definition set_data_log v (s : State) : State :=
  {| host := host s; port := port s; connection := connection s;
     async_connection := async_connection s; data_log := v; host_input := host_input s;
     port_input := port_input s; connect_button := connect_button s;
     disconnect_button := disconnect_button s; start_button := start_button s;
     stop_button := stop_button s; status_label := status_label s;
     vin_label := vin_label s; data_label := data_label s;
     metrics_combo := metrics_combo s; asyncs := asyncs s; signals := signals s;
     single_shot := single_shot s; trace := trace s |}.

Definition set_host_input v (s : State) : State :=
  {| host := host s; port := port s; connection := connection s;
     async_connection := async_connection s; data_log := data_log s; host_input := v;
     port_input := port_input s; connect_button := connect_button s;
     disconnect_button := disconnect_button s; start_button := start_button s;
     stop_button := stop_button s; status_label := status_label s;
     vin_label := vin_label s; data_label := data_label s;
     metrics_combo := metrics_combo s; asyncs := asyncs s; signals := signals s;
     single_shot := single_shot s; trace := trace s |}.

Definition set_port_input v (s : State) : State :=
  {| host := host s; port := port s; connection := connection s;
     async_connection := async_connection s; data_log := data_log s;
     host_input := host_input s; port_input := v; connect_button := connect_button s;
     disconnect_button := disconnect_button s; start_button := start_button s;
     stop_button := stop_button s; status_label := status_label s;
     vin_label := vin_label s; data_label := data_label s;
     metrics_combo := metrics_combo s; asyncs := asyncs s; signals := signals s;
     single_shot := single_shot s; trace := trace s |}.

Definition set_connect_button v (s : State) : State :=
  {| host := host s; port := port s; connection := connection s;
     async_connection := async_connection s; data_log := data_log s;
     host_input := host_input s; port_input := port_input s; connect_button := v;
     disconnect_button := disconnect_button s; start_button := start_button s;
     stop_button := stop_button s; status_label := status_label s;
     vin_label := vin_label s; data_label := data_label s;
     metrics_combo := metrics_combo s; asyncs := asyncs s; signals := signals s;
     single_shot := single_shot s; trace := trace s |}.

Definition set_disconnect_button v (s : State) : State :=
  {| host := host s; port := port s; connection := connection s;
     async_connection := async_connection s; data_log := data_log s;
     host_input := host_input s; port_input := port_input s;
     connect_button := connect_button s; disconnect_button := v;
     start_button := start_button s; stop_button := stop_button s;
     status_label := status_label s; vin_label := vin_label s;
     data_label := data_label s; metrics_combo := metrics_combo s; asyncs := asyncs s;
     signals := signals s; single_shot := single_shot s; trace := trace s |}.

Definition set_start_button v (s : State) : State :=
  {| host := host s; port := port s; connection := connection s;
     async_connection := async_connection s; data_log := data_log s;
     host_input := host_input s; port_input := port_input s;
     connect_button := connect_button s; disconnect_button := disconnect_button s;
     start_button := v; stop_button := stop_button s; status_label := status_label s;
     vin_label := vin_label s; data_label := data_label s;
     metrics_combo := metrics_combo s; asyncs := asyncs s; signals := signals s;
     single_shot := single_shot s; trace := trace s |}.

Definition set_stop_button v (s : State) : State :=
  {| host := host s; port := port s; connection := connection s;
     async_connection := async_connection s; data_log := data_log s;
     host_input := host_input s; port_input := port_input s;
     connect_button := connect_button s; disconnect_button := disconnect_button s;
     start_button := start_button s; stop_button := v; status_label := status_label s;
     vin_label := vin_label s; data_label := data_label s;
     metrics_combo := metrics_combo s; asyncs := asyncs s; signals := signals s;
     single_shot := single_shot s; trace := trace s |}.

Definition set_status_label v (s : State) : State :=
  {| host := host s; port := port s; connection := connection s;
     async_connection := async_connection s; data_log := data_log s;
     host_input := host_input s; port_input := port_input s;
     connect_button := connect_button s; disconnect_button := disconnect_button s;
     start_button := start_button s; stop_button := stop_button s; status_label := v;
     vin_label := vin_label s; data_label := data_label s;
     metrics_combo := metrics_combo s; asyncs := asyncs s; signals := signals s;
     single_shot := single_shot s; trace := trace s |}.

Definition set_vin_label v (s : State) : State :=
  {| host := host s; port := port s; connection := connection s;
     async_connection := async_connection s; data_log := data_log s;
     host_input := host_input s; port_input := port_input s;
     connect_button := connect_button s; disconnect_button := disconnect_button s;
     start_button := start_button s; stop_button := stop_button s;
     status_label := status_label s; vin_label := v; data_label := data_label s;
     metrics_combo := metrics_combo s; asyncs := asyncs s; signals := signals s;
     single_shot := single_shot s; trace := trace s |}.

Definition set_data_label v (s : State) : State :=
  {| host := host s; port := port s; connection := connection s;
     async_connection := async_connection s; data_log := data_log s;
     host_input := host_input s; port_input := port_input s;
     connect_button := connect_button s; disconnect_button := disconnect_button s;
     start_button := start_button s; stop_button := stop_button s;
     status_label := status_label s; vin_label := vin_label s; data_label := v;
     metrics_combo := metrics_combo s; asyncs := asyncs s; signals := signals s;
     single_shot := single_shot s; trace := trace s |}.

Definition set_metrics_combo v (s : State) : State :=
  {| host := host s; port := port s; connection := connection s;
     async_connection := async_connection s; data_log := data_log s;
     host_input := host_input s; port_input := port_input s;
     connect_button := connect_button s; disconnect_button := disconnect_button s;
     start_button := start_button s; stop_button := stop_button s;
     status_label := status_label s; vin_label := vin_label s;
     data_label := data_label s; metrics_combo := v; asyncs := asyncs s;
     signals := signals s; single_shot := single_shot s; trace := trace s |}.

Definition set_asyncs v (s : State) : State :=
  {| host := host s; port := port s; connection := connection s;
     async_connection := async_connection s; data_log := data_log s;
     host_input := host_input s; port_input := port_input s;
     connect_button := connect_button s; disconnect_button := disconnect_button s;
     start_button := start_button s; stop_button := stop_button s;
     status_label := status_label s; vin_label := vin_label s;
     data_label := data_label s; metrics_combo := metrics_combo s; asyncs := v;
     signals := signals s; single_shot := single_shot s; trace := trace s |}.

Definition set_signals v (s : State) : State :=
  {| host := host s; port := port s; connection := connection s;
     async_connection := async_connection s; data_log := data_log s;
     host_input := host_input s; port_input := port_input s;
     connect_button := connect_button s; disconnect_button := disconnect_button s;
     start_button := start_button s; stop_button := stop_button s;
     status_label := status_label s; vin_label := vin_label s;
     data_label := data_label s; metrics_combo := metrics_combo s; asyncs := asyncs s;
     signals := v; single_shot := single_shot s; trace := trace s |}.

Definition set_single_shot v (s : State) : State :=
  {| host := host s; port := port s; connection := connection s;
     async_connection := async_connection s; data_log := data_log s;
     host_input := host_input s; port_input := port_input s;
     connect_button := connect_button s; disconnect_button := disconnect_button s;
     start_button := start_button s; stop_button := stop_button s;
     status_label := status_label s; vin_label := vin_label s;
     data_label := data_label s; metrics_combo := metrics_combo s; asyncs := asyncs s;
     signals := signals s; single_shot := v; trace := trace s |}.

Definition set_trace v (s : State) : State :=
  {| host := host s; port := port s; connection := connection s;
     async_connection := async_connection s; data_log := data_log s;
     host_input := host_input s; port_input := port_input s;
     connect_button := connect_button s; disconnect_button := disconnect_button s;
     start_button := start_button s; stop_button := stop_button s;
     status_label := status_label s; vin_label := vin_label s;
     data_label := data_label s; metrics_combo := metrics_combo s; asyncs := asyncs s;
     signals := signals s; single_shot := single_shot s; trace := v |}.
(** A statement of a method of the window. *)
Definition Stmt : Type -> Type := M State.

(** The two states of the watch loop, read off [self.async_connection]. *)
Inductive WatchState := Idle | Running.

Definition watch_state (s : State) : WatchState :=
  match async_connection s with Some _ => Running | None => Idle end.

(** [xs[h] = a] on the list of library objects. *)
Fixpoint list_set {A} (h : nat) (a : A) (xs : list A) : list A :=
  match xs, h with
  | [], _ => []
  | _ :: rest, O => a :: rest
  | x :: rest, S h' => x :: list_set h' a rest
  end.

Section Methods.

Variable E : Env.

(** *** Interactions *)

Definition record (ev : Event) (s : State) : State := set_trace (ev :: trace s) s.

(** A call that may raise: the event is recorded either way. *)
Definition call {A} (ev : Event) (answer : list Event -> A) : Stmt A :=
  fun s => match raises E (trace s) ev with
           | Some e => (Raise e, record ev s)
           | None => (Ok (answer (trace s)), record ev s)
           end.

(** An interaction that does not raise. *)
Definition observe {A} (ev : Event) (answer : list Event -> A) : Stmt A :=
  fun s => (Ok (answer (trace s)), record ev s).

Definition raise {A} (e : string) : Stmt A := fun s => (Raise e, s).

Definition QMessageBox_warning (title text : string) : Stmt unit :=
  observe (Dialog Warning title text) (fun _ => tt).

Definition QMessageBox_critical (title text : string) : Stmt unit :=
  observe (Dialog Critical title text) (fun _ => tt).

(** [obd.OBD(connection_string)]. *)
Definition obd_OBD (portstr : string) : Stmt nat :=
  call (OBD_new (Some portstr)) (fun tr => List.length tr).

Definition connection_query (c : Command) : Stmt (Response Value) :=
  call (OBD_query c) (fun tr => reply E tr c).

Definition connection_close : Stmt unit :=
  call OBD_close (fun _ => tt).

(** [obd.commands[name]]: a [KeyError] for an unknown name. *)
Definition commands_getitem (name : string) : Stmt Command :=
  if known_command E name then ret (Cmd name) else raise ("'" ++ name ++ "'").

(** [obd.Async(port=self.connection.port)]: a new object, not started. *)
Definition obd_Async : Stmt nat :=
  call Async_new (fun _ => tt) ;;
  h <- gets (fun s => List.length (asyncs s)) ;;
  modify (fun s => set_asyncs (asyncs s ++ [{| watched := []; running := false |}])%list s) ;;
  ret h.

Definition with_async (h : nat) (f : AsyncObject -> AsyncObject) : Stmt unit :=
  modify (fun s =>
    match nth_error (asyncs s) h with
    | Some a => set_asyncs (list_set h (f a) (asyncs s)) s
    | None => s
    end).

(** [a.watch(cmd, callback=self.on_data_received)]: ignored by the library
    while the object is running. *)
Definition async_watch (h : nat) (cmd : Command) : Stmt unit :=
  call (Async_watch h cmd) (fun _ => tt) ;;
  with_async h (fun a =>
    if running a then a
    else {| watched := (watched a ++ [cmd])%list; running := false |}).

Definition async_start (h : nat) : Stmt unit :=
  call (Async_start h) (fun _ => tt) ;;
  with_async h (fun a => {| watched := watched a; running := true |}).

Definition async_stop (h : nat) : Stmt unit :=
  call (Async_stop h) (fun _ => tt) ;;
  with_async h (fun a => {| watched := watched a; running := false |}).

(** *** Methods *)

(** [__init__(host, port)] under a given value of the class attribute
    [AUTO_CONNECT]. *)
Definition init (auto_connect : bool) (host port : option string) : State :=
  let self_host := opt_or host DEFAULT_HOST in
  let self_port := opt_or port DEFAULT_PORT in
  {| host := self_host; port := self_port;
     connection := None; async_connection := None; data_log := [];
     host_input := self_host; port_input := self_port;
     connect_button := true; disconnect_button := false;
     start_button := false; stop_button := false;
     status_label := "Status: Disconnected"; vin_label := "VIN: N/A";
     data_label := "Data: N/A";
     metrics_combo := addItem "Select a metric" {| items := []; currentIndex := None |};
     asyncs := []; signals := [];
     single_shot := if auto_connect then [500] else [];
     trace := [] |}.

(** The [__main__] block: [--no-auto-connect] clears the class attribute
    before the window is built. *)
Definition main (args_host args_port : option string) (no_auto_connect : bool) : State :=
  init (if no_auto_connect then false else AUTO_CONNECT) args_host args_port.

(** Slot of [data_updated]. *)
Definition update_data_label (value : string) : Stmt unit :=
  modify (set_data_label ("Data: " ++ value)).

(** The GUI thread delivers the queued emissions of [data_updated]. *)
Definition deliver_signals : Stmt unit :=
  vs <- gets signals ;;
  modify (set_signals []) ;;
  for_each vs update_data_label.

(** [QApplication.processEvents()]: the posted events are handled, among
    them the queued emissions (input events of the user are not modelled). *)
Definition QApplication_processEvents : Stmt unit :=
  observe ProcessEvents (fun _ => tt) ;;
  deliver_signals.

(** The connection string [connect_to_adapter] builds. *)
Definition connection_string (s : State) : string :=
  str_or (host_input s) (host s) ++ ":" ++ str_or (port_input s) (port s).

(** The [try] statement of [connect_to_adapter], for the string built. *)
Definition connect_with (cs : string) : Stmt unit :=
  try_except
    (modify (set_status_label "Status: Connecting...") ;;
     QApplication_processEvents ;;
     c <- obd_OBD cs ;;
     modify (set_connection (Some c)) ;;
     ok <- gets (fun s => is_connected E (trace s)) ;;
     if ok then
       modify (set_status_label ("Status: Connected to " ++ cs)) ;;
       modify (set_connect_button false) ;;
       modify (set_disconnect_button true) ;;
       modify (set_start_button true) ;;
       sup <- gets (fun s => supports E (trace s) commands.VIN) ;;
       (if sup then
          response <- connection_query commands.VIN ;;
          match response with
          | Decoded value => modify (set_vin_label ("VIN: " ++ str value))
          | Null => modify (set_vin_label "VIN: Not Available")
          end
        else ret tt) ;;
       modify (fun s => set_metrics_combo (clear (metrics_combo s)) s) ;;
       cmds <- gets (fun s => supported_commands E (trace s)) ;;
       for_each (filter (fun cmd => negb (cmd_name cmd =? "VIN")) cmds)
         (fun cmd => modify (fun s => set_metrics_combo (addItem (cmd_name cmd) (metrics_combo s)) s))
     else
       modify (set_status_label "Status: Connection Failed") ;;
       QMessageBox_critical "Error" ("Failed to connect to the adapter at " ++ cs ++ "."))
    (fun e =>
       modify (set_status_label "Status: Disconnected") ;;
       QMessageBox_critical "Error" ("Connection error: " ++ e)).

Definition connect_to_adapter : Stmt unit :=
  cs <- gets connection_string ;;
  connect_with cs.

Definition disconnect_from_adapter : Stmt unit :=
  a <- gets async_connection ;;
  match a with
  | Some h => async_stop h ;; modify (set_async_connection None)
  | None => ret tt
  end ;;
  c <- gets connection ;;
  (if truthy c then connection_close ;; modify (set_connection None) else ret tt) ;;
  modify (set_status_label "Status: Disconnected") ;;
  modify (set_connect_button true) ;;
  modify (set_disconnect_button false) ;;
  modify (set_start_button false) ;;
  modify (set_stop_button false) ;;
  modify (set_vin_label "VIN: N/A") ;;
  modify (set_data_label "Data: N/A") ;;
  modify (fun s => set_metrics_combo (setCurrentIndex 0 (metrics_combo s)) s).

Definition stop_monitoring : Stmt unit :=
  a <- gets async_connection ;;
  match a with
  | Some h => async_stop h ;; modify (set_async_connection None)
  | None => ret tt
  end ;;
  modify (set_start_button true) ;;
  modify (set_stop_button false) ;;
  modify (set_data_label "Data: N/A").

Definition start_monitoring : Stmt unit :=
  c <- gets connection ;;
  ok <- gets (fun s => is_connected E (trace s)) ;;
  if negb (truthy c) || negb ok then
    QMessageBox_warning "Warning" "Not connected to the adapter."
  else
    selected_metric <- gets (fun s => currentText (metrics_combo s)) ;;
    if (selected_metric =? "Select a metric") || (selected_metric =? "") then
      QMessageBox_warning "Warning" "Please select a metric to monitor."
    else
      try_except
        (cmd <- commands_getitem selected_metric ;;
         a <- obd_Async ;;
         modify (set_async_connection (Some a)) ;;
         async_watch a cmd ;;
         async_start a ;;
         modify (set_start_button false) ;;
         modify (set_stop_button true))
        (fun e =>
           QMessageBox_critical "Error" ("Failed to start monitoring: " ++ e) ;;
           stop_monitoring).

(** The watch callback, run by the library's thread. *)
Definition on_data_received (response : Response Value) : Stmt unit :=
  match response with
  | Null => ret tt
  | Decoded v =>
      let value := str v in
      timestamp <- observe Clock (time_time E) ;;
      modify (fun s => set_data_log (data_log s ++ [(timestamp, value)])%list s) ;;
      modify (fun s => set_signals (signals s ++ [value])%list s)
  end.

Definition closeEvent : Stmt unit := disconnect_from_adapter.

(** The pending single-shot timer fires. *)
Definition fire_single_shot : Stmt unit :=
  pending <- gets single_shot ;;
  match pending with
  | [] => ret tt
  | _ :: rest => modify (set_single_shot rest) ;; connect_to_adapter
  end.

(** The library invokes the callback of watcher [h]: only while [h] runs. *)
Definition may_call_back (h : nat) (s : State) : bool :=
  match nth_error (asyncs s) h with
  | Some a => running a
  | None => false
  end.

Definition library_callback (h : nat) (response : Response Value) (s : State)
  : option (result unit * State) :=
  if may_call_back h s then Some (on_data_received response s) else None.

(** *** Vocabulary of the properties *)

(** The state [with_async h g] leaves. *)
Definition async_updated (h : nat) (g : AsyncObject -> AsyncObject) (s : State) : State :=
  match nth_error (asyncs s) h with
  | Some a => set_asyncs (list_set h (g a) (asyncs s)) s
  | None => s
  end.

(** An [obd.Async] object after [stop()]. *)
Definition stopped (a : AsyncObject) : AsyncObject :=
  {| watched := watched a; running := false |}.

(** The assignments that end [stop_monitoring]. *)
Definition idle_controls (s : State) : State :=
  set_data_label "Data: N/A" (set_stop_button false (set_start_button true s)).

(** The state a successful [start_monitoring] leaves: a new watcher of the
    selected command, started, held by [async_connection]. *)
Definition started (name : string) (s : State) : State :=
  let h := List.length (asyncs s) in
  set_stop_button true
    (set_start_button false
       (set_asyncs (asyncs s ++ [{| watched := [Cmd name]; running := true |}])%list
          (set_async_connection (Some h)
             (set_trace (Async_start h :: Async_watch h (Cmd name) :: Async_new :: trace s) s)))).

(** The assignments that end [disconnect_from_adapter]. *)
Definition disconnected_controls (s : State) : State :=
  set_metrics_combo (setCurrentIndex 0 (metrics_combo s))
    (set_data_label "Data: N/A"
       (set_vin_label "VIN: N/A"
          (set_stop_button false
             (set_start_button false
                (set_disconnect_button false
                   (set_connect_button true
                      (set_status_label "Status: Disconnected" s))))))).

(** [disconnect_from_adapter] from its second [if] on. *)
Definition close_and_reset (s : State) : result unit * State :=
  match connection s with
  | Some _ =>
      match raises E (trace s) OBD_close with
      | Some e => (Raise e, record OBD_close s)
      | None => (Ok tt, disconnected_controls (set_connection None (record OBD_close s)))
      end
  | None => (Ok tt, disconnected_controls s)
  end.

(** The text of the data label after the queued values [vs] were delivered
    to [update_data_label], in order. *)
Definition shown_after (vs : list string) (d : string) : string :=
  fold_left (fun _ v => "Data: " ++ v) vs d.

(** The state [QApplication_processEvents] leaves. *)
Definition events_processed (s : State) : State :=
  set_data_label (shown_after (signals s) (data_label s))
    (set_signals [] (record ProcessEvents s)).

(** The metric box after [clear()] and one [addItem] per command. *)
Definition populated (cmds : list Command) : ComboBox :=
  fold_left (fun cb cmd => addItem (cmd_name cmd) cb) cmds
    {| items := []; currentIndex := None |}.

(** Watcher [k] exists and is not running. *)
Definition quiet (k : nat) (s : State) : Prop :=
  k < List.length (asyncs s) /\ may_call_back k s = false.

(** A watcher is held only while a connection object is held, and the held
    handle denotes an object the library created. *)
Definition window_inv (s : State) : Prop :=
  (async_connection s <> None -> connection s <> None) /\
  (forall h, async_connection s = Some h -> h < List.length (asyncs s)).


(** The commands [connect_to_adapter] offers: all but VIN. *)
Definition offered (cmds : list Command) : list Command :=
  filter (fun cmd => negb (cmd_name cmd =? "VIN")) cmds.

(** What can happen to the window: a method is invoked (by a click, by a
    timer, by the event loop or directly), the library's thread invokes the
    watch callback, or the user edits a field or selects a metric. *)
Inductive Action :=
| ConnectToAdapter
| DisconnectFromAdapter
| StartMonitoring
| StopMonitoring
| CloseEvent
| FireSingleShot
| DeliverSignals
| Callback (response : Response Value)
| EditHost (text : string)
| EditPort (text : string)
| SelectMetric (index : nat).

Definition run (a : Action) : Stmt unit :=
  match a with
  | ConnectToAdapter => connect_to_adapter
  | DisconnectFromAdapter => disconnect_from_adapter
  | StartMonitoring => start_monitoring
  | StopMonitoring => stop_monitoring
  | CloseEvent => closeEvent
  | FireSingleShot => fire_single_shot
  | DeliverSignals => deliver_signals
  | Callback response => on_data_received response
  | EditHost text => modify (set_host_input text)
  | EditPort text => modify (set_port_input text)
  | SelectMetric index =>
      modify (fun s => set_metrics_combo (setCurrentIndex index (metrics_combo s)) s)
  end.

(** The window after a sequence of actions; an exception that leaves a
    method leaves the state as the method had it. *)
Definition exec (acts : list Action) (s : State) : State :=
  fold_left (fun st a => snd (run a st)) acts s.

(** The actions that invoke [connect_to_adapter] directly, and the firings
    of the single-shot timer. *)
Definition is_connect (a : Action) : bool :=
  match a with ConnectToAdapter => true | _ => false end.

Definition is_fire (a : Action) : bool :=
  match a with FireSingleShot => true | _ => false end.



(** What the callbacks of a sequence of actions were given, as stored: the
    [str] of every value of a non-null response, in order. *)
Definition received (acts : list Action) : list string :=
  flat_map (fun a => match a with Callback (Decoded v) => [str v] | _ => [] end) acts.

End Methods.

End MainWindow.

(** * Sample adapters and sessions *)

Module Demo.

Definition rpm_725 : Value :=
  {| str := "725.0 revolutions_per_minute";
     quantity := Some {| magnitude := {| shown := "725.0"; fixed1 := "725.0" |};
                         units := "revolutions_per_minute" |} |}.

Definition status_text : Value := {| str := "OK"; quantity := None |}.

(** An adapter given by which calls raise and what a query answers; the car
    is connected, the clock stands still and every question is answered yes. *)
Definition adapter (raises : list Event -> Event -> option string)
    (reply : list Event -> Command -> Response Value) : Env :=
  {| raises := raises;
     status := fun _ => CAR_CONNECTED;
     is_connected := fun _ => true;
     supports := fun _ _ => true;
     supported_commands := fun _ => [commands.RPM; commands.VIN; commands.SPEED];
     reply := reply;
     dtc_reply := fun _ => Decoded [("P0104", "Mass or Volume Air Flow Circuit Intermittent")];
     strftime := fun _ format =>
       if format =? "%Y%m%d_%H%M%S" then "20240501_120000" else "2024-05-01 12:00:00";
     time_time := fun tr => Z.of_nat (List.length tr);
     answers_yes := fun _ => true;
     known_command := fun _ => true |}.

(** Every call succeeds and every query decodes to 725 rpm. *)
Definition healthy : Env := adapter (fun _ _ => None) (fun _ _ => Decoded rpm_725).

(** The connection is lost: every query raises. *)
Definition lost : Env :=
  adapter (fun _ ev => if is_query ev then Some "connection lost" else None)
          (fun _ _ => Decoded rpm_725).

(** A catalog that knows one reply only, the canned frame of 725 rpm
    (0x0B54 is 4 * 725). *)
Definition canned_catalog (c : Command) : QueryEngine.Descriptor :=
  {| QueryEngine.name := cmd_name c;
     QueryEngine.request_bytes := [Byte.x01; Byte.x0c];
     QueryEngine.decode := fun raw =>
       match raw with
       | [Byte.x0b; Byte.x54] => Some rpm_725
       | _ => None
       end;
     QueryEngine.expected_response_bytes := Some 2 |}.

(** The transport delivers a frame that is cut short. *)
Definition cut_short (tr : list Event) (c : Command) : QueryEngine.Frame :=
  QueryEngine.Reply [Byte.x0b].

(** The healthy adapter, its queries answered by the query engine from the
    frames cut short. *)
Definition garbled : Env := QueryEngine.library cut_short canned_catalog healthy.

(** [OBDMonitor], connected through the button. *)
Definition monitor_connected (E : Env) : OBDMonitor.State :=
  OBDMonitor.exec E [OBDMonitor.ToggleConnection] (OBDMonitor.init E).

(** [OBDMonitor], connected and polled once. *)
Definition monitor_polled : OBDMonitor.State :=
  OBDMonitor.exec healthy [OBDMonitor.UpdateMetrics] (monitor_connected healthy).

(** The first entry of [metric_widgets] before any poll, and the others. *)
Definition rpm_widget : string * OBDMonitor.MetricWidget :=
  ("RPM", {| OBDMonitor.label := "--"; OBDMonitor.command := commands.RPM |}).

Definition other_widgets : list (string * OBDMonitor.MetricWidget) :=
  tl (OBDMonitor.metric_widgets (OBDMonitor.init healthy)).

(** [MainWindow] started without arguments, connected, watching the first
    metric of the box ("RPM"). *)
Definition window_connected : MainWindow.State :=
  MainWindow.exec healthy [MainWindow.ConnectToAdapter] (MainWindow.main None None false).

Definition window_running : MainWindow.State :=
  MainWindow.exec healthy [MainWindow.StartMonitoring] window_connected.

(** The same, with the second metric ("SPEED") selected in the box. *)
Definition window_second_metric : MainWindow.State :=
  MainWindow.exec healthy [MainWindow.SelectMetric 1] window_running.

(** The adapter's port is stuck: stopping a watcher and closing raise. *)
Definition stuck : Env :=
  adapter (fun _ ev => match ev with
                       | OBD_close | Async_stop _ => Some "port busy"
                       | _ => None
                       end)
          (fun _ _ => Decoded rpm_725).


(** [MainWindow] started with [--host 10.0.0.5], the host field cleared. *)
Definition window_custom_host : MainWindow.State :=
  MainWindow.exec healthy [MainWindow.EditHost ""]
    (MainWindow.main (Some "10.0.0.5") None false).

End Demo.

(** * Properties *)

(** ** Reasoning about statements *)

Section Statements.

Context {S : Type}.

Lemma preserves_ret {A X} (f : S -> X) (a : A) : preserves f (ret a).
Proof. intro s; reflexivity. Qed.

Lemma preserves_gets {A X} (f : S -> X) (g : S -> A) : preserves f (gets g).
Proof. intro s; reflexivity. Qed.

Lemma preserves_modify {X} (f : S -> X) (g : S -> S) :
  (forall s, f (g s) = f s) -> preserves f (modify g).
Proof. intros H s; apply H. Qed.

Lemma preserves_bind {A B X} (f : S -> X) (m : M S A) (k : A -> M S B) :
  preserves f m -> (forall a, preserves f (k a)) -> preserves f (bind m k).
Proof.
  intros Hm Hk s. unfold bind. specialize (Hm s).
  destruct (m s) as [[a|e] s1]; simpl in *.
  - rewrite Hk. exact Hm.
  - exact Hm.
Qed.

Lemma preserves_try_except {A X} (f : S -> X) (body : M S A) handler :
  preserves f body -> (forall e, preserves f (handler e)) ->
  preserves f (try_except body handler).
Proof.
  intros Hb Hh s. unfold try_except. specialize (Hb s).
  destruct (body s) as [[a|e] s1]; simpl in *.
  - exact Hb.
  - rewrite Hh. exact Hb.
Qed.

Lemma preserves_for_each {A X} (f : S -> X) (xs : list A) body :
  (forall x, preserves f (body x)) -> preserves f (for_each xs body).
Proof.
  intros Hb. induction xs as [|x xs IH]; simpl.
  - apply preserves_ret.
  - apply preserves_bind; auto.
Qed.

(** The same when only the bodies of the elements of the list are known to
    preserve [f]. *)
Lemma preserves_for_each_in {A X} (f : S -> X) (xs : list A) body :
  (forall x, In x xs -> preserves f (body x)) -> preserves f (for_each xs body).
Proof.
  induction xs as [|x xs IH]; intros Hb; simpl.
  - apply preserves_ret.
  - apply preserves_bind.
    + apply Hb. left. reflexivity.
    + intros _. apply IH. intros y Hy. apply Hb. right. exact Hy.
Qed.

Lemma keeps_ret {A} (P : S -> Prop) (a : A) : keeps P (ret a).
Proof. intros s H; exact H. Qed.

Lemma keeps_gets {A} (P : S -> Prop) (g : S -> A) : keeps P (gets g).
Proof. intros s H; exact H. Qed.

Lemma keeps_modify (P : S -> Prop) (g : S -> S) :
  (forall s, P s -> P (g s)) -> keeps P (modify g).
Proof. intros H s Hs. apply H, Hs. Qed.

Lemma keeps_bind {A B} (P : S -> Prop) (m : M S A) (k : A -> M S B) :
  keeps P m -> (forall a, keeps P (k a)) -> keeps P (bind m k).
Proof.
  intros Hm Hk s Hs. unfold bind. specialize (Hm s Hs).
  destruct (m s) as [[a|e] s1]; simpl in *.
  - apply Hk, Hm.
  - exact Hm.
Qed.

Lemma keeps_try_except {A} (P : S -> Prop) (body : M S A) handler :
  keeps P body -> (forall e, keeps P (handler e)) -> keeps P (try_except body handler).
Proof.
  intros Hb Hh s Hs. unfold try_except. specialize (Hb s Hs).
  destruct (body s) as [[a|e] s1]; simpl in *.
  - exact Hb.
  - apply Hh, Hb.
Qed.

Lemma keeps_for_each {A} (P : S -> Prop) (xs : list A) body :
  (forall x, keeps P (body x)) -> keeps P (for_each xs body).
Proof.
  intros Hb. induction xs as [|x xs IH]; simpl.
  - apply keeps_ret.
  - apply keeps_bind; auto.
Qed.

Lemma preserves_adds {A X} (f : S -> list X) (m : M S A) :
  preserves f m -> adds f m [].
Proof. intros H s. rewrite app_nil_r. apply H. Qed.

(** After a statement that appends [xs], a continuation that appends
    nothing. *)
Lemma adds_bind_first {A B X} (f : S -> list X) (m : M S A) (k : A -> M S B) xs :
  adds f m xs -> (forall a, preserves f (k a)) -> adds f (bind m k) xs.
Proof.
  intros Hm Hk s. unfold bind. specialize (Hm s).
  destruct (m s) as [[a|e] s1]; simpl in *.
  - rewrite Hk. exact Hm.
  - exact Hm.
Qed.

Lemma adds_try_except {A X} (f : S -> list X) (body : M S A) handler xs :
  adds f body xs -> (forall e, preserves f (handler e)) ->
  adds f (try_except body handler) xs.
Proof.
  intros Hb Hh s. unfold try_except. specialize (Hb s).
  destruct (body s) as [[a|e] s1]; simpl in *.
  - exact Hb.
  - rewrite Hh. exact Hb.
Qed.

Lemma keeps_for_each_in {A} (P : S -> Prop) (xs : list A) body :
  (forall x, In x xs -> keeps P (body x)) -> keeps P (for_each xs body).
Proof.
  induction xs as [|x xs IH]; intros Hb; simpl.
  - apply keeps_ret.
  - apply keeps_bind.
    + apply Hb. left. reflexivity.
    + intros _. apply IH. intros y Hy. apply Hb. right. exact Hy.
Qed.

(** A statement that keeps [P] and whose value satisfies [Q], followed by
    a continuation that keeps both. *)
Lemma keeps_bind_value {A B} (P : S -> Prop) (Q : A -> S -> Prop)
    (m : M S A) (k : A -> M S B) :
  (forall s, P s -> P (snd (m s)) /\ forall a, fst (m s) = Ok a -> Q a (snd (m s))) ->
  (forall a, keeps (fun s => P s /\ Q a s) (k a)) ->
  keeps P (bind m k).
Proof.
  intros Hm Hk s Hs. unfold bind. destruct (Hm s Hs) as [HP HQ].
  destruct (m s) as [[a|e] s1]; simpl in *.
  - apply (Hk a s1). split; [exact HP|apply HQ; reflexivity].
  - exact HP.
Qed.

Lemma returns_ret {A} (a : A) : returns (ret a : M S A).
Proof. intro s; reflexivity. Qed.

Lemma returns_gets {A} (g : S -> A) : returns (gets g).
Proof. intro s; reflexivity. Qed.

Lemma returns_modify (g : S -> S) : returns (modify g).
Proof. intro s; reflexivity. Qed.

Lemma returns_bind {A B} (m : M S A) (k : A -> M S B) :
  returns m -> (forall a, returns (k a)) -> returns (bind m k).
Proof.
  intros Hm Hk s. unfold bind. specialize (Hm s).
  destruct (m s) as [[a|e] s1]; simpl in *.
  - apply Hk.
  - discriminate.
Qed.

(** A [try] whose handler returns, returns. *)
Lemma returns_try_except {A} (body : M S A) handler :
  (forall e, returns (handler e)) -> returns (try_except body handler).
Proof.
  intros Hh s. unfold try_except.
  destruct (body s) as [[a|e] s1]; simpl.
  - reflexivity.
  - apply Hh.
Qed.

Lemma returns_for_each {A} (xs : list A) (body : A -> M S unit) :
  (forall x, returns (body x)) -> returns (for_each xs body).
Proof.
  intros Hb. induction xs as [|x xs IH]; simpl.
  - apply returns_ret.
  - apply returns_bind; auto.
Qed.

(** After a statement that returns and appends nothing, a continuation
    that appends [xs]. *)
Lemma adds_bind_then {A B X} (f : S -> list X) (m : M S A) (k : A -> M S B) xs :
  returns m -> preserves f m -> (forall a, adds f (k a) xs) -> adds f (bind m k) xs.
Proof.
  intros Hr Hm Hk s. unfold bind. specialize (Hm s). specialize (Hr s).
  destruct (m s) as [[a|e] s1]; simpl in *.
  - rewrite Hk, Hm. reflexivity.
  - discriminate.
Qed.

Lemma returns_Ok (m : M S unit) s : returns m -> fst (m s) = Ok tt.
Proof.
  intros H. specialize (H s). destruct (m s) as [[[]|e] s1]; simpl in *.
  - reflexivity.
  - discriminate.
Qed.

Lemma bind_modify_bind {B C} (f : S -> S) (k1 : M S B) (k2 : B -> M S C) s :
  bind (bind (modify f) (fun _ => k1)) k2 s = bind k1 k2 (f s).
Proof. reflexivity. Qed.

(** A loop over [pre ++ post] is the loop over [pre], then over [post]. *)
Lemma for_each_app {A} (pre post : list A) (body : A -> M S unit) s :
  for_each (pre ++ post)%list body s =
  bind (for_each pre body) (fun _ => for_each post body) s.
Proof.
  revert s. induction pre as [|x pre IH]; intro s; simpl.
  - reflexivity.
  - unfold bind in *. destruct (body x s) as [[a|e] s1].
    + apply IH.
    + reflexivity.
Qed.

End Statements.

Lemma queries_cons ev tr :
  queries (ev :: tr) =
  (queries tr ++ match ev with OBD_query c => [c] | _ => [] end)%list.
Proof.
  unfold queries. simpl. rewrite flat_map_app. simpl.
  rewrite app_nil_r. reflexivity.
Qed.

(** The connections opened so far, oldest first. *)
Lemma opened_cons ev tr :
  opened (ev :: tr) =
  (opened tr ++ match ev with OBD_new p => [p] | _ => [] end)%list.
Proof.
  unfold opened. simpl. rewrite flat_map_app. simpl.
  rewrite app_nil_r. reflexivity.
Qed.

(** ** Dictionaries *)

Lemma dict_get_set {V} k (v : V) d : dict_get k (dict_set k v d) = Some v.
Proof.
  induction d as [|[k' v'] d IH]; simpl.
  - rewrite String.eqb_refl. reflexivity.
  - destruct (k' =? k) eqn:Hk; simpl.
    + rewrite String.eqb_refl. reflexivity.
    + rewrite Hk. exact IH.
Qed.

Lemma dict_get_set_other {V} k k' (v : V) d :
  k' <> k -> dict_get k' (dict_set k v d) = dict_get k' d.
Proof.
  intros Hne. induction d as [|[k0 v0] d IH]; simpl.
  - destruct (k =? k') eqn:Hk; [|reflexivity].
    apply String.eqb_eq in Hk. congruence.
  - destruct (k0 =? k) eqn:H0; simpl.
    + apply String.eqb_eq in H0. subst k0.
      destruct (k =? k') eqn:Hk; [|reflexivity].
      apply String.eqb_eq in Hk. congruence.
    + destruct (k0 =? k'); [reflexivity|exact IH].
Qed.

Lemma dict_set_keys {V} k (v : V) d k' :
  In k' (map fst (dict_set k v d)) <-> k' = k \/ In k' (map fst d).
Proof.
  induction d as [|[k0 v0] d IH]; simpl.
  - split; [intros [H|[]]; left; congruence|intros [H|[]]; left; congruence].
  - destruct (k0 =? k) eqn:H0; simpl.
    + apply String.eqb_eq in H0. subst k0. split.
      * intros [H|H]; [left; congruence|right; right; exact H].
      * intros [H|[H|H]]; [left; congruence|left; exact H|right; exact H].
    + rewrite IH. split.
      * intros [H|[H|H]]; [right; left; exact H|left; exact H|right; right; exact H].
      * intros [H|[H|H]]; [right; left; exact H|left; exact H|right; right; exact H].
Qed.

Lemma dict_set_NoDup {V} k (v : V) d :
  NoDup (map fst d) -> NoDup (map fst (dict_set k v d)).
Proof.
  induction d as [|[k0 v0] d IH]; simpl; intros Hnd.
  - constructor; [intros []|constructor].
  - inversion Hnd as [|x l Hnot Hnd' Heq]; subst.
    destruct (k0 =? k) eqn:H0; simpl.
    + apply String.eqb_eq in H0. subst k0. constructor; assumption.
    + constructor; [|apply IH; exact Hnd'].
      intro Hin. apply dict_set_keys in Hin. destruct Hin as [Hin|Hin].
      * subst k0. rewrite String.eqb_refl in H0. discriminate.
      * contradiction.
Qed.

Lemma dict_set_present {V} k (v : V) d k' :
  dict_get k' d <> None -> dict_get k' (dict_set k v d) <> None.
Proof.
  intros H. destruct (String.eqb_spec k' k) as [->|Hne].
  - rewrite dict_get_set. discriminate.
  - rewrite dict_get_set_other by exact Hne. exact H.
Qed.

(** ** [OBDMonitor] *)

Section OBDMonitorProperties.

Import OBDMonitor.

Variable E : Env.

Lemma mon_preserves_call {A X} (f : State -> X) ev (answer : list Event -> A) :
  (forall s, f (record ev s) = f s) -> preserves f (call E ev answer).
Proof.
  intros H s. unfold call. destruct (raises E (trace s) ev); simpl; apply H.
Qed.

Lemma mon_preserves_observe {A X} (f : State -> X) ev (answer : list Event -> A) :
  (forall s, f (record ev s) = f s) -> preserves f (observe ev answer).
Proof. intros H s. apply H. Qed.

Lemma mon_returns_observe {A} ev (answer : list Event -> A) : returns (observe ev answer).
Proof. intro s; reflexivity. Qed.

Lemma setText_catalog name text ws :
  map (fun nw => (fst nw, command (snd nw))) (setText name text ws) =
  map (fun nw => (fst nw, command (snd nw))) ws.
Proof.
  induction ws as [|[n w] ws IH]; simpl.
  - reflexivity.
  - destruct (n =? name); simpl.
    + reflexivity.
    + rewrite IH. reflexivity.
Qed.

(** Splits a frame goal along the statement; [leaf] closes the goals about
    single assignments and interactions. *)
Ltac mon_frame leaf :=
  repeat first
    [ apply preserves_ret
    | apply preserves_gets
    | apply preserves_bind
    | apply preserves_try_except
    | apply preserves_for_each
    | apply preserves_modify; intros; leaf
    | apply mon_preserves_call; intros; leaf
    | apply mon_preserves_observe; intros; leaf
    | match goal with
      | |- forall _, _ => intro
      | |- preserves _ (if ?b then _ else _) => destruct b
      | |- preserves _ (match ?x with _ => _ end) => destruct x
      end ].

Ltac mon_unfold :=
  unfold run, toggle_connection, connect_obd, disconnect_obd, update_metrics,
    update_metric, read_dtc, clear_dtc, save_metrics, log, time_strftime,
    open_w, f_write, label_setText, obd_OBD, connection_status,
    connection_query, connection_query_dtc, connection_close,
    QMessageBox_warning, QMessageBox_critical, QMessageBox_information,
    QMessageBox_question.

Lemma run_catalog a : preserves catalog (run E a).
Proof.
  destruct a; mon_unfold;
    mon_frame ltac:(first [reflexivity | apply setText_catalog]).
Qed.

Lemma exec_catalog acts s : catalog (exec E acts s) = catalog s.
Proof.
  revert s. induction acts as [|a acts IH]; intro s; simpl.
  - reflexivity.
  - change (catalog (exec E acts (snd (run E a s))) = catalog s).
    rewrite IH. apply run_catalog.
Qed.

(** C7: the command catalog is built once from the static table and no
    operation of the application changes it: after connect, disconnect, a
    metric update, a DTC read or clear, a save (or an edit of the port field),
    the metric names and the command of each name are what they were, in the
    same order; so after any sequence of operations the catalog is still the
    static table.  Only the label texts of the widgets change. *)
Theorem catalog_never_mutated :
  catalog (init E) = metrics_table /\
  (forall a s, catalog (snd (run E a s)) = catalog s) /\
  (forall acts, catalog (exec E acts (init E)) = metrics_table).
Proof.
  assert (Hinit : catalog (init E) = metrics_table) by reflexivity.
  split; [exact Hinit|]. split.
  - intros a s. apply run_catalog.
  - intro acts. rewrite exec_catalog. exact Hinit.
Qed.

(** C9: while the monitor is not connected ([connected] is False or
    [connection] is None), [update_metrics] returns at once and changes
    nothing, and [read_dtc] and [clear_dtc] return after showing the warning
    and change nothing else: none of them issues a query or any other call on
    the connection, and the stored metrics stay as they were. *)
Theorem not_connected_no_query s :
  connected s = false \/ connection s = None ->
  update_metrics E s = (Ok tt, s) /\
  read_dtc E s = (Ok tt, record not_connected_warning s) /\
  clear_dtc E s = (Ok tt, record not_connected_warning s) /\
  (forall m, In m [update_metrics E; read_dtc E; clear_dtc E] ->
     let s' := snd (m s) in
     filter is_library_call (trace s') = filter is_library_call (trace s) /\
     queries (trace s') = queries (trace s) /\
     metrics s' = metrics s /\
     connection s' = connection s).
Proof.
  intros H.
  assert (Hguard : negb (connected s) || negb (truthy (connection s)) = true).
  { destruct H as [H|H]; rewrite H; simpl.
    - reflexivity.
    - apply orb_true_r. }
  assert (Hu : update_metrics E s = (Ok tt, s)).
  { unfold update_metrics, bind, gets. rewrite Hguard. reflexivity. }
  assert (Hr : read_dtc E s = (Ok tt, record not_connected_warning s)).
  { unfold read_dtc, bind, gets. rewrite Hguard. reflexivity. }
  assert (Hc : clear_dtc E s = (Ok tt, record not_connected_warning s)).
  { unfold clear_dtc, bind, gets. rewrite Hguard. reflexivity. }
  repeat split; try assumption;
    destruct H0 as [<-|[<-|[<-|[]]]];
    rewrite ?Hu, ?Hr, ?Hc; try reflexivity;
    simpl; rewrite queries_cons; simpl; apply app_nil_r.
Qed.

Lemma f_write_appends filename text chunks s :
  files_writable E ->
  dict_get filename (files s) = Some chunks ->
  exists s', f_write E filename text s = (Ok tt, s') /\
             dict_get filename (files s') = Some (chunks ++ [text])%list.
Proof.
  intros Hw Hget. unfold f_write, bind, call, modify.
  destruct (Hw (trace s) filename) as [_ Hwr]. rewrite Hwr.
  eexists. split; [reflexivity|]. simpl. rewrite Hget. apply dict_get_set.
Qed.

Lemma write_rows filename rows : forall chunks s,
  files_writable E ->
  dict_get filename (files s) = Some chunks ->
  exists s', for_each rows (fun nv => f_write E filename (csv_row nv)) s = (Ok tt, s') /\
             dict_get filename (files s') = Some (chunks ++ map csv_row rows)%list.
Proof.
  induction rows as [|nv rows IH]; intros chunks s Hw Hget; simpl.
  - exists s. rewrite app_nil_r. split; [reflexivity|assumption].
  - destruct (f_write_appends filename (csv_row nv) chunks s Hw Hget) as (s1 & Hrun & Hget1).
    destruct (IH _ s1 Hw Hget1) as (s2 & Hrun2 & Hget2).
    exists s2. unfold bind at 1. rewrite Hrun. split; [exact Hrun2|].
    rewrite Hget2, <- app_assoc. reflexivity.
Qed.

Lemma save_metrics_run s :
  files_writable E ->
  let filename := "obd_metrics_" ++ strftime E (trace s) "%Y%m%d_%H%M%S" ++ ".csv" in
  exists s', save_metrics E s = (Ok tt, s') /\
             dict_get filename (files s') = Some (csv_header :: map csv_row (metrics s)).
Proof.
  intros Hw filename.
  unfold save_metrics, try_except.
  unfold bind at 1. unfold time_strftime at 1, observe at 1. fold filename.
  unfold bind at 1. unfold open_w, bind at 1, call at 1. simpl trace.
  rewrite (proj1 (Hw _ filename)). unfold modify at 1.
  set (s1 := set_files _ _).
  assert (Hget1 : dict_get filename (files s1) = Some []) by apply dict_get_set.
  destruct (f_write_appends filename csv_header [] s1 Hw Hget1) as (s2 & Hrun2 & Hget2).
  unfold bind at 1. rewrite Hrun2.
  unfold bind at 1, gets at 1.
  assert (Hms : metrics s2 = metrics s).
  { change s2 with (snd (Ok tt, s2)). rewrite <- Hrun2.
    transitivity (metrics s1); [|reflexivity].
    generalize s1. unfold f_write.
    mon_frame ltac:(reflexivity). }
  rewrite Hms.
  destruct (write_rows filename (metrics s) _ s2 Hw Hget2) as (s3 & Hrun3 & Hget3).
  unfold bind at 1. rewrite Hrun3. simpl in Hget3.
  unfold log, time_strftime, QMessageBox_information, observe, bind, modify. simpl.
  eexists. split; [reflexivity|exact Hget3].
Qed.

(** C6: the save action writes [name,value,unit] rows.  When the file can be
    opened and written, the file named after the clock holds, in order, the
    header row "Metric,Value,Unit" once and then exactly one row per stored
    metric, made of the metric's name, its value and its unit; a value that
    carries no unit gets an empty unit column. *)
Theorem save_metrics_rows s :
  files_writable E ->
  let filename := "obd_metrics_" ++ strftime E (trace s) "%Y%m%d_%H%M%S" ++ ".csv" in
  let s' := snd (save_metrics E s) in
  fst (save_metrics E s) = Ok tt /\
  dict_get filename (files s') = Some (csv_header :: map csv_row (metrics s)) /\
  csv_header = "Metric,Value,Unit" ++ nl /\
  (forall name value q, quantity value = Some q ->
     csv_row (name, value) = name ++ "," ++ shown (magnitude q) ++ "," ++ units q ++ nl) /\
  (forall name value, quantity value = None ->
     csv_row (name, value) = name ++ "," ++ str value ++ "," ++ nl).
Proof.
  intros Hw filename s'.
  destruct (save_metrics_run s Hw) as (s1 & Hrun & Hget).
  subst s'. rewrite Hrun. simpl.
  split; [reflexivity|]. split; [exact Hget|]. split; [reflexivity|]. split.
  - intros name value q Hq. unfold csv_row. simpl. rewrite Hq. reflexivity.
  - intros name value Hq. unfold csv_row. simpl. rewrite Hq. reflexivity.
Qed.

(** *** The polling loop *)

Lemma mon_keeps_call {A} P ev (answer : list Event -> A) :
  (forall s, P s -> P (record ev s)) -> keeps P (call E ev answer).
Proof.
  intros H s Hs. unfold call. destruct (raises E (trace s) ev); simpl; apply H, Hs.
Qed.

Lemma mon_keeps_observe {A} P ev (answer : list Event -> A) :
  (forall s, P s -> P (record ev s)) -> keeps P (observe ev answer).
Proof. intros H s Hs. apply H, Hs. Qed.

Ltac mon_keep leaf :=
  repeat first
    [ apply keeps_ret
    | apply keeps_gets
    | apply keeps_bind
    | apply keeps_try_except
    | apply keeps_for_each
    | apply keeps_modify; intros; leaf
    | apply mon_keeps_call; intros; leaf
    | apply mon_keeps_observe; intros; leaf
    | match goal with
      | |- forall _, _ => intro
      | |- keeps _ (if ?b then _ else _) => destruct b
      | |- keeps _ (match ?x with _ => _ end) => destruct x
      end ].

Lemma log_returns message : returns (log E message).
Proof.
  unfold log, time_strftime. apply returns_bind.
  - apply mon_returns_observe.
  - intro. apply returns_modify.
Qed.

Lemma update_metric_returns nw : returns (update_metric E nw).
Proof.
  unfold update_metric. apply returns_try_except. intro e.
  apply returns_bind; [apply log_returns|]. intro. apply returns_modify.
Qed.

Lemma update_metrics_returns : returns (update_metrics E).
Proof.
  unfold update_metrics.
  apply returns_bind; [apply returns_gets|]. intro c.
  apply returns_bind; [apply returns_gets|]. intro h.
  destruct (negb c || negb (truthy h)).
  - apply returns_ret.
  - apply returns_bind; [apply returns_gets|]. intro ws.
    apply returns_for_each. apply update_metric_returns.
Qed.

(** A query that raises: the error is logged, the label shows "ERR". *)
Lemma update_metric_raise name w s e :
  raises E (trace s) (OBD_query (command w)) = Some e ->
  let s1 := record (OBD_query (command w)) s in
  let line := "[" ++ strftime E (trace s1) "%Y-%m-%d %H:%M:%S" ++ "] " ++
              ("Error querying " ++ name ++ ": " ++ e) in
  update_metric E (name, w) s =
  (Ok tt, set_metric_widgets (setText name "ERR" (metric_widgets s))
            (set_console (console s ++ [line])%list (record Clock s1))).
Proof.
  intros H. unfold update_metric, try_except, connection_query, bind at 1, call.
  simpl. rewrite H. reflexivity.
Qed.

(** A null response: the label shows "N/A", nothing else changes. *)
Lemma update_metric_null name w s :
  raises E (trace s) (OBD_query (command w)) = None ->
  reply E (trace s) (command w) = Null ->
  update_metric E (name, w) s =
  (Ok tt, set_metric_widgets (setText name "N/A" (metric_widgets s))
            (record (OBD_query (command w)) s)).
Proof.
  intros H Hr. unfold update_metric, try_except, connection_query, bind at 1, call.
  simpl. rewrite H, Hr. reflexivity.
Qed.

Lemma update_metric_queries nw s :
  queries (trace (snd (update_metric E nw s))) =
  (queries (trace s) ++ [command (snd nw)])%list.
Proof.
  unfold update_metric, try_except, connection_query, bind at 1, call.
  destruct (raises E (trace s) (OBD_query (command (snd nw)))) as [e|].
  - simpl. rewrite !queries_cons. simpl. rewrite app_nil_r. reflexivity.
  - destruct (reply E (trace s) (command (snd nw))) as [|v]; simpl.
    + rewrite queries_cons. reflexivity.
    + destruct (quantity v); simpl; rewrite queries_cons; reflexivity.
Qed.

Lemma update_loop_queries ws : forall s,
  queries (trace (snd (for_each ws (update_metric E) s))) =
  (queries (trace s) ++ map (fun nw => command (snd nw)) ws)%list.
Proof.
  induction ws as [|nw ws IH]; intro s; simpl.
  - rewrite app_nil_r. reflexivity.
  - unfold bind. pose proof (update_metric_returns nw s) as Hr.
    pose proof (update_metric_queries nw s) as Hq.
    destruct (update_metric E nw s) as [[[]|e] s1]; simpl in *; [|discriminate].
    rewrite IH, Hq, <- app_assoc. reflexivity.
Qed.

Lemma setText_same name text ws :
  In name (map fst ws) ->
  dict_get name (map (fun nw => (fst nw, label (snd nw))) (setText name text ws)) = Some text.
Proof.
  induction ws as [|[n w] ws IH]; simpl; intros Hin.
  - contradiction.
  - destruct (n =? name) eqn:Hn; simpl; rewrite Hn.
    + reflexivity.
    + apply IH. destruct Hin as [Heq|Hin]; [|exact Hin].
      subst n. rewrite String.eqb_refl in Hn. discriminate.
Qed.

Lemma setText_other name other text ws :
  other <> name ->
  dict_get name (map (fun nw => (fst nw, label (snd nw))) (setText other text ws)) =
  dict_get name (map (fun nw => (fst nw, label (snd nw))) ws).
Proof.
  intros Hne. induction ws as [|[n w] ws IH]; simpl.
  - reflexivity.
  - destruct (n =? other) eqn:Hn; simpl.
    + apply String.eqb_eq in Hn. subst n.
      destruct (other =? name) eqn:Ho; [|reflexivity].
      apply String.eqb_eq in Ho. contradiction.
    + destruct (n =? name); [reflexivity|exact IH].
Qed.

Lemma setText_keys name text ws : map fst (setText name text ws) = map fst ws.
Proof.
  induction ws as [|[n w] ws IH]; simpl.
  - reflexivity.
  - destruct (n =? name); simpl; [reflexivity|rewrite IH; reflexivity].
Qed.

(** Updating another metric leaves the label of [name] alone. *)
Lemma update_metric_other_label name nw :
  fst nw <> name -> preserves (label_of name) (update_metric E nw).
Proof.
  intros Hne. unfold update_metric. mon_unfold.
  mon_frame ltac:(first [reflexivity | apply (setText_other name _ _ _ Hne)]).
Qed.

Lemma update_metric_keys nw :
  preserves (fun s => map fst (metric_widgets s)) (update_metric E nw).
Proof.
  unfold update_metric. mon_unfold.
  mon_frame ltac:(first [reflexivity | apply setText_keys]).
Qed.

Lemma update_metric_console line nw :
  keeps (fun s => In line (console s)) (update_metric E nw).
Proof.
  unfold update_metric. mon_unfold.
  mon_keep ltac:(first [assumption | simpl; apply in_or_app; left; assumption]).
Qed.

Lemma update_loop_returns ws : returns (for_each ws (update_metric E)).
Proof. apply returns_for_each, update_metric_returns. Qed.

Lemma update_loop_split pre nw post s :
  snd (for_each (pre ++ nw :: post)%list (update_metric E) s) =
  snd (for_each post (update_metric E)
         (snd (update_metric E nw (snd (for_each pre (update_metric E) s))))).
Proof.
  rewrite for_each_app. unfold bind at 1.
  pose proof (update_loop_returns pre s) as Hpre.
  destruct (for_each pre (update_metric E) s) as [[[]|e] s1]; simpl in *; [|discriminate].
  unfold bind. pose proof (update_metric_returns nw s1) as Hnw.
  destruct (update_metric E nw s1) as [[[]|e] s2]; simpl in *; [|discriminate].
  reflexivity.
Qed.

Lemma update_metrics_connected s :
  connected s = true -> connection s <> None ->
  update_metrics E s = for_each (metric_widgets s) (update_metric E) s.
Proof.
  intros Hc Hh. unfold update_metrics, bind, gets. rewrite Hc.
  destruct (connection s); [reflexivity|contradiction].
Qed.

(** What the loop leaves for the metric at one position: the loop over the
    later metrics does not touch its label nor remove console lines. *)
Lemma update_loop_at s pre nw post :
  metric_widgets s = (pre ++ nw :: post)%list ->
  NoDup (map fst (metric_widgets s)) ->
  connected s = true -> connection s <> None ->
  let before := snd (for_each pre (update_metric E) s) in
  let after := snd (update_metric E nw before) in
  let s' := snd (update_metrics E s) in
  In (fst nw) (map fst (metric_widgets before)) /\
  label_of (fst nw) s' = label_of (fst nw) after /\
  (forall line, In line (console after) -> In line (console s')).
Proof.
  intros Hws Hnd Hc Hh before after s'.
  assert (Hs' : s' = snd (for_each post (update_metric E) after)).
  { subst s'. rewrite update_metrics_connected by assumption.
    rewrite Hws. apply update_loop_split. }
  split; [|split].
  - subst before.
    rewrite (preserves_for_each (fun st => map fst (metric_widgets st)) pre
               (update_metric E) update_metric_keys s).
    rewrite Hws, map_app. apply in_or_app. right. left. reflexivity.
  - rewrite Hs'. apply preserves_for_each_in.
    intros x Hx. apply update_metric_other_label.
    rewrite Hws, map_app in Hnd. apply NoDup_remove_2 in Hnd.
    intro Heq. apply Hnd. apply in_or_app. right.
    rewrite <- Heq. apply in_map. exact Hx.
  - intros line Hin. rewrite Hs'.
    apply (keeps_for_each (fun st => In line (console st))); [|exact Hin].
    intro x. apply update_metric_console.
Qed.

(** C2 (as the code has it): an exception raised by a query inside the
    polling loop of [update_metrics] is caught for that one metric: the
    metric's label shows "ERR" and a line "Error querying <name>: <error>"
    is written to the console.  [update_metrics] itself returns normally, no
    dialog is shown, the remaining metrics are still queried (one query per
    metric of the catalog, in order), and the timer, the connection and the
    [connected] flag are left as they were. *)
Theorem update_metrics_logs_query_errors s :
  connected s = true -> connection s <> None ->
  NoDup (map fst (metric_widgets s)) ->
  let s' := snd (update_metrics E s) in
  fst (update_metrics E s) = Ok tt /\
  timer s' = timer s /\ connection s' = connection s /\ connected s' = true /\
  filter is_dialog (trace s') = filter is_dialog (trace s) /\
  queries (trace s') = (queries (trace s) ++ map snd (catalog s))%list /\
  (forall pre nw post e,
     metric_widgets s = (pre ++ nw :: post)%list ->
     let before := snd (for_each pre (update_metric E) s) in
     let query := OBD_query (command (snd nw)) in
     raises E (trace before) query = Some e ->
     label_of (fst nw) s' = Some "ERR" /\
     In ("[" ++ strftime E (query :: trace before) "%Y-%m-%d %H:%M:%S" ++ "] " ++
         ("Error querying " ++ fst nw ++ ": " ++ e)) (console s')).
Proof.
  intros Hc Hh Hnd s'.
  split; [apply returns_Ok, update_metrics_returns|].
  split; [|split; [|split; [|split; [|split]]]].
  - subst s'. generalize s. change (preserves timer (update_metrics E)).
    mon_unfold. mon_frame ltac:(reflexivity).
  - subst s'. generalize s. change (preserves connection (update_metrics E)).
    mon_unfold. mon_frame ltac:(reflexivity).
  - rewrite <- Hc. subst s'. generalize s.
    change (preserves connected (update_metrics E)).
    mon_unfold. mon_frame ltac:(reflexivity).
  - subst s'. generalize s.
    change (preserves (fun st => filter is_dialog (trace st)) (update_metrics E)).
    mon_unfold. mon_frame ltac:(reflexivity).
  - subst s'. rewrite update_metrics_connected by assumption.
    rewrite update_loop_queries. unfold catalog. rewrite map_map. reflexivity.
  - intros pre [name w] post e Hws before query Hraise.
    destruct (update_loop_at s pre (name, w) post Hws Hnd Hc Hh) as (Hin & Hlabel & Hconsole).
    fold before in Hin, Hlabel, Hconsole. simpl in *.
    rewrite (update_metric_raise name w before e Hraise) in Hlabel, Hconsole.
    split.
    + fold s' in Hlabel. rewrite Hlabel. unfold label_of, labels. simpl.
      apply setText_same. exact Hin.
    + apply Hconsole. simpl. apply in_or_app. right. left. reflexivity.
Qed.

(** A query that returns a null response: the metric's label shows "N/A",
    nothing is logged or stored for it, no dialog is shown, and the
    connection, the [connected] flag and the timer stay as they were. *)
Lemma update_metrics_null_response s :
  connected s = true -> connection s <> None ->
  NoDup (map fst (metric_widgets s)) ->
  let s' := snd (update_metrics E s) in
  fst (update_metrics E s) = Ok tt /\
  connection s' = connection s /\ connected s' = true /\ timer s' = timer s /\
  filter is_dialog (trace s') = filter is_dialog (trace s) /\
  (forall pre nw post,
     metric_widgets s = (pre ++ nw :: post)%list ->
     let before := snd (for_each pre (update_metric E) s) in
     let after := snd (update_metric E nw before) in
     raises E (trace before) (OBD_query (command (snd nw))) = None ->
     reply E (trace before) (command (snd nw)) = Null ->
     label_of (fst nw) s' = Some "N/A" /\
     fst (update_metric E nw before) = Ok tt /\
     console after = console before /\
     metrics after = metrics before).
Proof.
  intros Hc Hh Hnd s'.
  split; [apply returns_Ok, update_metrics_returns|].
  split; [|split; [|split; [|split]]].
  - subst s'. generalize s. change (preserves connection (update_metrics E)).
    mon_unfold. mon_frame ltac:(reflexivity).
  - rewrite <- Hc. subst s'. generalize s.
    change (preserves connected (update_metrics E)).
    mon_unfold. mon_frame ltac:(reflexivity).
  - subst s'. generalize s. change (preserves timer (update_metrics E)).
    mon_unfold. mon_frame ltac:(reflexivity).
  - subst s'. generalize s.
    change (preserves (fun st => filter is_dialog (trace st)) (update_metrics E)).
    mon_unfold. mon_frame ltac:(reflexivity).
  - intros pre [name w] post Hws before after Hraise Hnull.
    destruct (update_loop_at s pre (name, w) post Hws Hnd Hc Hh) as (Hin & Hlabel & _).
    fold before in Hin, Hlabel. simpl in *.
    subst after. rewrite (update_metric_null name w before Hraise Hnull) in *.
    simpl. split; [|repeat split].
    fold s' in Hlabel. rewrite Hlabel. unfold label_of, labels. simpl.
    apply setText_same. exact Hin.
Qed.

(** *** Disconnecting *)

Lemma log_run message s : log E message s = (Ok tt, logged E message s).
Proof. reflexivity. Qed.

Lemma setText_app_skip name text pre post :
  ~ In name (map fst pre) ->
  setText name text (pre ++ post)%list = (pre ++ setText name text post)%list.
Proof.
  induction pre as [|[n w] pre IH]; simpl; intros Hnot.
  - reflexivity.
  - destruct (n =? name) eqn:Hn.
    + apply String.eqb_eq in Hn. exfalso. apply Hnot. left. exact Hn.
    + rewrite IH; [reflexivity|]. intro H. apply Hnot. right. exact H.
Qed.

Lemma blank_keys ws : map fst (blank ws) = map fst ws.
Proof. unfold blank. rewrite map_map. reflexivity. Qed.


Lemma reset_fold post : forall pre,
  NoDup (map fst (pre ++ post)%list) ->
  fold_left (fun acc nw => setText (fst nw) "--" acc) post (blank pre ++ post)%list =
  blank (pre ++ post)%list.
Proof.
  induction post as [|[n w] post IH]; intros pre Hnd; simpl.
  - rewrite !app_nil_r. reflexivity.
  - rewrite setText_app_skip.
    + simpl. rewrite String.eqb_refl.
      specialize (IH (pre ++ [(n, w)])%list).
      assert (H1 : ((pre ++ [(n, w)]) ++ post = pre ++ (n, w) :: post)%list)
        by (rewrite <- app_assoc; reflexivity).
      assert (H2 : (blank (pre ++ [(n, w)]) ++ post =
                    blank pre ++ (n, {| label := "--"; command := command w |}) :: post)%list)
        by (unfold blank; rewrite map_app, <- app_assoc; reflexivity).
      rewrite H1, H2 in IH. apply IH. exact Hnd.
    + rewrite blank_keys. rewrite map_app in Hnd. simpl in Hnd.
      apply NoDup_remove_2 in Hnd. intro H. apply Hnd.
      apply in_or_app. left. exact H.
Qed.

Lemma reset_loop_run (ws : list (string * MetricWidget)) : forall s,
  for_each ws (fun nw => label_setText (fst nw) "--") s =
  (Ok tt, set_metric_widgets
            (fold_left (fun acc nw => setText (fst nw) "--" acc) ws (metric_widgets s)) s).
Proof.
  induction ws as [|nw ws IH]; intro s; simpl.
  - destruct s; reflexivity.
  - unfold bind, label_setText at 1, modify. rewrite IH. reflexivity.
Qed.

(** The tail of [disconnect_obd], after the [if]. *)
Lemma disconnect_tail s :
  NoDup (map fst (metric_widgets s)) ->
  (modify (set_connected false) ;;
   modify (set_connect_button "Connect") ;;
   modify (set_status_label "Disconnected") ;;
   modify (set_status_style "color: red;") ;;
   ws <- gets metric_widgets ;;
   for_each ws (fun nw => label_setText (fst nw) "--") ;;
   log E "Disconnected from vehicle") s =
  (Ok tt, logged E "Disconnected from vehicle" (reset_fields s)).
Proof.
  intros Hnd. unfold bind, modify, gets. simpl. rewrite reset_loop_run. simpl.
  pose proof (reset_fold (metric_widgets s) [] Hnd) as Hfold. simpl in Hfold.
  rewrite Hfold. destruct s. vm_compute. reflexivity.
Qed.


Lemma disconnect_obd_some s h :
  connection s = Some h -> NoDup (map fst (metric_widgets s)) ->
  disconnect_obd E s =
  match raises E (trace s) OBD_close with
  | Some e => (Raise e, record OBD_close (set_timer None s))
  | None => (Ok tt, logged E "Disconnected from vehicle"
                      (reset_fields (set_connection None (record OBD_close (set_timer None s)))))
  end.
Proof.
  intros Hc Hnd. unfold disconnect_obd.
  unfold bind at 1, gets at 1. rewrite Hc. simpl truthy. cbv iota.
  unfold bind at 1. unfold bind at 1, modify at 1.
  unfold bind at 1, connection_close, call. simpl trace.
  destruct (raises E (trace s) OBD_close) as [e|].
  - reflexivity.
  - unfold modify at 1. apply disconnect_tail. exact Hnd.
Qed.



Lemma metrics_table_keys : NoDup (map fst metrics_table).
Proof.
  simpl. repeat (constructor; [simpl; intuition discriminate|]). constructor.
Qed.

Lemma exec_keys acts : NoDup (map fst (metric_widgets (exec E acts (init E)))).
Proof.
  replace (map fst (metric_widgets (exec E acts (init E))))
    with (map fst (catalog (exec E acts (init E)))).
  - rewrite exec_catalog. exact metrics_table_keys.
  - unfold catalog. rewrite map_map. reflexivity.
Qed.






(** *** Connecting *)

Lemma OBDStatus_eqb_eq a b : OBDStatus_eqb a b = true <-> a = b.
Proof. destruct a, b; split; intro H; first [reflexivity | discriminate]. Qed.

(** [connect_obd] never lets an exception out and opens exactly one
    connection, to the text of the port field (or with no argument when the
    field is empty), leaving the stored metrics and the widgets of the metrics
    alone.  When [obd.OBD] raises, the connection, the [connected] flag and
    the timer stay as they were and a critical dialog shows the error.  When
    it returns, a connection object is held whatever its status:
    only the status "Car Connected" sets [connected], starts the timer at
    1000 ms and switches the button to "Disconnect"; any other status leaves
    flag, timer and button as they were and shows a warning with the
    status. *)
Theorem connect_obd_outcomes s :
  let arg := if port_input s =? "" then None else Some (port_input s) in
  let t := OBD_new arg :: Clock :: trace s in
  let s' := snd (connect_obd E s) in
  fst (connect_obd E s) = Ok tt /\
  opened (trace s') = (opened (trace s) ++ [arg])%list /\
  metrics s' = metrics s /\ metric_widgets s' = metric_widgets s /\
  (forall e, raises E (Clock :: trace s) (OBD_new arg) = Some e ->
     connection s' = connection s /\ connected s' = connected s /\
     timer s' = timer s /\
     In (Dialog Critical "Connection Error" ("Error connecting to OBD: " ++ e)) (trace s')) /\
  (raises E (Clock :: trace s) (OBD_new arg) = None ->
     connection s' <> None /\
     (status E t = CAR_CONNECTED ->
        connected s' = true /\ timer s' = Some 1000 /\
        connect_button s' = "Disconnect" /\ status_label s' = "Connected" /\
        status_style s' = "color: green;") /\
     (status E t <> CAR_CONNECTED ->
        connected s' = connected s /\ timer s' = timer s /\
        connect_button s' = connect_button s /\ status_label s' = status_label s /\
        In (Dialog Warning "Connection Error"
              ("Failed to connect to OBD: " ++ OBDStatus_str (status E (Clock :: t))))
           (trace s'))).
Proof.
  intros arg t s'. subst arg t s'.
  unfold connect_obd, try_except, bind, gets, modify, log, time_strftime,
    obd_OBD, call, connection_status, QMessageBox_warning, QMessageBox_critical,
    observe.
  destruct (port_input s =? ""); simpl;
    match goal with
    | |- context [raises E ?tr ?ev] => destruct (raises E tr ev) as [e0|] eqn:Hr; simpl
    end.
  all: try match goal with
    | |- context [OBDStatus_eqb ?a ?b] =>
        destruct (OBDStatus_eqb a b) eqn:Hst; simpl;
        [apply OBDStatus_eqb_eq in Hst
        |assert (a <> b) by (intro Heq; apply OBDStatus_eqb_eq in Heq; congruence)]
    end.
  all: rewrite ?opened_cons; simpl; rewrite ?app_nil_r.
  all: repeat first
    [ reflexivity | discriminate | contradiction | congruence
    | match goal with
      | |- _ /\ _ => split
      | |- forall _, _ => intro
      | H : Some _ = Some _ |- _ => injection H as H; subst
      | |- _ \/ _ => left; reflexivity
      end ].
Qed.

(** *** What holds in every state the monitor reaches *)

(** [disconnect_obd], without assumption on the widgets. *)
Lemma disconnect_obd_flags s :
  let s' := snd (disconnect_obd E s) in
  match connection s with
  | None => connected s' = false /\ timer s' = timer s /\ connection s' = None
  | Some h =>
      timer s' = None /\
      ((connection s' = Some h /\ connected s' = connected s) \/
       (connection s' = None /\ connected s' = false))
  end.
Proof.
  unfold disconnect_obd, connection_close, call, bind, gets, modify, ret, log,
    time_strftime, observe.
  destruct (connection s) as [h|] eqn:Hc; simpl.
  - destruct (raises E (trace s) OBD_close); simpl.
    + split; [reflexivity|]. left. split; [exact Hc|reflexivity].
    + rewrite reset_loop_run. simpl. split; [reflexivity|]. right. split; reflexivity.
  - rewrite reset_loop_run. simpl. repeat split. exact Hc.
Qed.

Lemma connect_obd_session_inv : keeps session_inv (connect_obd E).
Proof.
  intros s [H1 H2].
  unfold connect_obd, try_except, bind, gets, modify, log, time_strftime,
    obd_OBD, call, connection_status, QMessageBox_warning, QMessageBox_critical,
    observe.
  destruct (port_input s =? ""); simpl;
    repeat match goal with
           | |- context [raises E ?t ?ev] => destruct (raises E t ev); simpl
           | |- context [OBDStatus_eqb ?a ?b] => destruct (OBDStatus_eqb a b); simpl
           end;
    unfold session_inv; simpl; split; intros;
    first [reflexivity | discriminate | apply H1; assumption | apply H2; assumption].
Qed.

Lemma disconnect_obd_session_inv : keeps session_inv (disconnect_obd E).
Proof.
  intros s [H1 H2]. pose proof (disconnect_obd_flags s) as Hf.
  unfold session_inv.
  destruct (connection s) as [h|] eqn:Hc.
  - destruct Hf as (Ht & [[Hc' Hk]|[Hc' Hk]]); rewrite Ht.
    + rewrite Hc', Hk. split; [intro H; contradiction|discriminate].
    + rewrite Hk. split; [intro H; contradiction|discriminate].
  - destruct Hf as (Hk & Ht & Hc'). rewrite Hk, Ht. split; [|discriminate].
    intro Hn. apply H1 in Hn. apply H2 in Hn. contradiction.
Qed.

Lemma session_inv_frame (m : Stmt unit) :
  preserves connection m -> preserves timer m -> preserves connected m ->
  keeps session_inv m.
Proof.
  intros Hc Ht Hk s Hs. unfold session_inv. rewrite Hc, Ht, Hk. exact Hs.
Qed.

Lemma run_session_inv a : keeps session_inv (run E a).
Proof.
  destruct a; simpl;
    try apply connect_obd_session_inv; try apply disconnect_obd_session_inv.
  - unfold toggle_connection. apply keeps_bind; [apply keeps_gets|].
    intros []; [apply disconnect_obd_session_inv|apply connect_obd_session_inv].
  - apply session_inv_frame; mon_unfold; mon_frame ltac:(reflexivity).
  - apply session_inv_frame; mon_unfold; mon_frame ltac:(reflexivity).
  - apply session_inv_frame; mon_unfold; mon_frame ltac:(reflexivity).
  - apply session_inv_frame; mon_unfold; mon_frame ltac:(reflexivity).
  - apply session_inv_frame; mon_frame ltac:(reflexivity).
Qed.

Lemma exec_keeps (P : State -> Prop) :
  (forall a, keeps P (run E a)) -> forall acts s, P s -> P (exec E acts s).
Proof.
  intros Hk acts. induction acts as [|a acts IH]; intros s Hs; simpl.
  - exact Hs.
  - apply IH. apply Hk. exact Hs.
Qed.

(** In every state the monitor reaches, by any sequence of its methods, the
    timer runs only while [connected] is set and [connected] is set only
    while a connection object is held; so a timer tick never falls through
    the guard of [update_metrics]: it queries the eight metrics of the table,
    in order. *)
Theorem timer_tick_polls_all_metrics acts :
  let s := exec E acts (init E) in
  (timer s <> None -> connected s = true) /\
  (connected s = true -> connection s <> None) /\
  (timer s <> None ->
   queries (trace (snd (update_metrics E s))) =
   (queries (trace s) ++ map snd metrics_table)%list).
Proof.
  intro s.
  assert (Hinv : session_inv s).
  { apply exec_keeps; [exact run_session_inv|]. split; [intro H; contradiction H; reflexivity|discriminate]. }
  destruct Hinv as [H1 H2]. split; [exact H1|]. split; [exact H2|].
  intro Ht. rewrite update_metrics_connected by auto.
  rewrite update_loop_queries.
  pose proof (exec_catalog acts (init E)) as Hcat. fold s in Hcat.
  unfold catalog in Hcat.
  replace (map (fun nw => command (snd nw)) (metric_widgets s))
    with (map snd (map (fun nw => (fst nw, command (snd nw))) (metric_widgets s)))
    by (rewrite map_map; reflexivity).
  rewrite Hcat. reflexivity.
Qed.

(** *** The stored metrics *)

Lemma run_keys a : preserves (fun st => map fst (metric_widgets st)) (run E a).
Proof.
  intro s. pose proof (run_catalog a s) as H. unfold catalog in H.
  apply (f_equal (map fst)) in H. rewrite !map_map in H. exact H.
Qed.

Lemma run_metrics a : a <> UpdateMetrics -> preserves metrics (run E a).
Proof.
  intros Hne. destruct a; try contradiction;
    mon_unfold; mon_frame ltac:(reflexivity).
Qed.

(** With the widget names [ks], the stored metrics are a dictionary over
    [ks]. *)
Lemma update_metric_metrics_inv ks nw :
  In (fst nw) ks ->
  keeps (fun st => map fst (metric_widgets st) = ks /\ NoDup (map fst (metrics st)) /\
                   incl (map fst (metrics st)) ks)
        (update_metric E nw).
Proof.
  intros Hin. unfold update_metric. mon_unfold.
  mon_keep ltac:(
    match goal with
    | H : _ /\ _ /\ _ |- _ => destruct H as (Hk & Hn & Hi)
    end;
    simpl; split; [|split];
    first [ assumption
          | rewrite setText_keys; assumption
          | apply dict_set_NoDup; assumption
          | intros k' Hk'; apply dict_set_keys in Hk'; destruct Hk' as [->|Hk'];
            [exact Hin|apply Hi; exact Hk'] ]).
Qed.

Lemma update_metrics_metrics_inv : keeps metrics_inv (update_metrics E).
Proof.
  intros s [Hn Hi]. unfold update_metrics, bind at 1, gets at 1.
  unfold bind at 1, gets at 1.
  destruct (negb (connected s) || negb (truthy (connection s))); [split; assumption|].
  unfold bind at 1, gets at 1.
  pose proof (keeps_for_each_in
    (fun st => map fst (metric_widgets st) = map fst (metric_widgets s) /\
               NoDup (map fst (metrics st)) /\
               incl (map fst (metrics st)) (map fst (metric_widgets s)))
    (metric_widgets s) (update_metric E)) as Hloop.
  destruct (Hloop (fun x Hx => update_metric_metrics_inv _ x (in_map fst _ _ Hx)) s)
    as (Hk & Hn' & Hi').
  { split; [reflexivity|split; assumption]. }
  split; [exact Hn'|]. rewrite Hk. exact Hi'.
Qed.

Lemma run_metrics_inv a : keeps metrics_inv (run E a).
Proof.
  destruct (match a with UpdateMetrics => true | _ => false end) eqn:Ha.
  - destruct a; try discriminate. apply update_metrics_metrics_inv.
  - intros s Hs. unfold metrics_inv.
    rewrite run_metrics by (intro; subst a; discriminate).
    rewrite (run_keys a s). exact Hs.
Qed.

(** The stored metrics are a dictionary over the names of the table: only
    [update_metrics] writes to it, and it never removes an entry (a
    disconnect keeps the last values, so they can still be saved); in every
    state the monitor reaches the stored names are distinct names of the
    table, so there are at most eight. *)
Theorem stored_metrics_form_dictionary :
  (forall a s, a <> UpdateMetrics -> metrics (snd (run E a s)) = metrics s) /\
  (forall s name, dict_get name (metrics s) <> None ->
                  dict_get name (metrics (snd (update_metrics E s))) <> None) /\
  (forall acts,
     let s := exec E acts (init E) in
     NoDup (map fst (metrics s)) /\
     incl (map fst (metrics s)) (map fst metrics_table) /\
     List.length (metrics s) <= 8).
Proof.
  split; [intros a s Hne; apply run_metrics; exact Hne|]. split.
  - intros s name. revert s.
    change (keeps (fun st => dict_get name (metrics st) <> None) (update_metrics E)).
    mon_unfold.
    mon_keep ltac:(first [assumption | simpl; apply dict_set_present; assumption]).
  - intros acts s.
    assert (Hinv : metrics_inv s).
    { apply exec_keeps; [exact run_metrics_inv|].
      split; [constructor|intros x []]. }
    destruct Hinv as [Hn Hi].
    assert (Hkeys : map fst (metric_widgets s) = map fst metrics_table).
    { pose proof (exec_catalog acts (init E)) as Hcat. fold s in Hcat.
      apply (f_equal (map fst)) in Hcat. unfold catalog in Hcat.
      rewrite map_map in Hcat. exact Hcat. }
    rewrite Hkeys in Hi. split; [exact Hn|]. split; [exact Hi|].
    rewrite <- (length_map fst).
    apply (NoDup_incl_length Hn) in Hi. exact Hi.
Qed.

(** The text [update_metrics] shows for a decoded value. *)
Lemma update_metric_decoded name w s value :
  raises E (trace s) (OBD_query (command w)) = None ->
  reply E (trace s) (command w) = Decoded value ->
  update_metric E (name, w) s =
  (Ok tt, set_metric_widgets
            (setText name
               match quantity value with
               | Some q => fixed1 (magnitude q) ++ " " ++ units q
               | None => str value
               end (metric_widgets s))
            (set_metrics (dict_set name value (metrics s))
               (record (OBD_query (command w)) s))).
Proof.
  intros H Hr. unfold update_metric, try_except, connection_query, bind at 1, call.
  simpl. rewrite H, Hr. unfold bind, modify, label_setText. simpl.
  destruct (quantity value); reflexivity.
Qed.

Lemma update_metric_other_metric name nw :
  fst nw <> name ->
  preserves (fun st => dict_get name (metrics st)) (update_metric E nw).
Proof.
  intros Hne. unfold update_metric. mon_unfold.
  mon_frame ltac:(first [reflexivity | simpl; apply dict_get_set_other; congruence]).
Qed.

(** A decoded value is stored under the metric's name and shown in its
    label: a quantity as its magnitude with one decimal and its unit, any
    other value as its [str].  The later metrics of the same poll leave both
    alone. *)
Theorem decoded_value_is_stored_and_shown s :
  connected s = true -> connection s <> None ->
  NoDup (map fst (metric_widgets s)) ->
  let s' := snd (update_metrics E s) in
  forall pre nw post value,
    metric_widgets s = (pre ++ nw :: post)%list ->
    let before := snd (for_each pre (update_metric E) s) in
    raises E (trace before) (OBD_query (command (snd nw))) = None ->
    reply E (trace before) (command (snd nw)) = Decoded value ->
    dict_get (fst nw) (metrics s') = Some value /\
    label_of (fst nw) s' =
      Some match quantity value with
           | Some q => fixed1 (magnitude q) ++ " " ++ units q
           | None => str value
           end.
Proof.
  intros Hc Hh Hnd s' pre [name w] post value Hws before Hraise Hreply.
  destruct (update_loop_at s pre (name, w) post Hws Hnd Hc Hh) as (Hin & Hlabel & _).
  assert (Hpost : forall x, In x post -> fst x <> name).
  { intros x Hx Heq. rewrite Hws, map_app in Hnd. apply NoDup_remove_2 in Hnd.
    apply Hnd. apply in_or_app. right. simpl. rewrite <- Heq. apply in_map. exact Hx. }
  fold before in Hin, Hlabel. fold s' in Hlabel. simpl in Hin, Hlabel, Hraise, Hreply |- *.
  split.
  - assert (Hs' : s' = snd (for_each post (update_metric E)
                              (snd (update_metric E (name, w) before)))).
    { subst s'. rewrite update_metrics_connected by assumption.
      rewrite Hws. apply update_loop_split. }
    rewrite Hs'.
    rewrite (preserves_for_each_in (fun st => dict_get name (metrics st)) post
               (update_metric E)).
    + rewrite (update_metric_decoded name w before value Hraise Hreply). simpl.
      apply dict_get_set.
    + intros x Hx. apply update_metric_other_metric. apply Hpost. exact Hx.
  - rewrite Hlabel.
    rewrite (update_metric_decoded name w before value Hraise Hreply).
    unfold label_of, labels. simpl. apply setText_same. exact Hin.
Qed.

(** *** Trouble codes *)

(** [clear_dtc] never lets an exception out and touches neither the stored
    metrics, the widgets of the metrics, the connection, the [connected] flag
    nor the timer.  It sends the one CLEAR_DTC query exactly when the monitor
    is connected and the user answers Yes to the question; in every other
    case it sends nothing. *)
Theorem clear_dtc_asks_first s :
  let s' := snd (clear_dtc E s) in
  fst (clear_dtc E s) = Ok tt /\
  metrics s' = metrics s /\ metric_widgets s' = metric_widgets s /\
  connection s' = connection s /\ connected s' = connected s /\
  timer s' = timer s /\
  queries (trace s') =
    (queries (trace s) ++
     if connected s && truthy (connection s) && answers_yes E (trace s)
     then [commands.CLEAR_DTC] else [])%list.
Proof.
  unfold clear_dtc, try_except, bind, gets, QMessageBox_question,
    QMessageBox_warning, QMessageBox_critical, observe, call, log, time_strftime,
    modify, ret.
  destruct (connected s) eqn:Hc; simpl;
    [|rewrite queries_cons; simpl; rewrite app_nil_r; repeat split; assumption].
  destruct (connection s) eqn:Hh; simpl;
    [|rewrite queries_cons; simpl; rewrite app_nil_r; repeat split; assumption].
  destruct (answers_yes E (trace s)); simpl;
    [|rewrite queries_cons; simpl; rewrite app_nil_r; repeat split; assumption].
  destruct (raises E _ (OBD_query commands.CLEAR_DTC)); simpl;
    rewrite !queries_cons; simpl; rewrite !app_nil_r; repeat split; assumption.
Qed.

(** The lines [read_dtc] logs for the codes. *)
Lemma log_codes_run codes : forall s,
  exists s1,
    for_each codes (fun cd : string * string => log E ("  " ++ fst cd ++ ": " ++ snd cd)) s
      = (Ok tt, s1) /\
    List.length (console s1) = List.length (console s) + List.length codes /\
    (forall cd, In cd codes ->
       exists stamp, In ("[" ++ stamp ++ "] " ++ ("  " ++ fst cd ++ ": " ++ snd cd)) (console s1)) /\
    (forall line, In line (console s) -> In line (console s1)) /\
    queries (trace s1) = queries (trace s) /\
    filter is_dialog (trace s1) = filter is_dialog (trace s).
Proof.
  induction codes as [|cd codes IH]; intro s; simpl.
  - exists s. split; [reflexivity|]. split; [lia|].
    split; [intros cd []|]. split; [auto|]. split; reflexivity.
  - unfold bind. rewrite log_run. cbv beta iota.
    destruct (IH (logged E ("  " ++ fst cd ++ ": " ++ snd cd) s))
      as (s1 & Hrun & Hlen & Hin & Hmono & Hq & Hd).
    exists s1. split; [exact Hrun|].
    split; [rewrite Hlen; simpl; rewrite length_app; simpl; lia|].
    split; [|split; [|split]].
    + intros cd' [<-|Hcd'].
      * eexists. apply Hmono. simpl. apply in_or_app. right. left. reflexivity.
      * apply Hin. exact Hcd'.
    + intros line Hl. apply Hmono. simpl. apply in_or_app. left. exact Hl.
    + rewrite Hq. simpl. rewrite queries_cons. simpl. apply app_nil_r.
    + rewrite Hd. reflexivity.
Qed.

Lemma read_dtc_run s :
  connected s = true -> connection s <> None ->
  let at_query := Clock :: trace s in
  exists s',
  read_dtc E s = (Ok tt, s') /\
  queries (trace s') = (queries (trace s) ++ [commands.GET_DTC])%list /\
  (forall e, raises E at_query (OBD_query commands.GET_DTC) = Some e ->
     filter is_dialog (trace s') =
     Dialog Critical "DTC Error" ("Error reading DTCs: " ++ e) :: filter is_dialog (trace s)) /\
  (forall codes,
     raises E at_query (OBD_query commands.GET_DTC) = None ->
     dtc_reply E at_query = Decoded codes -> codes <> [] ->
     filter is_dialog (trace s') = filter is_dialog (trace s) /\
     List.length (console s') = List.length (console s) + 2 + List.length codes /\
     forall cd, In cd codes ->
       exists stamp, In ("[" ++ stamp ++ "] " ++ ("  " ++ fst cd ++ ": " ++ snd cd)) (console s')).
Proof.
  intros Hc Hh at_query. subst at_query.
  unfold read_dtc. unfold bind at 1, gets at 1. unfold bind at 1, gets at 1.
  rewrite Hc. destruct (connection s) as [h|]; [|contradiction].
  cbn [negb orb truthy]. cbv iota.
  unfold try_except. unfold bind at 1. rewrite log_run.
  unfold bind at 1, connection_query_dtc, call. simpl trace.
  destruct (raises E (Clock :: trace s) (OBD_query commands.GET_DTC)) as [e|] eqn:Hr.
  - unfold bind, QMessageBox_critical, observe. rewrite log_run.
    eexists. split; [reflexivity|]. simpl.
    rewrite !queries_cons. simpl. rewrite !app_nil_r.
    split; [reflexivity|]. split.
    + intros e' He. injection He as <-. reflexivity.
    + intros codes Hn. discriminate Hn.
  - destruct (dtc_reply E (Clock :: trace s)) as [|codes] eqn:Hd.
    + rewrite log_run. eexists. split; [reflexivity|]. simpl.
      rewrite !queries_cons. simpl. rewrite !app_nil_r.
      split; [reflexivity|]. split.
      * intros e He. discriminate He.
      * intros codes _ Hcodes. discriminate Hcodes.
    + destruct codes as [|cd codes].
      * rewrite log_run. eexists. split; [reflexivity|]. simpl.
        rewrite !queries_cons. simpl. rewrite !app_nil_r.
        split; [reflexivity|]. split.
        -- intros e He. discriminate He.
        -- intros codes _ Hcodes Hne. injection Hcodes as <-. contradiction.
      * unfold bind at 1. rewrite log_run.
        match goal with
        | |- context [for_each ?cs _ ?st] =>
            destruct (log_codes_run cs st) as (s1 & Hrun & Hlen & Hin & Hmono & Hq & Hdlg)
        end.
        exists s1. split; [rewrite Hrun; reflexivity|].
        rewrite Hq, Hdlg, Hlen. simpl.
        rewrite !queries_cons. simpl. rewrite !app_nil_r.
        split; [reflexivity|]. split.
        -- intros e He. discriminate He.
        -- intros codes' _ Hcodes _. injection Hcodes as <-.
           split; [reflexivity|]. split.
           ++ rewrite !length_app. simpl. lia.
           ++ exact Hin.
Qed.

(** [read_dtc] never lets an exception out.  While connected it sends
    exactly one GET_DTC query; a query that raises is shown once in a
    critical dialog; a decoded, non-empty list of codes is logged as the
    line "Reading...", the line "Found n DTCs:" and one line per code, with
    no dialog. *)
Theorem read_dtc_reports_codes s :
  connected s = true -> connection s <> None ->
  let s' := snd (read_dtc E s) in
  let at_query := Clock :: trace s in
  fst (read_dtc E s) = Ok tt /\
  queries (trace s') = (queries (trace s) ++ [commands.GET_DTC])%list /\
  (forall e, raises E at_query (OBD_query commands.GET_DTC) = Some e ->
     filter is_dialog (trace s') =
     Dialog Critical "DTC Error" ("Error reading DTCs: " ++ e) :: filter is_dialog (trace s)) /\
  (forall codes,
     raises E at_query (OBD_query commands.GET_DTC) = None ->
     dtc_reply E at_query = Decoded codes -> codes <> [] ->
     filter is_dialog (trace s') = filter is_dialog (trace s) /\
     List.length (console s') = List.length (console s) + 2 + List.length codes /\
     forall cd, In cd codes ->
       exists stamp, In ("[" ++ stamp ++ "] " ++ ("  " ++ fst cd ++ ": " ++ snd cd)) (console s')).
Proof.
  intros Hc Hh s' at_query.
  destruct (read_dtc_run s Hc Hh) as (s1 & Hrun & H).
  subst s'. rewrite Hrun. split; [reflexivity|]. exact H.
Qed.

(** *** Saving when the file system fails *)

Lemma f_write_cases filename text chunks s :
  dict_get filename (files s) = Some chunks ->
  (exists e, f_write E filename text s = (Raise e, record (File_write filename text) s)) \/
  (exists s', f_write E filename text s = (Ok tt, s') /\
              dict_get filename (files s') = Some (chunks ++ [text])%list /\
              metrics s' = metrics s).
Proof.
  intros Hget. unfold f_write, bind, call, modify.
  destruct (raises E (trace s) (File_write filename text)) as [e|].
  - left. exists e. reflexivity.
  - right. eexists. split; [reflexivity|]. simpl. rewrite Hget.
    split; [apply dict_get_set|reflexivity].
Qed.

Lemma write_rows_prefix filename rows : forall chunks s,
  dict_get filename (files s) = Some chunks ->
  exists k,
    dict_get filename
      (files (snd (for_each rows (fun nv => f_write E filename (csv_row nv)) s))) =
    Some (chunks ++ firstn k (map csv_row rows))%list.
Proof.
  induction rows as [|nv rows IH]; intros chunks s Hget; simpl.
  - exists 0. rewrite app_nil_r. exact Hget.
  - unfold bind.
    destruct (f_write_cases filename (csv_row nv) chunks s Hget)
      as [(e & Hrun)|(s1 & Hrun & Hget1 & _)]; rewrite Hrun.
    + exists 0. simpl. rewrite app_nil_r. exact Hget.
    + destruct (IH _ s1 Hget1) as (k & Hk). exists (S k).
      rewrite Hk. simpl. rewrite <- app_assoc. reflexivity.
Qed.

(** [save_metrics] from the first write on, in a state where the file has
    just been opened. *)
Lemma save_body_prefix filename s :
  dict_get filename (files s) = Some [] ->
  exists k,
    dict_get filename
      (files (snd ((f_write E filename csv_header ;;
                    ms <- gets metrics ;;
                    for_each ms (fun nv => f_write E filename (csv_row nv)) ;;
                    log E ("Metrics saved to " ++ filename) ;;
                    QMessageBox_information "Metrics Saved" ("Metrics saved to " ++ filename)) s))) =
    Some (firstn k (csv_header :: map csv_row (metrics s))).
Proof.
  intros Hget. unfold bind at 1.
  destruct (f_write_cases filename csv_header [] s Hget)
    as [(e & Hrun)|(s1 & Hrun & Hget1 & Hms)]; rewrite Hrun.
  - exists 0. exact Hget.
  - unfold bind at 1, gets at 1. unfold bind at 1.
    destruct (write_rows_prefix filename (metrics s1) _ s1 Hget1) as (k & Hk).
    destruct (for_each (metrics s1) (fun nv => f_write E filename (csv_row nv)) s1)
      as [[[]|e] s2]; simpl in Hk |- *.
    + exists (S k). rewrite <- Hms. exact Hk.
    + exists (S k). rewrite <- Hms. exact Hk.
Qed.

Lemma save_metrics_open_fails s e :
  let filename := "obd_metrics_" ++ strftime E (trace s) "%Y%m%d_%H%M%S" ++ ".csv" in
  raises E (Clock :: trace s) (File_open filename) = Some e ->
  save_metrics E s =
  (Ok tt, record (Dialog Critical "Save Error" ("Error saving metrics: " ++ e))
            (logged E ("Error saving metrics: " ++ e)
               (record (File_open filename) (record Clock s)))).
Proof.
  intros filename He.
  unfold save_metrics, try_except.
  unfold bind at 1. unfold time_strftime at 1, observe at 1. fold filename.
  unfold bind at 1. unfold open_w, bind at 1, call at 1. simpl trace.
  rewrite He. unfold bind. rewrite log_run. reflexivity.
Qed.

Lemma save_metrics_files s :
  let filename := "obd_metrics_" ++ strftime E (trace s) "%Y%m%d_%H%M%S" ++ ".csv" in
  let s' := snd (save_metrics E s) in
  (forall e, raises E (Clock :: trace s) (File_open filename) = Some e ->
     files s' = files s /\
     filter is_dialog (trace s') =
     Dialog Critical "Save Error" ("Error saving metrics: " ++ e) :: filter is_dialog (trace s)) /\
  (raises E (Clock :: trace s) (File_open filename) = None ->
     exists k, dict_get filename (files s') =
               Some (firstn k (csv_header :: map csv_row (metrics s)))).
Proof.
  intros filename s'. split.
  - intros e He. subst s'. rewrite (save_metrics_open_fails s e He).
    split; reflexivity.
  - intros Hop. subst s'.
    unfold save_metrics, try_except.
    unfold bind at 1. unfold time_strftime at 1, observe at 1. fold filename.
    unfold bind at 1. unfold open_w, bind at 1, call at 1. simpl trace.
    rewrite Hop.
    unfold modify at 1. set (s1 := set_files _ _).
    assert (Hget1 : dict_get filename (files s1) = Some []) by apply dict_get_set.
    destruct (save_body_prefix filename s1 Hget1) as (k & Hk).
    exists k. change (metrics s1) with (metrics s) in Hk. rewrite <- Hk.
    match goal with
    | |- context [match ?body s1 with _ => _ end] => destruct (body s1) as [[[]|e] s2]
    end.
    + reflexivity.
    + reflexivity.
Qed.

(** [save_metrics] never lets an exception out and changes neither the
    stored metrics, the widgets of the metrics nor the connection.  When the
    file cannot be opened, no file is touched and the error is shown once in
    a critical dialog.  When it can, the file holds a prefix of the header
    and the rows, in order, however many writes succeed: a failing write
    never reorders or skips a row. *)
Theorem save_metrics_failure_leaves_prefix s :
  let filename := "obd_metrics_" ++ strftime E (trace s) "%Y%m%d_%H%M%S" ++ ".csv" in
  let s' := snd (save_metrics E s) in
  fst (save_metrics E s) = Ok tt /\
  metrics s' = metrics s /\ metric_widgets s' = metric_widgets s /\
  connection s' = connection s /\ connected s' = connected s /\ timer s' = timer s /\
  (forall e, raises E (Clock :: trace s) (File_open filename) = Some e ->
     files s' = files s /\
     filter is_dialog (trace s') =
     Dialog Critical "Save Error" ("Error saving metrics: " ++ e) :: filter is_dialog (trace s)) /\
  (raises E (Clock :: trace s) (File_open filename) = None ->
     exists k, dict_get filename (files s') =
               Some (firstn k (csv_header :: map csv_row (metrics s)))).
Proof.
  intros filename s'.
  split.
  { apply returns_Ok. unfold save_metrics. apply returns_try_except. intro e.
    apply returns_bind; [apply log_returns|]. intro. apply mon_returns_observe. }
  split; [|split; [|split; [|split; [|split]]]].
  - subst s'. generalize s. change (preserves metrics (save_metrics E)).
    mon_unfold. mon_frame ltac:(reflexivity).
  - subst s'. generalize s. change (preserves metric_widgets (save_metrics E)).
    mon_unfold. mon_frame ltac:(reflexivity).
  - subst s'. generalize s. change (preserves connection (save_metrics E)).
    mon_unfold. mon_frame ltac:(reflexivity).
  - subst s'. generalize s. change (preserves connected (save_metrics E)).
    mon_unfold. mon_frame ltac:(reflexivity).
  - subst s'. generalize s. change (preserves timer (save_metrics E)).
    mon_unfold. mon_frame ltac:(reflexivity).
  - apply save_metrics_files.
Qed.

(** *** The console *)

Lemma run_console_grows s0 a :
  keeps (fun st => exists lines, console st = (console s0 ++ lines)%list) (run E a).
Proof.
  destruct a; mon_unfold;
    mon_keep ltac:(
      match goal with
      | H : exists _, _ |- _ => destruct H as [l Hl]
      end;
      simpl;
      first [ exists l; exact Hl
            | eexists; rewrite Hl, <- app_assoc; reflexivity ]).
Qed.

(** The console is append-only: no method ever removes or changes a line
    that was logged, so after any sequence of methods the console still
    starts with the lines it had, the first of them being the start-up
    line. *)
Theorem console_is_append_only :
  (forall acts s, exists lines, console (exec E acts s) = (console s ++ lines)%list) /\
  (forall acts, exists lines,
     console (exec E acts (init E)) =
     ("[" ++ strftime E [] "%Y-%m-%d %H:%M:%S" ++ "] " ++ "Application started") :: lines).
Proof.
  assert (H : forall acts s, exists lines, console (exec E acts s) = (console s ++ lines)%list).
  { intros acts s.
    apply (exec_keeps (fun st => exists lines, console st = (console s ++ lines)%list)).
    - intro a. apply run_console_grows.
    - exists []. rewrite app_nil_r. reflexivity. }
  split; [exact H|].
  intro acts. destruct (H acts (init E)) as [lines Hl]. exists lines. exact Hl.
Qed.

(** *** A close that fails *)

(** When [connection.close()] raises, the exception leaves [disconnect_obd]
    after the timer was stopped and before anything else was assigned: the
    connection object is still held, [connected] and the labels are as they
    were and nothing is logged.  The monitor then shows itself connected
    while it no longer polls, and the next disconnect calls [close()]
    again. *)
Theorem disconnect_obd_close_raises s h e :
  connection s = Some h ->
  raises E (trace s) OBD_close = Some e ->
  let s' := snd (disconnect_obd E s) in
  disconnect_obd E s = (Raise e, record OBD_close (set_timer None s)) /\
  timer s' = None /\ connection s' = Some h /\ connected s' = connected s /\
  metric_widgets s' = metric_widgets s /\ console s' = console s /\
  connect_button s' = connect_button s /\
  filter is_library_call (trace (snd (disconnect_obd E s'))) =
    OBD_close :: OBD_close :: filter is_library_call (trace s).
Proof.
  intros Hc Hr s'.
  assert (Hrun : disconnect_obd E s = (Raise e, record OBD_close (set_timer None s))).
  { unfold disconnect_obd, connection_close, call.
    unfold bind at 1, gets at 1. rewrite Hc. simpl truthy. cbv iota.
    unfold bind, modify. simpl. rewrite Hr. reflexivity. }
  subst s'. rewrite Hrun. simpl.
  repeat (split; [first [reflexivity | assumption]|]).
  set (s1 := record OBD_close (set_timer None s)).
  assert (Hc1 : connection s1 = Some h) by exact Hc.
  assert (Hin : forall m : Stmt unit,
            preserves (fun st => filter is_library_call (trace st)) m ->
            forall st, filter is_library_call (trace (snd (m st))) =
                       filter is_library_call (trace st)) by (intros m Hm; exact Hm).
  unfold disconnect_obd.
  unfold bind at 1, gets at 1. rewrite Hc1. simpl truthy. cbv iota.
  rewrite bind_modify_bind.
  unfold bind at 1. unfold bind at 1, connection_close, call.
  destruct (raises E (trace (set_timer None s1)) OBD_close).
  - reflexivity.
  - unfold modify at 1.
    match goal with
    | |- filter _ (trace (snd (?m ?st))) = _ =>
        rewrite (Hin m); [reflexivity|]
    end.
    mon_unfold. mon_frame ltac:(reflexivity).
Qed.

(** *** The connect button *)

Lemma connect_obd_connected s :
  let arg := if port_input s =? "" then None else Some (port_input s) in
  raises E (Clock :: trace s) (OBD_new arg) = None ->
  status E (OBD_new arg :: Clock :: trace s) = CAR_CONNECTED ->
  exists s1,
    connect_obd E s = (Ok tt, s1) /\
    connected s1 = true /\ connection s1 = Some (S (List.length (trace s))) /\
    timer s1 = Some 1000 /\
    metric_widgets s1 = metric_widgets s /\ metrics s1 = metrics s /\
    trace s1 = Clock :: OBD_new arg :: Clock :: trace s.
Proof.
  intros arg Hr Hst. subst arg.
  unfold connect_obd, try_except, bind, gets, modify, log, time_strftime,
    obd_OBD, call, connection_status, QMessageBox_warning, QMessageBox_critical,
    observe.
  destruct (port_input s =? ""); simpl in *; rewrite Hr; simpl; rewrite Hst; simpl;
    eexists; repeat split.
Qed.

Lemma toggle_connection_run s :
  toggle_connection E s = if connected s then disconnect_obd E s else connect_obd E s.
Proof.
  unfold toggle_connection, bind, gets. destruct (connected s); reflexivity.
Qed.

(** Clicking the button twice connects and disconnects: from a disconnected
    monitor, when the connect succeeds with the car connected and the close
    does not raise, the second click leaves the monitor disconnected with no
    connection object, the timer stopped, every label back to "--", the
    button reading "Connect", and the stored metrics and the catalog as
    they were; the adapter saw one open and one close. *)
Theorem toggle_connection_round_trip s :
  connected s = false ->
  NoDup (map fst (metric_widgets s)) ->
  let arg := if port_input s =? "" then None else Some (port_input s) in
  raises E (Clock :: trace s) (OBD_new arg) = None ->
  status E (OBD_new arg :: Clock :: trace s) = CAR_CONNECTED ->
  raises E (Clock :: OBD_new arg :: Clock :: trace s) OBD_close = None ->
  let s2 := snd (toggle_connection E (snd (toggle_connection E s))) in
  fst (toggle_connection E (snd (toggle_connection E s))) = Ok tt /\
  connected s2 = false /\ connection s2 = None /\ timer s2 = None /\
  connect_button s2 = "Connect" /\ status_label s2 = "Disconnected" /\
  (forall name text, In (name, text) (labels s2) -> text = "--") /\
  metrics s2 = metrics s /\ catalog s2 = catalog s /\
  filter is_library_call (trace s2) =
    OBD_close :: OBD_new arg :: filter is_library_call (trace s).
Proof.
  intros Hc Hnd arg Hr Hst Hcl s2. subst s2.
  destruct (connect_obd_connected s Hr Hst)
    as (s1 & Hrun & Hc1 & Hh1 & Ht1 & Hws1 & Hm1 & Htr1).
  rewrite (toggle_connection_run s), Hc, Hrun. simpl snd.
  rewrite (toggle_connection_run s1), Hc1.
  assert (Hnd1 : NoDup (map fst (metric_widgets s1))) by (rewrite Hws1; exact Hnd).
  rewrite (disconnect_obd_some s1 _ Hh1 Hnd1). rewrite Htr1. fold arg. rewrite Hcl.
  simpl. rewrite ?Htr1, ?Hm1. fold arg.
  split; [reflexivity|]. split; [reflexivity|]. split; [reflexivity|].
  split; [reflexivity|]. split; [reflexivity|]. split; [reflexivity|].
  split; [|split; [reflexivity|split]].
  - intros name text Hin. unfold labels in Hin. simpl in Hin.
    unfold blank in Hin. rewrite map_map in Hin. apply in_map_iff in Hin.
    destruct Hin as (nw & Heq & _). simpl in Heq. congruence.
  - unfold catalog. simpl. rewrite Hws1. unfold blank. rewrite map_map. reflexivity.
  - reflexivity.
Qed.

End OBDMonitorProperties.

(** ** [OBDMonitor] over the query engine *)

Section QueryEngineProperties.

Import OBDMonitor.

Variable base : Env.
Variable read_frame : list Event -> Command -> QueryEngine.Frame.
Variable descriptor : Command -> QueryEngine.Descriptor.

(** The engine's answer as [connection.query] hands it to the caller. *)
Lemma library_query_null tr c raw :
  read_frame tr c = QueryEngine.Reply raw ->
  QueryEngine.decode (descriptor c) raw = None ->
  QueryEngine.query (read_frame tr c) (descriptor c) = Ok Null /\
  raises (QueryEngine.library read_frame descriptor base) tr (OBD_query c) = None /\
  reply (QueryEngine.library read_frame descriptor base) tr c = Null.
Proof.
  intros Hframe Hdecode. unfold QueryEngine.library, QueryEngine.query. simpl.
  rewrite Hframe, Hdecode. repeat split.
Qed.

(** C4: for every query whose reply cannot be decoded, the query engine's
    result is a null response ([is_null] holds) rather than a raised
    exception, and [update_metrics], the consumer, treats it as a recoverable
    non-failure: the metric's label shows "N/A", nothing is logged or stored
    for it, no dialog is shown, and the connection is not torn down (the
    connection, the [connected] flag and the timer stay as they were). *)
Theorem null_response_shows_not_available s :
  let E := QueryEngine.library read_frame descriptor base in
  connected s = true -> connection s <> None ->
  NoDup (map fst (metric_widgets s)) ->
  let s' := snd (update_metrics E s) in
  fst (update_metrics E s) = Ok tt /\
  connection s' = connection s /\ connected s' = true /\ timer s' = timer s /\
  filter is_dialog (trace s') = filter is_dialog (trace s) /\
  (forall pre nw post raw,
     metric_widgets s = (pre ++ nw :: post)%list ->
     let before := snd (for_each pre (update_metric E) s) in
     let after := snd (update_metric E nw before) in
     let c := command (snd nw) in
     read_frame (trace before) c = QueryEngine.Reply raw ->
     QueryEngine.decode (descriptor c) raw = None ->
     (exists response,
        QueryEngine.query (read_frame (trace before) c) (descriptor c) = Ok response /\
        fst (connection_query E c before) = Ok response /\
        is_null response = true) /\
     label_of (fst nw) s' = Some "N/A" /\
     fst (update_metric E nw before) = Ok tt /\
     console after = console before /\
     metrics after = metrics before).
Proof.
  intros E Hc Hh Hnd s'.
  destruct (update_metrics_null_response E s Hc Hh Hnd)
    as (Hret & Hconn & Hflag & Htimer & Hdialog & Hat).
  split; [exact Hret|]. split; [exact Hconn|]. split; [exact Hflag|].
  split; [exact Htimer|]. split; [exact Hdialog|].
  intros pre nw post raw Hws before after c Hframe Hdecode.
  destruct (library_query_null (trace before) c raw Hframe Hdecode)
    as (Hquery & Hraises & Hreply).
  split.
  - exists Null. split; [exact Hquery|]. split; [|reflexivity].
    unfold connection_query, call, E. rewrite Hraises. cbn [fst].
    rewrite Hreply. reflexivity.
  - apply (Hat pre nw post Hws); assumption.
Qed.

End QueryEngineProperties.

(** ** [MainWindow] *)

Section MainWindowProperties.

Import MainWindow.

Variable E : Env.

Lemma win_preserves_call {A X} (f : State -> X) ev (answer : list Event -> A) :
  (forall s, f (record ev s) = f s) -> preserves f (call E ev answer).
Proof.
  intros H s. unfold call. destruct (raises E (trace s) ev); simpl; apply H.
Qed.

Lemma win_preserves_observe {A X} (f : State -> X) ev (answer : list Event -> A) :
  (forall s, f (record ev s) = f s) -> preserves f (observe ev answer).
Proof. intros H s. apply H. Qed.

Lemma win_preserves_raise {A X} (f : State -> X) e : preserves f (@raise A e).
Proof. intro s. reflexivity. Qed.

Lemma win_preserves_with_async {X} (f : State -> X) h g :
  (forall v s, f (set_asyncs v s) = f s) -> preserves f (with_async h g).
Proof.
  intros H s. unfold with_async, modify. simpl.
  destruct (nth_error (asyncs s) h); [apply H|reflexivity].
Qed.

Ltac win_frame leaf :=
  repeat first
    [ apply preserves_ret
    | apply preserves_gets
    | apply win_preserves_raise
    | apply preserves_bind
    | apply preserves_try_except
    | apply preserves_for_each
    | apply win_preserves_with_async; intros; leaf
    | apply preserves_modify; intros; leaf
    | apply win_preserves_call; intros; leaf
    | apply win_preserves_observe; intros; leaf
    | match goal with
      | |- forall _, _ => intro
      | |- preserves _ (if ?b then _ else _) => destruct b
      | |- preserves _ (match ?x with _ => _ end) => destruct x
      end ].

Ltac win_unfold :=
  unfold run, closeEvent, fire_single_shot, connect_to_adapter, connect_with,
    disconnect_from_adapter, start_monitoring, stop_monitoring,
    deliver_signals, update_data_label, QApplication_processEvents,
    commands_getitem, obd_Async, async_watch, async_start, async_stop,
    obd_OBD, connection_query, connection_close,
    QMessageBox_warning, QMessageBox_critical.

(** *** The data log *)

Lemma run_data_log a :
  (forall r, a <> Callback r) -> preserves data_log (run E a).
Proof.
  intros Hne. destruct a; try (exfalso; eapply Hne; reflexivity);
    win_unfold; win_frame ltac:(reflexivity).
Qed.

Lemma on_data_received_decoded v s :
  on_data_received E (Decoded v) s =
  (Ok tt, set_signals (signals s ++ [str v])%list
            (set_data_log (data_log s ++ [(time_time E (trace s), str v)])%list
               (record Clock s))).
Proof. reflexivity. Qed.

Lemma exec_data_log acts : forall s,
  map snd (data_log (exec E acts s)) = (map snd (data_log s) ++ received acts)%list.
Proof.
  induction acts as [|a acts IH]; intro s; simpl.
  - rewrite app_nil_r. reflexivity.
  - change (map snd (data_log (exec E acts (snd (run E a s)))) =
            (map snd (data_log s) ++
             (match a with Callback (Decoded v) => [str v] | _ => [] end) ++ received acts)%list).
    rewrite IH. rewrite app_assoc. f_equal.
    destruct a as [| | | | | | |[|v]| | |];
      try (rewrite run_data_log by discriminate; rewrite app_nil_r; reflexivity).
    + simpl. rewrite app_nil_r. reflexivity.
    + simpl. rewrite map_app. reflexivity.
Qed.

(** C8: the watch callback [on_data_received], given a null response,
    leaves the data log and the displayed value as they were and emits no
    update signal (it changes nothing at all); given a non-null response it
    appends exactly one pair (timestamp, [str] of the value) to [data_log]
    and emits that string once.  So, whatever else happens to the window, the
    entries of [data_log] are the values of the non-null responses the
    callback was given, in the order of the invocations. *)
Theorem on_data_received_appends_non_null :
  (forall s, on_data_received E Null s = (Ok tt, s)) /\
  (forall v s,
     let s' := snd (on_data_received E (Decoded v) s) in
     fst (on_data_received E (Decoded v) s) = Ok tt /\
     data_log s' = (data_log s ++ [(time_time E (trace s), str v)])%list /\
     signals s' = (signals s ++ [str v])%list /\
     data_label s' = data_label s) /\
  (forall auto_connect host port acts,
     map snd (data_log (exec E acts (init auto_connect host port))) = received acts).
Proof.
  split; [reflexivity|]. split.
  - intros v s. rewrite on_data_received_decoded. simpl. repeat split.
  - intros auto_connect host port acts. rewrite exec_data_log. reflexivity.
Qed.

(** *** The connection string *)

Lemma win_keeps_call {A} P ev (answer : list Event -> A) :
  (forall s, P s -> P (record ev s)) -> keeps P (call E ev answer).
Proof.
  intros H s Hs. unfold call. destruct (raises E (trace s) ev); simpl; apply H, Hs.
Qed.

Lemma win_keeps_observe {A} P ev (answer : list Event -> A) :
  (forall s, P s -> P (record ev s)) -> keeps P (observe ev answer).
Proof. intros H s Hs. apply H, Hs. Qed.

Lemma win_keeps_raise {A} P e : keeps P (@raise A e).
Proof. intros s Hs. exact Hs. Qed.

Lemma win_keeps_with_async P h g :
  (forall v s, P s -> P (set_asyncs v s)) -> keeps P (with_async h g).
Proof.
  intros H s Hs. unfold with_async, modify. simpl.
  destruct (nth_error (asyncs s) h); [apply H, Hs|exact Hs].
Qed.

Ltac win_keep leaf :=
  repeat first
    [ apply keeps_ret
    | apply keeps_gets
    | apply win_keeps_raise
    | apply keeps_bind
    | apply keeps_try_except
    | apply keeps_for_each
    | apply win_keeps_with_async; intros; leaf
    | apply keeps_modify; intros; leaf
    | apply win_keeps_call; intros; leaf
    | apply win_keeps_observe; intros; leaf
    | match goal with
      | |- forall _, _ => intro
      | |- keeps _ (if ?b then _ else _) => destruct b
      | |- keeps _ (match ?x with _ => _ end) => destruct x
      end ].

Lemma QApplication_processEvents_returns : returns QApplication_processEvents.
Proof.
  unfold QApplication_processEvents, deliver_signals.
  apply returns_bind; [intro; reflexivity|]. intros _.
  apply returns_bind; [apply returns_gets|]. intro vs.
  apply returns_bind; [apply returns_modify|]. intros _.
  apply returns_for_each. intro. apply returns_modify.
Qed.

Lemma connect_with_opens cs :
  adds (fun st => opened (trace st)) (connect_with E cs) [Some cs].
Proof.
  unfold connect_with. apply adds_try_except.
  - apply adds_bind_then; [apply returns_modify| |intros _].
    { apply preserves_modify. reflexivity. }
    apply adds_bind_then; [apply QApplication_processEvents_returns| |intros _].
    { win_unfold.
      win_frame ltac:(first [reflexivity | simpl; rewrite opened_cons; simpl; apply app_nil_r]). }
    apply adds_bind_first.
    + intro s. unfold obd_OBD, call.
      destruct (raises E (trace s) (OBD_new (Some cs))); simpl; apply opened_cons.
    + intro c. win_unfold.
      win_frame ltac:(first [reflexivity | simpl; rewrite opened_cons; simpl; apply app_nil_r]).
  - intro e. win_unfold.
    win_frame ltac:(first [reflexivity | simpl; rewrite opened_cons; simpl; apply app_nil_r]).
Qed.

(** [connect_to_adapter] opens one connection, to the string it built. *)
Lemma connect_to_adapter_opens s :
  opened (trace (snd (connect_to_adapter E s))) =
  (opened (trace s) ++ [Some (connection_string s)])%list.
Proof. apply (connect_with_opens (connection_string s) s). Qed.

(** C5 (as the code has it): every connect request is for the string
    "<host>:<port>".  Host and port are the texts of the two input fields; an
    empty field falls back to the value the window was constructed with
    ([--host] / [--port]), which is the class default ("192.168.0.10",
    "35000") when none was given, so that a window built without arguments and
    with emptied fields connects to "192.168.0.10:35000".  The class flag
    [AUTO_CONNECT], cleared by [--no-auto-connect], decides whether a
    single-shot timer is pending at startup, and that timer runs
    [connect_to_adapter]. *)
Theorem connection_string_host_port :
  (forall s, opened (trace (snd (connect_to_adapter E s))) =
             (opened (trace s) ++ [Some (connection_string s)])%list) /\
  (forall s, connection_string s =
             str_or (host_input s) (host s) ++ ":" ++ str_or (port_input s) (port s)) /\
  (forall auto_connect h p,
     let s := init auto_connect h p in
     host s = opt_or h DEFAULT_HOST /\ port s = opt_or p DEFAULT_PORT /\
     host_input s = host s /\ port_input s = port s) /\
  (forall auto_connect,
     connection_string (set_port_input "" (set_host_input "" (init auto_connect None None))) =
     "192.168.0.10:35000") /\
  (forall h p no_auto_connect,
     single_shot (main h p no_auto_connect) = if no_auto_connect then [] else [500]) /\
  (forall s ms rest, single_shot s = ms :: rest ->
     fire_single_shot E s = connect_to_adapter E (set_single_shot rest s)).
Proof.
  split; [exact connect_to_adapter_opens|].
  split; [reflexivity|].
  split; [intros; repeat split|].
  split; [reflexivity|].
  split; [intros h p []; reflexivity|].
  intros s ms rest H. unfold fire_single_shot, bind at 1, gets at 1.
  rewrite H. reflexivity.
Qed.

(** *** The watch loop *)

Lemma nth_error_last {A} (xs : list A) a : nth_error (xs ++ [a]) (List.length xs) = Some a.
Proof. induction xs as [|x xs IH]; simpl; [reflexivity|exact IH]. Qed.

Lemma list_set_last {A} (xs : list A) a b :
  list_set (List.length xs) b (xs ++ [a]) = (xs ++ [b])%list.
Proof. induction xs as [|x xs IH]; simpl; [reflexivity|rewrite IH; reflexivity]. Qed.

Lemma nth_error_list_set {A} (xs : list A) : forall h x a,
  nth_error xs h = Some x -> nth_error (list_set h a xs) h = Some a.
Proof.
  induction xs as [|y xs IH]; intros [|h] x a H; simpl in *; try discriminate.
  - reflexivity.
  - eapply IH. exact H.
Qed.

Lemma nth_error_list_set_other {A} (xs : list A) : forall h k a,
  h <> k -> nth_error (list_set h a xs) k = nth_error xs k.
Proof.
  induction xs as [|y xs IH]; intros [|h] [|k] a Hne; simpl; try reflexivity.
  - contradiction.
  - apply IH. intro Heq. apply Hne. rewrite Heq. reflexivity.
Qed.

Lemma async_stop_run h s :
  async_stop E h s =
  match raises E (trace s) (Async_stop h) with
  | Some e => (Raise e, record (Async_stop h) s)
  | None => (Ok tt, async_updated h stopped (record (Async_stop h) s))
  end.
Proof.
  unfold async_stop, bind, call, with_async, modify.
  destruct (raises E (trace s) (Async_stop h)); reflexivity.
Qed.

Lemma async_updated_stopped h s : may_call_back h (async_updated h stopped s) = false.
Proof.
  unfold may_call_back, async_updated.
  destruct (nth_error (asyncs s) h) as [a|] eqn:Hn; simpl.
  - rewrite (nth_error_list_set _ _ _ _ Hn). reflexivity.
  - rewrite Hn. reflexivity.
Qed.

Lemma stop_monitoring_run s :
  stop_monitoring E s =
  match async_connection s with
  | None => (Ok tt, idle_controls s)
  | Some h =>
      match raises E (trace s) (Async_stop h) with
      | Some e => (Raise e, record (Async_stop h) s)
      | None => (Ok tt, idle_controls (set_async_connection None
                          (async_updated h stopped (record (Async_stop h) s))))
      end
  end.
Proof.
  unfold stop_monitoring. unfold bind at 1, gets at 1.
  destruct (async_connection s) as [h|].
  - unfold bind at 1. unfold bind at 1. rewrite async_stop_run.
    destruct (raises E (trace s) (Async_stop h)); reflexivity.
  - reflexivity.
Qed.

Lemma start_monitoring_started s name :
  truthy (connection s) = true -> is_connected E (trace s) = true ->
  currentText (metrics_combo s) = name ->
  (name =? "Select a metric") = false -> (name =? "") = false ->
  known_command E name = true ->
  let h := List.length (asyncs s) in
  raises E (trace s) Async_new = None ->
  raises E (Async_new :: trace s) (Async_watch h (Cmd name)) = None ->
  raises E (Async_watch h (Cmd name) :: Async_new :: trace s) (Async_start h) = None ->
  start_monitoring E s = (Ok tt, started name s).
Proof.
  intros Hc Hok Hsel Hn1 Hn2 Hk h Hr1 Hr2 Hr3.
  unfold start_monitoring, try_except, commands_getitem, obd_Async, async_watch,
    async_start, with_async, call, bind, gets, modify, ret.
  unfold started. subst h.
  rewrite Hc, Hok. simpl. rewrite Hsel, Hn1, Hn2. simpl. rewrite Hk. simpl.
  rewrite Hr1. simpl. rewrite Hr2. simpl.
  rewrite nth_error_last. simpl. rewrite Hr3. simpl.
  rewrite list_set_last. rewrite nth_error_last. simpl. rewrite list_set_last.
  reflexivity.
Qed.


(** C1 (as the code has it): [start_monitoring] does not check for an active
    watcher and there is no AlreadyRunningError.  Invoked with a connected
    adapter and a selectable metric, when the library calls succeed, it
    returns normally without a dialog, whatever [async_connection] held
    before: [async_connection] becomes a new [obd.Async] object that watches
    the newly selected command and is started.  What keeps a second start
    away is the start control, disabled by a successful start (the stop
    control is enabled). *)
Theorem start_monitoring_replaces_watcher s name :
  truthy (connection s) = true -> is_connected E (trace s) = true ->
  currentText (metrics_combo s) = name ->
  (name =? "Select a metric") = false -> (name =? "") = false ->
  known_command E name = true ->
  let h := List.length (asyncs s) in
  raises E (trace s) Async_new = None ->
  raises E (Async_new :: trace s) (Async_watch h (Cmd name)) = None ->
  raises E (Async_watch h (Cmd name) :: Async_new :: trace s) (Async_start h) = None ->
  let s' := snd (start_monitoring E s) in
  fst (start_monitoring E s) = Ok tt /\
  filter is_dialog (trace s') = filter is_dialog (trace s) /\
  async_connection s' = Some h /\
  nth_error (asyncs s) h = None /\
  nth_error (asyncs s') h = Some {| watched := [Cmd name]; running := true |} /\
  start_button s' = false /\ stop_button s' = true.
Proof.
  intros Hc Hok Hsel Hn1 Hn2 Hk h Hr1 Hr2 Hr3 s'. subst s'.
  rewrite (start_monitoring_started s name Hc Hok Hsel Hn1 Hn2 Hk Hr1 Hr2 Hr3).
  simpl. repeat split.
  - apply nth_error_None. apply Nat.le_refl.
  - apply nth_error_last.
Qed.

(** *** Disconnecting *)

Lemma close_and_reset_run s :
  (c <- gets connection ;;
   (if truthy c then connection_close E ;; modify (set_connection None) else ret tt) ;;
   modify (set_status_label "Status: Disconnected") ;;
   modify (set_connect_button true) ;;
   modify (set_disconnect_button false) ;;
   modify (set_start_button false) ;;
   modify (set_stop_button false) ;;
   modify (set_vin_label "VIN: N/A") ;;
   modify (set_data_label "Data: N/A") ;;
   modify (fun s => set_metrics_combo (setCurrentIndex 0 (metrics_combo s)) s)) s =
  close_and_reset E s.
Proof.
  unfold close_and_reset, connection_close, call, bind, gets, modify, ret.
  destruct (connection s); simpl.
  - destruct (raises E (trace s) OBD_close); reflexivity.
  - reflexivity.
Qed.

Lemma disconnect_from_adapter_run s :
  disconnect_from_adapter E s =
  match async_connection s with
  | None => close_and_reset E s
  | Some h =>
      match raises E (trace s) (Async_stop h) with
      | Some e => (Raise e, record (Async_stop h) s)
      | None => close_and_reset E (set_async_connection None
                  (async_updated h stopped (record (Async_stop h) s)))
      end
  end.
Proof.
  unfold disconnect_from_adapter. unfold bind at 1, gets at 1.
  destruct (async_connection s) as [h|].
  - unfold bind at 1. unfold bind at 1. rewrite async_stop_run.
    destruct (raises E (trace s) (Async_stop h)); [reflexivity|].
    unfold modify at 1. apply close_and_reset_run.
  - unfold bind at 1, ret at 1. apply close_and_reset_run.
Qed.

Lemma setCurrentIndex_idem i cb : setCurrentIndex i (setCurrentIndex i cb) = setCurrentIndex i cb.
Proof. reflexivity. Qed.



(** *** Connecting *)

Lemma deliver_loop_run vs : forall s,
  for_each vs update_data_label s =
  (Ok tt, set_data_label (shown_after vs (data_label s)) s).
Proof.
  induction vs as [|v vs IH]; intro s; simpl.
  - destruct s; reflexivity.
  - unfold bind, update_data_label at 1, modify. rewrite IH. reflexivity.
Qed.

Lemma deliver_signals_run s :
  deliver_signals s =
  (Ok tt, set_data_label (shown_after (signals s) (data_label s)) (set_signals [] s)).
Proof.
  unfold deliver_signals, bind, gets, modify. rewrite deliver_loop_run. reflexivity.
Qed.

Lemma QApplication_processEvents_run s :
  QApplication_processEvents s = (Ok tt, events_processed s).
Proof.
  unfold QApplication_processEvents, bind, observe.
  rewrite deliver_signals_run. reflexivity.
Qed.

Lemma populate_loop_run cmds : forall s,
  for_each cmds
    (fun cmd => modify (fun s => set_metrics_combo (addItem (cmd_name cmd) (metrics_combo s)) s)) s =
  (Ok tt, set_metrics_combo
            (fold_left (fun cb cmd => addItem (cmd_name cmd) cb) cmds (metrics_combo s)) s).
Proof.
  induction cmds as [|cmd cmds IH]; intro s; simpl.
  - destruct s; reflexivity.
  - unfold bind, modify at 1. rewrite IH. reflexivity.
Qed.

Lemma populated_from cmds : forall cb,
  items (fold_left (fun cb cmd => addItem (cmd_name cmd) cb) cmds cb) =
    (items cb ++ map cmd_name cmds)%list /\
  currentIndex (fold_left (fun cb cmd => addItem (cmd_name cmd) cb) cmds cb) =
    match currentIndex cb, cmds with
    | Some i, _ => Some i
    | None, [] => None
    | None, _ :: _ => Some 0
    end.
Proof.
  induction cmds as [|cmd cmds IH]; intro cb; simpl.
  - rewrite app_nil_r. split; [reflexivity|]. destruct (currentIndex cb); reflexivity.
  - destruct (IH (addItem (cmd_name cmd) cb)) as [Hi Hc]. rewrite Hi, Hc. simpl.
    rewrite <- app_assoc. split; [reflexivity|].
    destruct (currentIndex cb); reflexivity.
Qed.

Lemma populated_items cmds :
  items (populated cmds) = map cmd_name cmds /\
  currentText (populated cmds) = hd "" (map cmd_name cmds).
Proof.
  unfold populated, currentText.
  destruct (populated_from cmds {| items := []; currentIndex := None |}) as [Hi Hc].
  rewrite Hi, Hc. simpl. split; [reflexivity|].
  destruct cmds; reflexivity.
Qed.

Lemma offered_no_vin cmds : ~ In "VIN" (map cmd_name (offered cmds)).
Proof.
  unfold offered. intro H. apply in_map_iff in H. destruct H as (cmd & Hn & Hin).
  apply filter_In in Hin. destruct Hin as [_ Hf]. rewrite Hn in Hf. discriminate.
Qed.

Lemma connect_with_run cs s :
  let s2 := events_processed (set_status_label "Status: Connecting..." s) in
  connect_with E cs s =
  match raises E (trace s2) (OBD_new (Some cs)) with
  | Some e =>
      (Ok tt, record (Dialog Critical "Error" ("Connection error: " ++ e))
                (set_status_label "Status: Disconnected" (record (OBD_new (Some cs)) s2)))
  | None =>
      let s3 := set_connection (Some (List.length (trace s2))) (record (OBD_new (Some cs)) s2) in
      if is_connected E (trace s3) then
        let s4 := set_start_button true (set_disconnect_button true (set_connect_button false
                    (set_status_label ("Status: Connected to " ++ cs) s3))) in
        if supports E (trace s4) commands.VIN then
          match raises E (trace s4) (OBD_query commands.VIN) with
          | Some e =>
              (Ok tt, record (Dialog Critical "Error" ("Connection error: " ++ e))
                        (set_status_label "Status: Disconnected"
                           (record (OBD_query commands.VIN) s4)))
          | None =>
              let s5 := set_vin_label
                          match reply E (trace s4) commands.VIN with
                          | Decoded value => "VIN: " ++ str value
                          | Null => "VIN: Not Available"
                          end (record (OBD_query commands.VIN) s4) in
              (Ok tt, set_metrics_combo
                        (populated (offered (supported_commands E (trace s5)))) s5)
          end
        else
          (Ok tt, set_metrics_combo
                    (populated (offered (supported_commands E (trace s4)))) s4)
      else
        (Ok tt, record (Dialog Critical "Error"
                          ("Failed to connect to the adapter at " ++ cs ++ "."))
                  (set_status_label "Status: Connection Failed" s3))
  end.
Proof.
  intro s2. unfold connect_with, try_except.
  unfold bind at 1, modify at 1.
  unfold bind at 1. rewrite QApplication_processEvents_run. fold s2.
  unfold bind at 1, obd_OBD, call.
  destruct (raises E (trace s2) (OBD_new (Some cs))) as [e|]; [reflexivity|].
  unfold bind at 1, modify at 1. unfold bind at 1, gets at 1.
  set (s3 := set_connection _ _).
  destruct (is_connected E (trace s3)); [|reflexivity].
  unfold bind at 1, modify at 1. unfold bind at 1, modify at 1.
  unfold bind at 1, modify at 1. unfold bind at 1, modify at 1.
  set (s4 := set_start_button true _).
  unfold bind at 1, gets at 1.
  destruct (supports E (trace s4) commands.VIN).
  - unfold bind at 1. unfold bind at 1, connection_query, call.
    destruct (raises E (trace s4) (OBD_query commands.VIN)) as [e|]; [reflexivity|].
    destruct (reply E (trace s4) commands.VIN) as [|value];
      unfold modify at 1; unfold bind at 1, modify at 1; unfold bind at 1, gets at 1;
      rewrite populate_loop_run; reflexivity.
  - unfold bind at 1, ret at 1. unfold bind at 1, modify at 1. unfold bind at 1, gets at 1.
    rewrite populate_loop_run. reflexivity.
Qed.

Lemma connect_to_adapter_with s :
  connect_to_adapter E s = connect_with E (connection_string s) s.
Proof. reflexivity. Qed.

(** [connect_to_adapter] never lets an exception out.  When [obd.OBD]
    raises, the old connection object stays and the status reads
    "Disconnected"; when it returns an object that is not connected, the
    object is kept all the same and the status reads "Connection Failed"; in
    both cases the buttons and the metric box are as they were.  When the
    object is connected (and the VIN query, if VIN is supported, does not
    raise), the connect button is disabled, disconnect and start are
    enabled, and the metric box holds exactly the names of the supported
    commands other than "VIN", in the library's order, the first one
    selected: the placeholder entry is gone. *)
Theorem connect_to_adapter_outcomes s :
  let cs := connection_string s in
  let at_open := ProcessEvents :: trace s in
  let at_conn := OBD_new (Some cs) :: at_open in
  let s' := snd (connect_to_adapter E s) in
  fst (connect_to_adapter E s) = Ok tt /\
  (forall e, raises E at_open (OBD_new (Some cs)) = Some e ->
     connection s' = connection s /\ status_label s' = "Status: Disconnected" /\
     connect_button s' = connect_button s /\ disconnect_button s' = disconnect_button s /\
     start_button s' = start_button s /\ metrics_combo s' = metrics_combo s) /\
  (raises E at_open (OBD_new (Some cs)) = None -> is_connected E at_conn = false ->
     connection s' <> None /\ status_label s' = "Status: Connection Failed" /\
     connect_button s' = connect_button s /\ disconnect_button s' = disconnect_button s /\
     start_button s' = start_button s /\ metrics_combo s' = metrics_combo s) /\
  (raises E at_open (OBD_new (Some cs)) = None -> is_connected E at_conn = true ->
   forall at_list,
     (supports E at_conn commands.VIN = false /\ at_list = at_conn) \/
     (supports E at_conn commands.VIN = true /\
      raises E at_conn (OBD_query commands.VIN) = None /\
      at_list = OBD_query commands.VIN :: at_conn) ->
     connection s' <> None /\ status_label s' = "Status: Connected to " ++ cs /\
     connect_button s' = false /\ disconnect_button s' = true /\ start_button s' = true /\
     items (metrics_combo s') = map cmd_name (offered (supported_commands E at_list)) /\
     ~ In "VIN" (items (metrics_combo s')) /\
     currentText (metrics_combo s') = hd "" (items (metrics_combo s'))).
Proof.
  intros cs at_open at_conn s'. subst s'.
  rewrite connect_to_adapter_with. fold cs. rewrite connect_with_run.
  change (trace (events_processed (set_status_label "Status: Connecting..." s)))
    with at_open.
  destruct (raises E at_open (OBD_new (Some cs))) as [e|] eqn:Hr.
  - split; [reflexivity|]. split; [|split; intro H; discriminate H].
    intros e' _. repeat split.
  - cbv zeta.
    match goal with
    | |- context [is_connected E ?t] => change t with at_conn
    end.
    destruct (is_connected E at_conn) eqn:Hok.
    + match goal with
      | |- context [supports E ?t commands.VIN] => change t with at_conn
      end.
      destruct (supports E at_conn commands.VIN) eqn:Hsup.
      * match goal with
        | |- context [raises E ?t (OBD_query commands.VIN)] => change t with at_conn
        end.
        destruct (raises E at_conn (OBD_query commands.VIN)) as [e|] eqn:Hq.
        -- split; [reflexivity|]. split; [intros e' He; discriminate He|].
           split; [intros _ H; discriminate H|].
           intros _ _ at_list [[H _]|[_ [H _]]]; discriminate H.
        -- split; [reflexivity|]. split; [intros e' He; discriminate He|].
           split; [intros _ H; discriminate H|].
           intros _ _ at_list [[H _]|[_ [_ ->]]]; [discriminate H|].
           destruct (populated_items (offered (supported_commands E
                       (OBD_query commands.VIN :: at_conn)))) as [Hi Ht].
           remember (populated _) as cb eqn:Hcb. simpl. rewrite Ht, Hi.
           repeat split; try discriminate. apply offered_no_vin.
      * split; [reflexivity|]. split; [intros e' He; discriminate He|].
        split; [intros _ H; discriminate H|].
        intros _ _ at_list [[_ ->]|[H _]]; [|discriminate H].
        destruct (populated_items (offered (supported_commands E at_conn))) as [Hi Ht].
        remember (populated _) as cb eqn:Hcb. simpl. rewrite Ht, Hi.
        repeat split; try discriminate. apply offered_no_vin.
    + split; [reflexivity|]. split; [intros e' He; discriminate He|].
      split; [|intros _ H; discriminate H].
      intros _ _. simpl. repeat split. discriminate.
Qed.

(** When the VIN query raises after a successful connect, the handler sets
    the status to "Disconnected" although the connection object is held and
    the buttons were already switched: connect stays disabled, disconnect and
    start stay enabled, and the metric box is not populated. *)
Theorem connect_to_adapter_vin_query_raises s e :
  let cs := connection_string s in
  let at_conn := OBD_new (Some cs) :: ProcessEvents :: trace s in
  let s' := snd (connect_to_adapter E s) in
  raises E (ProcessEvents :: trace s) (OBD_new (Some cs)) = None ->
  is_connected E at_conn = true ->
  supports E at_conn commands.VIN = true ->
  raises E at_conn (OBD_query commands.VIN) = Some e ->
  fst (connect_to_adapter E s) = Ok tt /\
  status_label s' = "Status: Disconnected" /\
  connection s' <> None /\
  connect_button s' = false /\ disconnect_button s' = true /\ start_button s' = true /\
  metrics_combo s' = metrics_combo s /\
  filter is_dialog (trace s') =
    Dialog Critical "Error" ("Connection error: " ++ e) :: filter is_dialog (trace s).
Proof.
  intros cs at_conn s' Hr Hok Hsup Hq. subst s'.
  rewrite connect_to_adapter_with. fold cs. rewrite connect_with_run.
  change (trace (events_processed (set_status_label "Status: Connecting..." s)))
    with (ProcessEvents :: trace s).
  rewrite Hr. cbv zeta.
  match goal with
  | |- context [is_connected E ?t] => change t with at_conn
  end.
  rewrite Hok.
  match goal with
  | |- context [supports E ?t commands.VIN] => change t with at_conn
  end.
  rewrite Hsup.
  match goal with
  | |- context [raises E ?t (OBD_query commands.VIN)] => change t with at_conn
  end.
  rewrite Hq. simpl. repeat split. discriminate.
Qed.

(** *** Starting *)

(** [start_monitoring] only warns, and changes nothing else, when there is
    no connected adapter or when the box shows the placeholder or nothing.
    Whenever it returns, one of three things happened: it only warned; or it
    started a new watcher of the selected command; or a library call of its
    [try] block raised, a critical dialog "Failed to start monitoring: ..."
    was shown and [stop_monitoring] left the loop Idle with the start control
    enabled and the stop control disabled.  An unknown metric name is such a
    failure, with the quoted name as its message. *)
Theorem start_monitoring_outcomes s :
  let name := currentText (metrics_combo s) in
  let not_connected := Dialog Warning "Warning" "Not connected to the adapter." in
  let no_metric := Dialog Warning "Warning" "Please select a metric to monitor." in
  (truthy (connection s) = false \/ is_connected E (trace s) = false ->
   start_monitoring E s = (Ok tt, record not_connected s)) /\
  (truthy (connection s) = true -> is_connected E (trace s) = true ->
   name = "Select a metric" \/ name = "" ->
   start_monitoring E s = (Ok tt, record no_metric s)) /\
  (truthy (connection s) = true -> is_connected E (trace s) = true ->
   name <> "Select a metric" -> name <> "" -> known_command E name = false ->
   In (Dialog Critical "Error" ("Failed to start monitoring: " ++ "'" ++ name ++ "'"))
      (trace (snd (start_monitoring E s)))) /\
  (fst (start_monitoring E s) = Ok tt ->
   let s' := snd (start_monitoring E s) in
   s' = record not_connected s \/ s' = record no_metric s \/ s' = started name s \/
   (async_connection s' = None /\ start_button s' = true /\ stop_button s' = false /\
    data_label s' = "Data: N/A" /\
    exists e, In (Dialog Critical "Error" ("Failed to start monitoring: " ++ e)) (trace s'))).
Proof.
  intros name not_connected no_metric.
  assert (Hstop : forall e st,
    let r := stop_monitoring E (record (Dialog Critical "Error" ("Failed to start monitoring: " ++ e)) st) in
    In (Dialog Critical "Error" ("Failed to start monitoring: " ++ e)) (trace (snd r)) /\
    (fst r = Ok tt ->
     async_connection (snd r) = None /\ start_button (snd r) = true /\
     stop_button (snd r) = false /\ data_label (snd r) = "Data: N/A")).
  { intros e st r. subst r. rewrite stop_monitoring_run. simpl.
    destruct (async_connection st) as [h|] eqn:Ha.
    - destruct (raises E _ (Async_stop h)); simpl.
      + split; [right; left; reflexivity|intro H; discriminate H].
      + unfold async_updated. simpl.
        destruct (nth_error (asyncs st) h); simpl;
          (split; [right; left; reflexivity|intros _; repeat split]).
    - simpl. split; [left; reflexivity|intros _; repeat split; exact Ha]. }
  unfold start_monitoring, try_except, commands_getitem, obd_Async, async_watch,
    async_start, with_async, call, raise, bind, gets, modify, ret,
    QMessageBox_warning, QMessageBox_critical, observe.
  destruct (truthy (connection s)); simpl.
  2:{ repeat split; try (intros; discriminate). intros _. left. reflexivity. }
  destruct (is_connected E (trace s)); simpl.
  2:{ repeat split; try (intros; discriminate). intros _. left. reflexivity. }
  split; [intros [H|H]; discriminate H|].
  fold name.
  destruct (String.eqb_spec name "Select a metric") as [Hn1|Hn1]; simpl.
  { split; [reflexivity|]. split; [intros _ _ H; contradiction|].
    intros _. right. left. reflexivity. }
  destruct (String.eqb_spec name "") as [Hn2|Hn2]; simpl.
  { split; [reflexivity|]. split; [intros _ _ _ H; contradiction|].
    intros _. right. left. reflexivity. }
  split; [intros _ _ [H|H]; contradiction|].
  destruct (known_command E name); simpl.
  2:{ split; [intros; apply Hstop|].
      intros Hret. right. right. right.
      destruct (Hstop ("'" ++ name ++ "'") s) as [Hin Hidle].
      destruct (Hidle Hret) as (H1 & H2 & H3 & H4).
      repeat split; try assumption. eexists. exact Hin. }
  split; [intros _ _ _ _ H; discriminate H|].
  destruct (raises E (trace s) Async_new) as [e|]; simpl.
  { intros Hret. right. right. right.
    destruct (Hstop e (record Async_new s)) as [Hin Hidle].
    destruct (Hidle Hret) as (H1 & H2 & H3 & H4).
    repeat split; try assumption. eexists. exact Hin. }
  destruct (raises E (Async_new :: trace s) _) as [e|]; simpl.
  { intros Hret. right. right. right.
    match goal with
    | |- context [stop_monitoring E (record _ ?st)] =>
        destruct (Hstop e st) as [Hin Hidle]
    end.
    destruct (Hidle Hret) as (H1 & H2 & H3 & H4).
    repeat split; try assumption. eexists. exact Hin. }
  rewrite nth_error_last. simpl.
  destruct (raises E (Async_watch _ _ :: _) _) as [e|]; simpl.
  { intros Hret. right. right. right.
    match goal with
    | |- context [stop_monitoring E (record _ ?st)] =>
        destruct (Hstop e st) as [Hin Hidle]
    end.
    destruct (Hidle Hret) as (H1 & H2 & H3 & H4).
    repeat split; try assumption. eexists. exact Hin. }
  rewrite list_set_last. rewrite nth_error_last. simpl. rewrite list_set_last.
  intros _. right. right. left. reflexivity.
Qed.

(** *** Delivering the queued values *)

Lemma shown_after_last vs v d : shown_after (vs ++ [v]) d = "Data: " ++ v.
Proof. unfold shown_after. rewrite fold_left_app. reflexivity. Qed.

(** The GUI thread shows the last value the callback emitted: delivering the
    queue empties it and leaves the data label at "Data: <last queued
    value>" (or as it was when nothing was queued), without touching the
    data log or the watcher; so after a non-null response and a delivery the
    label shows that response's value. *)
Theorem deliver_signals_shows_last_value :
  (forall s,
     let s' := snd (deliver_signals s) in
     fst (deliver_signals s) = Ok tt /\
     signals s' = [] /\
     data_label s' = shown_after (signals s) (data_label s) /\
     data_log s' = data_log s /\ async_connection s' = async_connection s) /\
  (forall d, shown_after [] d = d) /\
  (forall vs v d, shown_after (vs ++ [v]) d = "Data: " ++ v) /\
  (forall v s,
     data_label (snd (deliver_signals (snd (on_data_received E (Decoded v) s)))) =
     "Data: " ++ str v).
Proof.
  split; [|split; [|split]].
  - intro s. rewrite deliver_signals_run. simpl. repeat split.
  - reflexivity.
  - apply shown_after_last.
  - intros v s. rewrite deliver_signals_run, on_data_received_decoded.
    simpl. apply shown_after_last.
Qed.

(** *** A disconnect that fails *)


(** *** The library's watchers *)

Lemma length_list_set {A} (xs : list A) : forall h a,
  List.length (list_set h a xs) = List.length xs.
Proof.
  induction xs as [|x xs IH]; intros [|h] a; simpl; try reflexivity.
  rewrite IH. reflexivity.
Qed.

(** [with_async h g] keeps watcher [k] quiet when [g] starts nothing, or
    when it works on another watcher. *)
Lemma with_async_quiet k h g :
  (forall a, running a = false -> running (g a) = false) \/ h <> k ->
  keeps (quiet k) (with_async h g).
Proof.
  intros Hg s [Hlen Hq]. unfold with_async, modify, quiet, may_call_back in *. simpl.
  destruct (nth_error (asyncs s) h) as [a|] eqn:Hn; simpl; [|split; assumption].
  rewrite length_list_set. split; [exact Hlen|].
  destruct (Nat.eq_dec h k) as [->|Hne].
  - rewrite (nth_error_list_set _ _ _ _ Hn). rewrite Hn in Hq.
    destruct Hg as [Hg|Hg]; [apply Hg; exact Hq|contradiction].
  - rewrite nth_error_list_set_other by exact Hne. exact Hq.
Qed.

Lemma record_quiet k ev s : quiet k s -> quiet k (record ev s).
Proof. intro H. exact H. Qed.

Lemma async_stop_quiet k h : keeps (quiet k) (async_stop E h).
Proof.
  unfold async_stop. apply keeps_bind.
  - apply win_keeps_call. intros s H. exact H.
  - intros _. apply with_async_quiet. left. reflexivity.
Qed.

Lemma stop_monitoring_quiet k : keeps (quiet k) (stop_monitoring E).
Proof.
  unfold stop_monitoring. apply keeps_bind; [apply keeps_gets|]. intros [h|].
  - apply keeps_bind.
    + apply keeps_bind; [apply async_stop_quiet|].
      intros _. apply keeps_modify. intros s H. exact H.
    + intros _. win_keep ltac:(assumption).
  - win_keep ltac:(assumption).
Qed.

Lemma obd_Async_run s :
  obd_Async E s =
  match raises E (trace s) Async_new with
  | Some e => (Raise e, record Async_new s)
  | None => (Ok (List.length (asyncs s)),
             set_asyncs (asyncs s ++ [{| watched := []; running := false |}])%list
               (record Async_new s))
  end.
Proof.
  unfold obd_Async, bind, call, gets, modify, ret.
  destruct (raises E (trace s) Async_new); reflexivity.
Qed.

Lemma start_monitoring_quiet k : keeps (quiet k) (start_monitoring E).
Proof.
  unfold start_monitoring.
  apply keeps_bind; [apply keeps_gets|]. intro c.
  apply keeps_bind; [apply keeps_gets|]. intro ok.
  destruct (negb (truthy c) || negb ok).
  { apply win_keeps_observe. intros s H. exact H. }
  apply keeps_bind; [apply keeps_gets|]. intro name.
  destruct ((name =? "Select a metric") || (name =? "")).
  { apply win_keeps_observe. intros s H. exact H. }
  apply keeps_try_except.
  - apply keeps_bind.
    { unfold commands_getitem. destruct (known_command E name);
        [apply keeps_ret|apply win_keeps_raise]. }
    intro cmd.
    apply (keeps_bind_value (quiet k) (fun a _ => a <> k)).
    + intros s [Hlen Hq]. rewrite obd_Async_run.
      destruct (raises E (trace s) Async_new); simpl.
      * split; [split; assumption|intros a H; discriminate H].
      * split.
        -- unfold quiet, may_call_back. simpl. rewrite length_app. simpl.
           split; [lia|]. rewrite nth_error_app1 by exact Hlen. exact Hq.
        -- intros a Ha. injection Ha as <-. lia.
    + intros a s [Hq Hne]. split; [|exact Hne]. revert s Hq.
      change (keeps (quiet k)
        (modify (set_async_connection (Some a)) ;;
         async_watch E a cmd ;; async_start E a ;;
         modify (set_start_button false) ;; modify (set_stop_button true))).
      apply keeps_bind; [apply keeps_modify; intros s H; exact H|]. intros _.
      apply keeps_bind.
      { unfold async_watch. apply keeps_bind.
        - apply win_keeps_call. intros s H. exact H.
        - intros _. apply with_async_quiet. left.
          intros x Hx. rewrite Hx. reflexivity. }
      intros _. apply keeps_bind.
      { unfold async_start. apply keeps_bind.
        - apply win_keeps_call. intros s H. exact H.
        - intros _. apply with_async_quiet. right. exact Hne. }
      intros _. win_keep ltac:(assumption).
  - intro e. apply keeps_bind.
    + apply win_keeps_observe. intros s H. exact H.
    + intros _. apply stop_monitoring_quiet.
Qed.

Lemma disconnect_from_adapter_quiet k : keeps (quiet k) (disconnect_from_adapter E).
Proof.
  unfold disconnect_from_adapter. apply keeps_bind; [apply keeps_gets|]. intros a.
  apply keeps_bind.
  { destruct a as [h|]; [|apply keeps_ret].
    apply keeps_bind; [apply async_stop_quiet|].
    intros _. apply keeps_modify. intros s H. exact H. }
  intros _. win_unfold. win_keep ltac:(assumption).
Qed.

Lemma connect_to_adapter_quiet k : keeps (quiet k) (connect_to_adapter E).
Proof. win_unfold. win_keep ltac:(assumption). Qed.

Lemma run_quiet k a : keeps (quiet k) (run E a).
Proof.
  destruct a; simpl.
  - apply connect_to_adapter_quiet.
  - apply disconnect_from_adapter_quiet.
  - apply start_monitoring_quiet.
  - apply stop_monitoring_quiet.
  - apply disconnect_from_adapter_quiet.
  - unfold fire_single_shot. apply keeps_bind; [apply keeps_gets|].
    intros [|t rest]; [apply keeps_ret|].
    apply keeps_bind; [apply keeps_modify; intros s H; exact H|].
    intros _. apply connect_to_adapter_quiet.
  - win_unfold. win_keep ltac:(assumption).
  - unfold on_data_received. destruct response; win_keep ltac:(assumption).
  - win_keep ltac:(assumption).
  - win_keep ltac:(assumption).
  - win_keep ltac:(assumption).
Qed.

Lemma win_exec_keeps (P : State -> Prop) :
  (forall a, keeps P (run E a)) -> forall acts s, P s -> P (exec E acts s).
Proof.
  intros Hk acts. induction acts as [|a acts IH]; intros s Hs; simpl.
  - exact Hs.
  - apply IH. apply Hk. exact Hs.
Qed.

(** The held handle denotes an object of the library. *)
Lemma with_async_valid a h g :
  keeps (fun s => (forall h0, async_connection s = Some h0 -> h0 < List.length (asyncs s)) /\
                  a < List.length (asyncs s))
        (with_async h g).
Proof.
  intros s [HV Ha]. unfold with_async, modify. simpl.
  destruct (nth_error (asyncs s) h); simpl; [|split; assumption].
  rewrite length_list_set. split; assumption.
Qed.

Lemma with_async_handles h g :
  keeps (fun s => forall h0, async_connection s = Some h0 -> h0 < List.length (asyncs s))
        (with_async h g).
Proof.
  intros s HV. unfold with_async, modify. simpl.
  destruct (nth_error (asyncs s) h); simpl; [|assumption].
  rewrite length_list_set. assumption.
Qed.

Lemma stop_monitoring_handles :
  keeps (fun s => forall h0, async_connection s = Some h0 -> h0 < List.length (asyncs s))
        (stop_monitoring E).
Proof.
  unfold stop_monitoring. apply keeps_bind; [apply keeps_gets|]. intros [h|].
  - apply keeps_bind.
    + apply keeps_bind.
      * unfold async_stop. apply keeps_bind.
        -- apply win_keeps_call. intros s H. exact H.
        -- intros _. apply with_async_handles.
      * intros _. apply keeps_modify. intros s _ h0 H. discriminate H.
    + intros _. win_keep ltac:(first [assumption | match goal with H : forall _, _ -> _ |- _ => apply H; assumption end]).
  - win_keep ltac:(first [assumption | match goal with H : forall _, _ -> _ |- _ => apply H; assumption end]).
Qed.

Lemma start_monitoring_handles :
  keeps (fun s => forall h0, async_connection s = Some h0 -> h0 < List.length (asyncs s))
        (start_monitoring E).
Proof.
  unfold start_monitoring.
  apply keeps_bind; [apply keeps_gets|]. intro c.
  apply keeps_bind; [apply keeps_gets|]. intro ok.
  destruct (negb (truthy c) || negb ok).
  { apply win_keeps_observe. intros s H. exact H. }
  apply keeps_bind; [apply keeps_gets|]. intro name.
  destruct ((name =? "Select a metric") || (name =? "")).
  { apply win_keeps_observe. intros s H. exact H. }
  apply keeps_try_except.
  - apply keeps_bind.
    { unfold commands_getitem. destruct (known_command E name);
        [apply keeps_ret|apply win_keeps_raise]. }
    intro cmd.
    apply (keeps_bind_value _ (fun a s => a < List.length (asyncs s))).
    + intros s HV. rewrite obd_Async_run.
      destruct (raises E (trace s) Async_new); simpl.
      * split; [exact HV|intros a H; discriminate H].
      * split.
        -- intros h0 Hh0. rewrite length_app. simpl. apply HV in Hh0. lia.
        -- intros a Ha. injection Ha as <-. rewrite length_app. simpl. lia.
    + intros a.
      apply keeps_bind.
      { apply keeps_modify. intros s [HV Ha]. simpl. split; [|exact Ha].
        intros h0 Hh0. injection Hh0 as <-. exact Ha. }
      intros _. apply keeps_bind.
      { unfold async_watch. apply keeps_bind.
        - apply win_keeps_call. intros s H. exact H.
        - intros _. apply with_async_valid. }
      intros _. apply keeps_bind.
      { unfold async_start. apply keeps_bind.
        - apply win_keeps_call. intros s H. exact H.
        - intros _. apply with_async_valid. }
      intros _. win_keep ltac:(first [assumption | match goal with H : forall _, _ -> _ |- _ => apply H; assumption end]).
  - intro e. apply keeps_bind.
    + apply win_keeps_observe. intros s H. exact H.
    + intros _. apply stop_monitoring_handles.
Qed.

Lemma window_inv_frame (m : Stmt unit) :
  preserves async_connection m -> preserves asyncs m ->
  keeps (fun s => connection s <> None) m ->
  keeps window_inv m.
Proof.
  intros Ha Hl Hc s [H1 H2]. unfold window_inv. split.
  - intro Hn. apply Hc. apply H1. rewrite <- (Ha s). exact Hn.
  - intros h Hh. rewrite (Hl s). apply H2. rewrite <- (Ha s). exact Hh.
Qed.

Lemma connect_to_adapter_window_inv : keeps window_inv (connect_to_adapter E).
Proof.
  apply window_inv_frame.
  - win_unfold. win_frame ltac:(reflexivity).
  - win_unfold. win_frame ltac:(reflexivity).
  - win_unfold. win_keep ltac:(first [assumption | simpl; discriminate]).
Qed.

Lemma idle_window_inv s : async_connection s = None -> window_inv s.
Proof.
  intro H. unfold window_inv. rewrite H.
  split; [intro Hn; contradiction|intros h Hh; discriminate Hh].
Qed.

Lemma stop_monitoring_window_inv : keeps window_inv (stop_monitoring E).
Proof.
  intros s Hs. rewrite stop_monitoring_run.
  destruct (async_connection s) as [h|] eqn:Ha.
  - destruct (raises E (trace s) (Async_stop h)); simpl.
    + exact Hs.
    + apply idle_window_inv. reflexivity.
  - apply idle_window_inv. exact Ha.
Qed.

Lemma close_and_reset_idle s :
  async_connection s = None -> async_connection (snd (close_and_reset E s)) = None.
Proof.
  intro Ha. unfold close_and_reset.
  destruct (connection s); [destruct (raises E (trace s) OBD_close)|]; simpl; exact Ha.
Qed.

Lemma disconnect_from_adapter_window_inv : keeps window_inv (disconnect_from_adapter E).
Proof.
  intros s Hs. rewrite disconnect_from_adapter_run.
  destruct (async_connection s) as [h|] eqn:Ha.
  - destruct (raises E (trace s) (Async_stop h)); simpl.
    + exact Hs.
    + apply idle_window_inv. apply close_and_reset_idle. reflexivity.
  - apply idle_window_inv. apply close_and_reset_idle. exact Ha.
Qed.

Lemma start_monitoring_window_inv : keeps window_inv (start_monitoring E).
Proof.
  intros s [H1 H2]. split.
  - assert (Hconn : connection (snd (start_monitoring E s)) = connection s).
    { generalize s. change (preserves connection (start_monitoring E)).
      win_unfold. win_frame ltac:(reflexivity). }
    rewrite Hconn. intros Hn.
    destruct (connection s) as [c|] eqn:Hc; [discriminate|].
    exfalso. apply Hn.
    unfold start_monitoring, bind, gets, QMessageBox_warning, observe.
    rewrite Hc. simpl.
    destruct (async_connection s) as [h|] eqn:Ha; [|reflexivity].
    exfalso. apply H1; [discriminate|reflexivity].
  - apply start_monitoring_handles. exact H2.
Qed.

Lemma run_window_inv a : keeps window_inv (run E a).
Proof.
  destruct a; simpl.
  - apply connect_to_adapter_window_inv.
  - apply disconnect_from_adapter_window_inv.
  - apply start_monitoring_window_inv.
  - apply stop_monitoring_window_inv.
  - apply disconnect_from_adapter_window_inv.
  - unfold fire_single_shot. apply keeps_bind; [apply keeps_gets|].
    intros [|t rest]; [apply keeps_ret|].
    apply keeps_bind; [apply keeps_modify; intros s H; exact H|].
    intros _. apply connect_to_adapter_window_inv.
  - apply window_inv_frame;
      [win_unfold; win_frame ltac:(reflexivity)
      |win_unfold; win_frame ltac:(reflexivity)
      |win_unfold; win_keep ltac:(assumption)].
  - unfold on_data_received. destruct response;
      (apply window_inv_frame;
        [win_frame ltac:(reflexivity)|win_frame ltac:(reflexivity)|win_keep ltac:(assumption)]).
  - apply window_inv_frame;
      [win_frame ltac:(reflexivity)|win_frame ltac:(reflexivity)|win_keep ltac:(assumption)].
  - apply window_inv_frame;
      [win_frame ltac:(reflexivity)|win_frame ltac:(reflexivity)|win_keep ltac:(assumption)].
  - apply window_inv_frame;
      [win_frame ltac:(reflexivity)|win_frame ltac:(reflexivity)|win_keep ltac:(assumption)].
Qed.

Lemma exec_window_inv auto_connect host port acts :
  window_inv (exec E acts (init auto_connect host port)).
Proof.
  apply win_exec_keeps; [exact run_window_inv|].
  apply idle_window_inv. reflexivity.
Qed.

(** In every state the window reaches, by any sequence of its methods,
    callbacks and edits, a watcher is held only while a connection object is
    held, and the held handle denotes an [obd.Async] object the library
    created: [stop_monitoring] and [disconnect_from_adapter] never find a
    dangling watcher, and monitoring is never marked active without a
    connection. *)
Theorem watcher_held_only_with_connection auto_connect host port acts :
  let s := exec E acts (init auto_connect host port) in
  (watch_state s = Running -> connection s <> None) /\
  (forall h, async_connection s = Some h ->
     exists a, nth_error (asyncs s) h = Some a).
Proof.
  intro s. destruct (exec_window_inv auto_connect host port acts) as [H1 H2].
  fold s in H1, H2. split.
  - intro Hr. apply H1. unfold watch_state in Hr.
    destruct (async_connection s); [discriminate|discriminate].
  - intros h Hh. apply H2 in Hh.
    destruct (nth_error (asyncs s) h) as [a|] eqn:Hn; [exists a; reflexivity|].
    apply nth_error_None in Hn. lia.
Qed.

(** Once stopped, a watcher is never started again: in every state the
    window reaches, after a [stop_monitoring] that returns, the library has
    no callback to invoke for the watcher that was held, whatever is done to
    the window afterwards (a later start creates a new watcher). *)
Theorem stopped_watcher_stays_stopped auto_connect host port before :
  let s := exec E before (init auto_connect host port) in
  forall h, async_connection s = Some h ->
  fst (stop_monitoring E s) = Ok tt ->
  forall after response,
    library_callback E h response (exec E after (snd (stop_monitoring E s))) = None.
Proof.
  intros s h Ha Hret after response.
  destruct (exec_window_inv auto_connect host port before) as [_ H2]. fold s in H2.
  assert (Hq : quiet h (snd (stop_monitoring E s))).
  { revert Hret. rewrite stop_monitoring_run, Ha.
    destruct (raises E (trace s) (Async_stop h)); simpl; [discriminate|].
    intros _. split.
    - unfold async_updated. simpl.
      destruct (nth_error (asyncs s) h); simpl;
        [rewrite length_list_set|]; apply H2; exact Ha.
    - apply async_updated_stopped. }
  destruct (win_exec_keeps (quiet h) (run_quiet h) after _ Hq) as [_ Hoff].
  unfold library_callback. rewrite Hoff. reflexivity.
Qed.

(** *** The watch loop *)



















(** *** Connections opened *)

Lemma run_opened_other a :
  is_connect a = false -> is_fire a = false ->
  preserves (fun st => opened (trace st)) (run E a).
Proof.
  intros Hc Hf. destruct a; try discriminate;
    try (unfold run, on_data_received; destruct response);
    win_unfold;
    win_frame ltac:(first [reflexivity | simpl; rewrite opened_cons; simpl; apply app_nil_r]).
Qed.

Lemma run_single_shot a : is_fire a = false -> preserves single_shot (run E a).
Proof.
  intros Hf. destruct a; try discriminate;
    try (unfold run, on_data_received; destruct response);
    win_unfold; win_frame ltac:(reflexivity).
Qed.

Lemma fire_single_shot_run s :
  fire_single_shot E s =
  match single_shot s with
  | [] => (Ok tt, s)
  | _ :: rest => connect_to_adapter E (set_single_shot rest s)
  end.
Proof.
  unfold fire_single_shot, bind at 1, gets at 1.
  destruct (single_shot s); reflexivity.
Qed.

Lemma exec_opened acts : forall s,
  List.length (opened (trace (exec E acts s))) =
  List.length (opened (trace s)) + List.length (filter is_connect acts) +
  Nat.min (List.length (single_shot s)) (List.length (filter is_fire acts)).
Proof.
  induction acts as [|a acts IH]; intro s.
  - simpl. lia.
  - change (exec E (a :: acts) s) with (exec E acts (snd (run E a s))).
    rewrite IH.
    destruct (is_fire a) eqn:Hf.
    + destruct a; try discriminate. simpl run. rewrite fire_single_shot_run.
      destruct (single_shot s) as [|t rest] eqn:Hss.
      * simpl. rewrite Hss. simpl. lia.
      * change (snd (connect_to_adapter E (set_single_shot rest s)))
          with (snd (run E ConnectToAdapter (set_single_shot rest s))).
        rewrite (run_single_shot ConnectToAdapter eq_refl).
        simpl run. rewrite connect_to_adapter_opens, length_app. simpl. lia.
    + rewrite (run_single_shot a Hf).
      destruct (is_connect a) eqn:Hc.
      * destruct a; try discriminate. simpl.
        rewrite connect_to_adapter_opens, length_app. simpl. lia.
      * rewrite (run_opened_other a Hc Hf s). simpl. rewrite Hc, Hf. lia.
Qed.

(** The window calls [obd.OBD] only in [connect_to_adapter], once per
    invocation (whether the call raises or not), and the start-up timer
    invokes it at most once: after any sequence of actions the number of
    calls of [obd.OBD] is the number of direct invocations plus one if the
    timer was pending and has fired.  With [--no-auto-connect] nothing
    connects unless the user does. *)
Theorem auto_connect_fires_once host port no_auto_connect acts :
  List.length (opened (trace (exec E acts (main host port no_auto_connect)))) =
  List.length (filter is_connect acts) +
  (if no_auto_connect then 0
   else match filter is_fire acts with [] => 0 | _ :: _ => 1 end).
Proof.
  rewrite exec_opened. destruct no_auto_connect; simpl.
  - lia.
  - destruct (filter is_fire acts); simpl; lia.
Qed.

(** *** After a disconnect *)

Lemma close_and_reset_returned s :
  fst (close_and_reset E s) = Ok tt ->
  connection (snd (close_and_reset E s)) = None /\
  async_connection (snd (close_and_reset E s)) = async_connection s /\
  metrics_combo (snd (close_and_reset E s)) = setCurrentIndex 0 (metrics_combo s).
Proof.
  unfold close_and_reset. destruct (connection s) eqn:Hc.
  - destruct (raises E (trace s) OBD_close); simpl; [discriminate|].
    intros _. repeat split.
  - intros _. simpl. repeat split. exact Hc.
Qed.

(** After a [disconnect_from_adapter] that returned, the metric box still
    lists what it listed, with its first entry selected; [start_monitoring]
    is refused with the warning "Not connected to the adapter." and creates
    no watcher; and [stop_monitoring], which finds no watcher, makes no
    library call but enables the start control although nothing is
    connected. *)
Theorem after_disconnect_start_is_refused s :
  fst (disconnect_from_adapter E s) = Ok tt ->
  let s' := snd (disconnect_from_adapter E s) in
  items (metrics_combo s') = items (metrics_combo s) /\
  currentIndex (metrics_combo s') =
    match items (metrics_combo s) with [] => None | _ :: _ => Some 0 end /\
  start_monitoring E s' =
    (Ok tt, record (Dialog Warning "Warning" "Not connected to the adapter.") s') /\
  stop_monitoring E s' = (Ok tt, idle_controls s') /\
  start_button (idle_controls s') = true /\ connection (idle_controls s') = None.
Proof.
  intros Hret s'.
  assert (H : connection s' = None /\ async_connection s' = None /\
              metrics_combo s' = setCurrentIndex 0 (metrics_combo s)).
  { subst s'. revert Hret. rewrite disconnect_from_adapter_run.
    destruct (async_connection s) as [h|] eqn:Ha.
    - destruct (raises E (trace s) (Async_stop h)); simpl; [discriminate|].
      intro H. destruct (close_and_reset_returned _ H) as (Hc & Has & Hm).
      split; [exact Hc|]. split; [rewrite Has; reflexivity|].
      rewrite Hm. simpl. unfold async_updated. simpl.
      destruct (nth_error (asyncs s) h); reflexivity.
    - intro H. destruct (close_and_reset_returned _ H) as (Hc & Has & Hm).
      split; [exact Hc|]. split; [rewrite Has; exact Ha|exact Hm]. }
  destruct H as (Hc & Ha & Hm).
  split; [rewrite Hm; reflexivity|].
  split; [rewrite Hm; simpl; destruct (items (metrics_combo s)); reflexivity|].
  split.
  { unfold start_monitoring, bind, gets. rewrite Hc. reflexivity. }
  split; [rewrite stop_monitoring_run, Ha; reflexivity|].
  split; [reflexivity|exact Hc].
Qed.

End MainWindowProperties.

(** ** Disconnecting, in both programs *)

Section Disconnecting.

Variable E : Env.


End Disconnecting.

(** ** Concrete sessions *)

Section Sessions.

Import Demo.

(** With the connection lost, one poll of [update_metrics] returns normally,
    leaves the timer running and the monitor connected, shows no dialog,
    queries all eight metrics and logs eight errors: the error does not stop
    the loop and is not reported once. *)
Lemma lost_connection_keeps_polling :
  let s := monitor_connected lost in
  let r := OBDMonitor.update_metrics lost s in
  raises lost (OBDMonitor.trace s) (OBD_query commands.RPM) = Some "connection lost" /\
  fst r = Ok tt /\
  OBDMonitor.timer (snd r) = Some 1000 /\
  OBDMonitor.connected (snd r) = true /\
  filter is_dialog (OBDMonitor.trace (snd r)) = [] /\
  List.length (queries (OBDMonitor.trace (snd r))) = 8 /\
  List.length (OBDMonitor.console (snd r)) = List.length (OBDMonitor.console s) + 8 /\
  ~ (OBDMonitor.timer (snd r) = None /\
     List.length (OBDMonitor.console (snd r)) = List.length (OBDMonitor.console s) + 1 /\
     List.length (queries (OBDMonitor.trace (snd r))) = 1).
Proof.
  vm_compute. repeat split. intros (H & _). discriminate H.
Qed.

(** A second [start_monitoring] while Running raises nothing and replaces
    the watcher held by [async_connection]. *)
Lemma second_start_replaces_subscription :
  let s := window_second_metric in
  let r := MainWindow.start_monitoring healthy s in
  MainWindow.watch_state s = MainWindow.Running /\
  MainWindow.async_connection s = Some 0 /\
  fst r = Ok tt /\
  filter is_dialog (MainWindow.trace (snd r)) = [] /\
  MainWindow.async_connection (snd r) = Some 1 /\
  nth_error (MainWindow.asyncs (snd r)) 1 =
    Some {| MainWindow.watched := [commands.SPEED]; MainWindow.running := true |} /\
  ~ (raised (fst r) = true /\
     MainWindow.async_connection (snd r) = MainWindow.async_connection s).
Proof.
  vm_compute. repeat split. intros (H & _). discriminate H.
Qed.


(** A window built with [--host 10.0.0.5] whose host field is emptied
    connects to the constructor's host, not to the default. *)
Lemma empty_field_uses_constructor_host :
  let s := window_custom_host in
  MainWindow.host_input s = "" /\
  MainWindow.connection_string s = "10.0.0.5:35000" /\
  opened (MainWindow.trace (snd (MainWindow.connect_to_adapter healthy s))) =
    [Some "10.0.0.5:35000"] /\
  MainWindow.connection_string s <> MainWindow.DEFAULT_CONNECTION_STRING.
Proof.
  vm_compute. repeat split. discriminate.
Qed.

(** The polling theorem at the lost connection: the first metric ends with
    the label "ERR". *)
Lemma update_metrics_logs_query_errors_witness :
  let s := monitor_connected lost in
  OBDMonitor.connected s = true /\
  OBDMonitor.connection s <> None /\
  NoDup (map fst (OBDMonitor.metric_widgets s)) /\
  fst (OBDMonitor.update_metrics lost s) = Ok tt /\
  OBDMonitor.label_of "RPM" (snd (OBDMonitor.update_metrics lost s)) = Some "ERR".
Proof.
  intro s.
  assert (H1 : OBDMonitor.connected s = true) by reflexivity.
  assert (H2 : OBDMonitor.connection s <> None) by (vm_compute; discriminate).
  assert (H3 : NoDup (map fst (OBDMonitor.metric_widgets s))) by apply exec_keys.
  destruct (update_metrics_logs_query_errors lost s H1 H2 H3)
    as (Hret & _ & _ & _ & _ & _ & Hat).
  destruct (Hat [] rpm_widget other_widgets "connection lost" eq_refl eq_refl)
    as (Hlabel & _).
  repeat split; assumption.
Defined.

(** The null-response theorem at the frames cut short: the first metric's
    query returns a null response and the metric ends with the label
    "N/A". *)
Lemma null_response_shows_not_available_witness :
  let s := monitor_connected garbled in
  OBDMonitor.connected s = true /\
  OBDMonitor.connection s <> None /\
  NoDup (map fst (OBDMonitor.metric_widgets s)) /\
  cut_short (OBDMonitor.trace s) commands.RPM = QueryEngine.Reply [Byte.x0b] /\
  QueryEngine.decode (canned_catalog commands.RPM) [Byte.x0b] = None /\
  fst (OBDMonitor.connection_query garbled commands.RPM s) = Ok Null /\
  OBDMonitor.connection (snd (OBDMonitor.update_metrics garbled s)) =
    OBDMonitor.connection s /\
  OBDMonitor.label_of "RPM" (snd (OBDMonitor.update_metrics garbled s)) = Some "N/A".
Proof.
  intro s.
  assert (H1 : OBDMonitor.connected s = true) by reflexivity.
  assert (H2 : OBDMonitor.connection s <> None) by (vm_compute; discriminate).
  assert (H3 : NoDup (map fst (OBDMonitor.metric_widgets s))) by apply exec_keys.
  assert (H4 : cut_short (OBDMonitor.trace s) commands.RPM = QueryEngine.Reply [Byte.x0b])
    by reflexivity.
  assert (H5 : QueryEngine.decode (canned_catalog commands.RPM) [Byte.x0b] = None)
    by reflexivity.
  destruct (null_response_shows_not_available healthy cut_short canned_catalog s H1 H2 H3)
    as (_ & Hconn & _ & _ & _ & Hat).
  destruct (Hat [] rpm_widget other_widgets [Byte.x0b] eq_refl H4 H5)
    as ((response & _ & Hquery & Hnull) & Hlabel & _).
  split; [exact H1|]. split; [exact H2|]. split; [exact H3|].
  split; [exact H4|]. split; [exact H5|].
  split; [|split; [exact Hconn|exact Hlabel]].
  simpl in Hquery. rewrite Hquery. destruct response; [reflexivity|discriminate Hnull].
Defined.

(** The save theorem after one poll of the healthy adapter. *)
Lemma save_metrics_rows_witness :
  OBDMonitor.files_writable healthy /\
  dict_get "obd_metrics_20240501_120000.csv"
    (OBDMonitor.files (snd (OBDMonitor.save_metrics healthy monitor_polled))) =
  Some (OBDMonitor.csv_header :: map OBDMonitor.csv_row (OBDMonitor.metrics monitor_polled)).
Proof.
  assert (Hw : OBDMonitor.files_writable healthy) by (intros tr filename; split; reflexivity).
  split; [exact Hw|].
  apply (save_metrics_rows healthy monitor_polled Hw).
Defined.

(** The not-connected theorem at the freshly started monitor. *)
Lemma not_connected_no_query_witness :
  let s := OBDMonitor.init healthy in
  (OBDMonitor.connected s = false \/ OBDMonitor.connection s = None) /\
  OBDMonitor.update_metrics healthy s = (Ok tt, s).
Proof.
  intro s.
  assert (H : OBDMonitor.connected s = false \/ OBDMonitor.connection s = None)
    by (left; reflexivity).
  split; [exact H|].
  apply (not_connected_no_query healthy s H).
Defined.

(** The start theorem at the running window with "SPEED" selected. *)
Lemma start_monitoring_replaces_watcher_witness :
  let s := window_second_metric in
  MainWindow.watch_state s = MainWindow.Running /\
  fst (MainWindow.start_monitoring healthy s) = Ok tt /\
  MainWindow.async_connection (snd (MainWindow.start_monitoring healthy s)) = Some 1.
Proof.
  intro s. split; [reflexivity|].
  destruct (start_monitoring_replaces_watcher healthy s "SPEED"
              eq_refl eq_refl eq_refl eq_refl eq_refl eq_refl eq_refl eq_refl eq_refl)
    as (Hret & _ & Ha & _).
  split; assumption.
Defined.


(** The connection-string theorem at a window started with auto-connect:
    the pending timer runs [connect_to_adapter]. *)
Lemma connection_string_host_port_witness :
  let s := MainWindow.main None None false in
  MainWindow.single_shot s = [500] /\
  MainWindow.fire_single_shot healthy s =
    MainWindow.connect_to_adapter healthy (MainWindow.set_single_shot [] s).
Proof.
  intro s.
  assert (H : MainWindow.single_shot s = [500]) by reflexivity.
  split; [exact H|].
  destruct (connection_string_host_port healthy) as (_ & _ & _ & _ & _ & Hfire).
  apply (Hfire s 500 [] H).
Defined.


(** *** Further sessions *)

Lemma connect_obd_outcomes_witness :
  let s := OBDMonitor.init healthy in
  raises healthy (Clock :: OBDMonitor.trace s) (OBD_new None) = None /\
  OBDMonitor.connected (snd (OBDMonitor.connect_obd healthy s)) = true /\
  OBDMonitor.timer (snd (OBDMonitor.connect_obd healthy s)) = Some 1000.
Proof.
  intro s.
  assert (Hr : raises healthy (Clock :: OBDMonitor.trace s) (OBD_new None) = None)
    by reflexivity.
  destruct (connect_obd_outcomes healthy s) as (_ & _ & _ & _ & _ & Hok).
  destruct (Hok Hr) as (_ & Hcar & _).
  destruct (Hcar eq_refl) as (Hc & Ht & _).
  split; [exact Hr|]. split; [exact Hc|exact Ht].
Defined.

Lemma timer_tick_polls_all_metrics_witness :
  let s := monitor_connected healthy in
  OBDMonitor.timer s <> None /\
  queries (OBDMonitor.trace (snd (OBDMonitor.update_metrics healthy s))) =
  (queries (OBDMonitor.trace s) ++ map snd OBDMonitor.metrics_table)%list.
Proof.
  intro s.
  assert (Ht : OBDMonitor.timer s <> None) by (vm_compute; discriminate).
  split; [exact Ht|].
  destruct (timer_tick_polls_all_metrics healthy [OBDMonitor.ToggleConnection])
    as (_ & _ & Hpoll).
  exact (Hpoll Ht).
Defined.

Lemma stored_metrics_form_dictionary_witness :
  OBDMonitor.SaveMetrics <> OBDMonitor.UpdateMetrics /\
  OBDMonitor.metrics (snd (OBDMonitor.run healthy OBDMonitor.SaveMetrics monitor_polled)) =
  OBDMonitor.metrics monitor_polled /\
  dict_get "RPM" (OBDMonitor.metrics monitor_polled) <> None /\
  dict_get "RPM" (OBDMonitor.metrics
                    (snd (OBDMonitor.update_metrics healthy monitor_polled))) <> None.
Proof.
  assert (Hne : OBDMonitor.SaveMetrics <> OBDMonitor.UpdateMetrics) by discriminate.
  assert (Hin : dict_get "RPM" (OBDMonitor.metrics monitor_polled) <> None)
    by (vm_compute; discriminate).
  destruct (stored_metrics_form_dictionary healthy) as (Hsame & Hkeep & _).
  split; [exact Hne|]. split; [exact (Hsame _ monitor_polled Hne)|].
  split; [exact Hin|exact (Hkeep monitor_polled "RPM" Hin)].
Defined.

Lemma decoded_value_is_stored_and_shown_witness :
  let s := monitor_connected healthy in
  OBDMonitor.connected s = true /\
  OBDMonitor.connection s <> None /\
  NoDup (map fst (OBDMonitor.metric_widgets s)) /\
  dict_get "RPM" (OBDMonitor.metrics (snd (OBDMonitor.update_metrics healthy s))) =
    Some rpm_725 /\
  OBDMonitor.label_of "RPM" (snd (OBDMonitor.update_metrics healthy s)) =
    Some "725.0 revolutions_per_minute".
Proof.
  intro s.
  assert (H1 : OBDMonitor.connected s = true) by reflexivity.
  assert (H2 : OBDMonitor.connection s <> None) by (vm_compute; discriminate).
  assert (H3 : NoDup (map fst (OBDMonitor.metric_widgets s))) by apply exec_keys.
  destruct (decoded_value_is_stored_and_shown healthy s H1 H2 H3
              [] rpm_widget other_widgets rpm_725 eq_refl eq_refl eq_refl)
    as (Hget & Hlabel).
  split; [exact H1|]. split; [exact H2|]. split; [exact H3|].
  split; [exact Hget|exact Hlabel].
Defined.

Lemma read_dtc_reports_codes_witness :
  let s := monitor_connected healthy in
  OBDMonitor.connected s = true /\
  OBDMonitor.connection s <> None /\
  fst (OBDMonitor.read_dtc healthy s) = Ok tt /\
  List.length (OBDMonitor.console (snd (OBDMonitor.read_dtc healthy s))) =
    List.length (OBDMonitor.console s) + 2 + 1.
Proof.
  intro s.
  assert (H1 : OBDMonitor.connected s = true) by reflexivity.
  assert (H2 : OBDMonitor.connection s <> None) by (vm_compute; discriminate).
  destruct (read_dtc_reports_codes healthy s H1 H2) as (Hret & _ & _ & Hcodes).
  destruct (Hcodes [("P0104", "Mass or Volume Air Flow Circuit Intermittent")]
              eq_refl eq_refl) as (_ & Hlen & _).
  { discriminate. }
  split; [exact H1|]. split; [exact H2|]. split; [exact Hret|exact Hlen].
Defined.

Lemma save_metrics_failure_leaves_prefix_witness :
  raises healthy (Clock :: OBDMonitor.trace monitor_polled)
    (File_open "obd_metrics_20240501_120000.csv") = None /\
  exists k,
    dict_get "obd_metrics_20240501_120000.csv"
      (OBDMonitor.files (snd (OBDMonitor.save_metrics healthy monitor_polled))) =
    Some (firstn k (OBDMonitor.csv_header ::
                    map OBDMonitor.csv_row (OBDMonitor.metrics monitor_polled))).
Proof.
  assert (Hr : raises healthy (Clock :: OBDMonitor.trace monitor_polled)
                 (File_open "obd_metrics_20240501_120000.csv") = None) by reflexivity.
  split; [exact Hr|].
  destruct (save_metrics_failure_leaves_prefix healthy monitor_polled)
    as (_ & _ & _ & _ & _ & _ & _ & Hprefix).
  exact (Hprefix Hr).
Defined.

Lemma disconnect_obd_close_raises_witness :
  let s := monitor_connected stuck in
  OBDMonitor.connection s = Some 2 /\
  raises stuck (OBDMonitor.trace s) OBD_close = Some "port busy" /\
  fst (OBDMonitor.disconnect_obd stuck s) = Raise "port busy" /\
  OBDMonitor.connected (snd (OBDMonitor.disconnect_obd stuck s)) = true /\
  OBDMonitor.timer (snd (OBDMonitor.disconnect_obd stuck s)) = None.
Proof.
  intro s.
  assert (Hc : OBDMonitor.connection s = Some 2) by reflexivity.
  assert (Hr : raises stuck (OBDMonitor.trace s) OBD_close = Some "port busy")
    by reflexivity.
  destruct (disconnect_obd_close_raises stuck s 2 "port busy" Hc Hr)
    as (Hrun & Ht & _ & Hk & _).
  split; [exact Hc|]. split; [exact Hr|].
  split; [rewrite Hrun; reflexivity|]. split; [rewrite Hk; reflexivity|exact Ht].
Defined.

Lemma toggle_connection_round_trip_witness :
  let s := OBDMonitor.init healthy in
  let s2 := snd (OBDMonitor.toggle_connection healthy
                   (snd (OBDMonitor.toggle_connection healthy s))) in
  OBDMonitor.connected s = false /\
  NoDup (map fst (OBDMonitor.metric_widgets s)) /\
  OBDMonitor.connected s2 = false /\ OBDMonitor.connection s2 = None /\
  OBDMonitor.timer s2 = None.
Proof.
  intros s s2.
  assert (H1 : OBDMonitor.connected s = false) by reflexivity.
  assert (H2 : NoDup (map fst (OBDMonitor.metric_widgets s)))
    by apply (exec_keys healthy []).
  destruct (toggle_connection_round_trip healthy s H1 H2 eq_refl eq_refl eq_refl)
    as (_ & Hc & Hh & Ht & _).
  split; [exact H1|]. split; [exact H2|]. split; [exact Hc|]. split; [exact Hh|exact Ht].
Defined.

Lemma connect_to_adapter_outcomes_witness :
  let s := MainWindow.main None None false in
  let at_conn := OBD_new (Some "192.168.0.10:35000") :: ProcessEvents :: MainWindow.trace s in
  raises healthy (ProcessEvents :: MainWindow.trace s)
    (OBD_new (Some "192.168.0.10:35000")) = None /\
  is_connected healthy at_conn = true /\
  MainWindow.items (MainWindow.metrics_combo (snd (MainWindow.connect_to_adapter healthy s))) =
    ["RPM"; "SPEED"] /\
  MainWindow.start_button (snd (MainWindow.connect_to_adapter healthy s)) = true.
Proof.
  intros s at_conn.
  assert (Hr : raises healthy (ProcessEvents :: MainWindow.trace s)
                 (OBD_new (Some "192.168.0.10:35000")) = None) by reflexivity.
  assert (Hok : is_connected healthy at_conn = true) by reflexivity.
  destruct (connect_to_adapter_outcomes healthy s) as (_ & _ & _ & Hconn).
  destruct (Hconn Hr Hok (OBD_query commands.VIN :: at_conn))
    as (_ & _ & _ & _ & Hstart & Hitems & _).
  { right. split; [reflexivity|]. split; reflexivity. }
  split; [exact Hr|]. split; [exact Hok|]. split; [exact Hitems|exact Hstart].
Defined.

Lemma connect_to_adapter_vin_query_raises_witness :
  let s := MainWindow.main None None false in
  let s' := snd (MainWindow.connect_to_adapter lost s) in
  raises lost (OBD_new (Some "192.168.0.10:35000") :: ProcessEvents :: MainWindow.trace s)
    (OBD_query commands.VIN) = Some "connection lost" /\
  MainWindow.status_label s' = "Status: Disconnected" /\
  MainWindow.connect_button s' = false /\ MainWindow.start_button s' = true.
Proof.
  intros s s'.
  assert (Hq : raises lost
                 (OBD_new (Some "192.168.0.10:35000") :: ProcessEvents :: MainWindow.trace s)
                 (OBD_query commands.VIN) = Some "connection lost") by reflexivity.
  destruct (connect_to_adapter_vin_query_raises lost s "connection lost"
              eq_refl eq_refl eq_refl Hq)
    as (_ & Hst & _ & Hcb & _ & Hsb & _).
  split; [exact Hq|]. split; [exact Hst|]. split; [exact Hcb|exact Hsb].
Defined.

Lemma start_monitoring_outcomes_witness :
  let s := MainWindow.main None None false in
  truthy (MainWindow.connection s) = false /\
  MainWindow.start_monitoring healthy s =
  (Ok tt, MainWindow.record (Dialog Warning "Warning" "Not connected to the adapter.") s).
Proof.
  intro s.
  assert (Hc : truthy (MainWindow.connection s) = false) by reflexivity.
  split; [exact Hc|].
  destruct (start_monitoring_outcomes healthy s) as (Hwarn & _).
  apply Hwarn. left. exact Hc.
Defined.


Lemma watcher_held_only_with_connection_witness :
  let s := MainWindow.exec healthy
             [MainWindow.ConnectToAdapter; MainWindow.StartMonitoring]
             (MainWindow.init false None None) in
  MainWindow.watch_state s = MainWindow.Running /\
  MainWindow.connection s <> None.
Proof.
  intro s.
  assert (Hr : MainWindow.watch_state s = MainWindow.Running) by reflexivity.
  split; [exact Hr|].
  destruct (watcher_held_only_with_connection healthy false None None
              [MainWindow.ConnectToAdapter; MainWindow.StartMonitoring]) as (Hconn & _).
  exact (Hconn Hr).
Defined.

Lemma stopped_watcher_stays_stopped_witness :
  let s := MainWindow.exec healthy
             [MainWindow.ConnectToAdapter; MainWindow.StartMonitoring]
             (MainWindow.init false None None) in
  MainWindow.async_connection s = Some 0 /\
  fst (MainWindow.stop_monitoring healthy s) = Ok tt /\
  MainWindow.library_callback healthy 0 (Decoded rpm_725)
    (MainWindow.exec healthy [MainWindow.StartMonitoring]
       (snd (MainWindow.stop_monitoring healthy s))) = None.
Proof.
  intro s.
  assert (Ha : MainWindow.async_connection s = Some 0) by reflexivity.
  assert (Hret : fst (MainWindow.stop_monitoring healthy s) = Ok tt) by reflexivity.
  split; [exact Ha|]. split; [exact Hret|].
  exact (stopped_watcher_stays_stopped healthy false None None
           [MainWindow.ConnectToAdapter; MainWindow.StartMonitoring] 0 Ha Hret
           [MainWindow.StartMonitoring] (Decoded rpm_725)).
Defined.

Lemma after_disconnect_start_is_refused_witness :
  let s := window_connected in
  let s' := snd (MainWindow.disconnect_from_adapter healthy s) in
  fst (MainWindow.disconnect_from_adapter healthy s) = Ok tt /\
  MainWindow.items (MainWindow.metrics_combo s') = ["RPM"; "SPEED"] /\
  MainWindow.start_monitoring healthy s' =
  (Ok tt, MainWindow.record (Dialog Warning "Warning" "Not connected to the adapter.") s').
Proof.
  intros s s'.
  assert (Hret : fst (MainWindow.disconnect_from_adapter healthy s) = Ok tt) by reflexivity.
  destruct (after_disconnect_start_is_refused healthy s Hret) as (Hitems & _ & Hstart & _).
  split; [exact Hret|]. split; [exact Hitems|exact Hstart].
Defined.

End Sessions.
